(** * Shelf sensor node: connectivity, command protocol and slot store

    A shallow embedding of the ESP32 firmware of the shelf monitor
    (Wi-Fi manager with credential rotation, MQTT manager with the
    command router, shelf manager with calibration and the persisted
    slot configuration), and the properties of its specification.

    Conventions of the embedding:
    - [int] and [long] values are [Z]; every index computed by the code
      stays far below 2^31, so no wrap-around occurs on them; the
      millisecond clock is an [unsigned long] and wraps at 2^32;
    - [float] is IEEE binary32 and [double] binary64, both taken from
      the standard library's executable specification [SpecFloat];
    - a C string ([const char*]) is the [string] of its characters, the
      terminating NUL left out, and so are the [String] objects that the
      sketch builds from its own literals and numbers; the [String] built
      from the payload of a message keeps every byte of it, a NUL too, and
      where the core reads such an object as a C string it stops at the
      first NUL ([c_str]);
    - global variables are the fields of one record per sketch, and a
      function of the firmware is a state transformer that may fault:
      [None] stands for an array access outside its bounds;
    - the peripherals (ranging sensors, name service, radio, broker
      session, flash key/value store) are components of the same record:
      oracles for what they will answer, logs for what was asked.
    Serial output is not modelled. *)

From Stdlib Require Import ZArith Ascii String List Lia.
From Stdlib Require Import Floats.SpecFloat.
From stdpp Require Import gmap strings list fin_maps pretty.

Local Open Scope Z_scope.

(* ===================================================================== *)
(** ** Arduino [String] and C string functions used by the sketches      *)
(* ===================================================================== *)

Module ArduinoString.

(** The double quote, written by its code; the JSON payloads are built
    from quoted keys and values. *)
Definition dq : string := String "034"%char EmptyString.

(** [q s] is [s] between double quotes. *)
Definition q (s : string) : string := dq +:+ s +:+ dq.

Definition code (c : ascii) : Z := Z.of_nat (nat_of_ascii c).

(** [isspace] of the C locale: space, \t, \n, \v, \f, \r. *)
Definition isspace (c : ascii) : bool :=
  (code c =? 32) || ((9 <=? code c) && (code c <=? 13)).

Definition tolower (c : ascii) : ascii :=
  if (65 <=? code c) && (code c <=? 90)
  then ascii_of_nat (nat_of_ascii c + 32) else c.

Definition toupper (c : ascii) : ascii :=
  if (97 <=? code c) && (code c <=? 122)
  then ascii_of_nat (nat_of_ascii c - 32) else c.

(** What a C function reads in the buffer of a [String]: the characters
    before the first NUL. *)
Fixpoint c_str (s : string) : string :=
  match s with
  | EmptyString => EmptyString
  | String c s' => if code c =? 0 then EmptyString else String c (c_str s')
  end.

(** The loop of the case conversions: it runs over the buffer and ends
    at the first NUL. *)
Fixpoint map_chars (f : ascii -> ascii) (s : string) : string :=
  match s with
  | EmptyString => EmptyString
  | String c s' => if code c =? 0 then s else String (f c) (map_chars f s')
  end.

(** [String::toLowerCase], [String::toUpperCase]: the characters before
    the first NUL change case, what follows is left as it is. *)
Definition toLowerCase : string -> string := map_chars tolower.
Definition toUpperCase : string -> string := map_chars toupper.

Fixpoint ltrim (s : string) : string :=
  match s with
  | EmptyString => EmptyString
  | String c s' => if isspace c then ltrim s' else s
  end.

Fixpoint rtrim (s : string) : string :=
  match s with
  | EmptyString => EmptyString
  | String c s' =>
      match rtrim s' with
      | EmptyString => if isspace c then EmptyString else String c EmptyString
      | r => String c r
      end
  end.

(** [String::trim]: white space removed at both ends of the whole
    object; a NUL is no white space. *)
Definition trim (s : string) : string := rtrim (ltrim s).

(** [String::startsWith] for a prefix without NUL, as the literals of
    the sketch are: [strncmp] over the length of the prefix. *)
Definition startsWith (s pre : string) : bool := String.prefix pre s.

(** [String::substring(left)]: the characters from position [left] on,
    empty when [left] is not a position of the string. *)
Fixpoint substring_from (left : nat) (s : string) : string :=
  match left, s with
  | O, _ => s
  | S n, EmptyString => EmptyString
  | S n, String _ s' => substring_from n s'
  end.

(** [strcmp(a, b) == 0] for two C strings; the comparison of a [String]
    with a literal is [equals (c_str s) literal]. *)
Definition equals (a b : string) : bool := bool_decide (a = b).

(** [String::indexOf(needle)], which is [strstr] on the two buffers: the
    position of the first occurrence of the needle, read up to its first
    NUL, in the receiver, read up to its first NUL; -1 when there is
    none, and for every needle when the receiver has no character. *)
Definition indexOf (s needle : string) : Z :=
  match s with
  | EmptyString => -1
  | _ => match String.index 0 (c_str needle) (c_str s) with
         | Some n => Z.of_nat n
         | None => -1
         end
  end.

(** *** Notions for the properties *)

(** Every character of [s] satisfies [p]. *)
Fixpoint all_chars (p : ascii -> bool) (s : string) : bool :=
  match s with
  | EmptyString => true
  | String c s' => p c && all_chars p s'
  end.

(** White space only; no NUL; neither white space nor NUL. *)
Definition blank : string -> bool := all_chars isspace.
Definition nul_free : string -> bool := all_chars (fun c => negb (code c =? 0)).
Definition solid : string -> bool :=
  all_chars (fun c => negb (isspace c) && negb (code c =? 0)).

(** The NUL character, as a byte of a payload. *)
Definition NUL : string := String "000"%char EmptyString.

(** [String(int)] and the printf conversion %d: decimal digits. *)
Definition of_int (z : Z) : string := pretty z.

(** A string filled on the left with zeros up to [d] characters. *)
Fixpoint zeros (n : nat) : string :=
  match n with O => EmptyString | S n' => String "0"%char (zeros n') end.

Definition pad_zeros (d : nat) (s : string) : string :=
  zeros (d - String.length s) +:+ s.

(** The digits of [n / 10^d] with [d] decimals, for [0 <= n]. *)
Definition fixed_digits (d : nat) (n : Z) : string :=
  let p := 10 ^ Z.of_nat d in
  match d with
  | O => of_int n
  | _ => of_int (n / p) +:+ "." +:+ pad_zeros d (of_int (n mod p))
  end.

End ArduinoString.

(* ===================================================================== *)
(** ** Floating point: binary32 [float], binary64 [double]               *)
(* ===================================================================== *)

Definition float : Set := spec_float.

Module Float64.
Definition prec : Z := 53.
Definition emax : Z := 1024.
Definition of_Z (z : Z) : float := binary_normalize prec emax z 0 false.
Definition add : float -> float -> float := SFadd prec emax.
Definition sub : float -> float -> float := SFsub prec emax.
Definition mul : float -> float -> float := SFmul prec emax.
Definition div : float -> float -> float := SFdiv prec emax.

(** The conversion of a [double] to an integer type: the fraction is
    dropped. *)
Definition to_Z (x : float) : Z :=
  match x with
  | S754_finite s m e =>
      let k := if 0 <=? e then Zpos m * 2 ^ e else Zpos m / 2 ^ (- e) in
      if s then - k else k
  | _ => 0
  end.

(** Neither infinite nor NaN. *)
Definition is_finite (x : float) : bool :=
  match x with
  | S754_zero _ | S754_finite _ _ _ => true
  | _ => false
  end.

(** *** [dtostrf] of the core (stdlib_noniso.c) *)

(** [while (number >= 10.0 * tenpow) { tenpow *= 10.0; digitcount++; }]
    with [fuel] rounds at most; a finite number needs fewer than 310. *)
Fixpoint count_digits (fuel : nat) (number tenpow : float) (digitcount : nat)
  : float * nat :=
  match fuel with
  | O => (tenpow, digitcount)
  | S fuel' =>
      if SFleb (mul (of_Z 10) tenpow) number
      then count_digits fuel' number (mul tenpow (of_Z 10)) (S digitcount)
      else (tenpow, digitcount)
  end.

(** [while (digitcount-- > 0) { digit = (int8_t)number; ... }]: one digit
    per round, cut from the front of the number, and the point after the
    digit that leaves [prec] rounds. *)
Fixpoint print_digits (digitcount : nat) (prec : nat) (number : float) : string :=
  match digitcount with
  | O => EmptyString
  | S digitcount' =>
      let digit := to_Z number in
      let digit := if digit >? 9 then 9 else digit in
      let c := ascii_of_nat (Z.to_nat (Z.lor 48 digit)) in
      let rest :=
        print_digits digitcount' prec (mul (sub number (of_Z digit)) (of_Z 10)) in
      if (digitcount' =? prec)%nat && (0 <? prec)%nat
      then String c (String "."%char rest)
      else String c rest
  end.

Fixpoint spaces (n : nat) : string :=
  match n with O => EmptyString | S n' => String " "%char (spaces n') end.

(** [dtostrf(number, width, prec, s)]: half a unit of the last decimal is
    added to the magnitude, in double precision, and the digits are then
    cut off one by one, in double precision too. *)
Definition dtostrf (number : float) (width : Z) (prec : nat) : string :=
  match number with
  | S754_nan => "nan"
  | S754_infinity _ => "inf"
  | _ =>
      let fillme := width in
      let fillme := if (0 <? prec)%nat then fillme - (Z.of_nat prec + 1) else fillme in
      let negative := SFltb number (S754_zero false) in
      let fillme := if negative then fillme - 1 else fillme in
      let number := if negative then SFopp number else number in
      let rounding := Nat.iter prec (fun r => mul r (of_Z 10)) (of_Z 2) in
      let rounding := div (of_Z 1) rounding in
      let number := add number rounding in
      let '(tenpow, digitcount) := count_digits 400 number (of_Z 1) 1 in
      let number := div number tenpow in
      let fillme := fillme - Z.of_nat digitcount in
      spaces (Z.to_nat fillme) +:+
      (if negative then "-" else "") +:+
      print_digits (digitcount + prec) prec number
  end.

End Float64.

Module Float32.
Import ArduinoString.

Definition prec : Z := 24.
Definition emax : Z := 128.

(** Conversion of an [int] to [float]: round to nearest, ties to even. *)
Definition of_Z (z : Z) : float := binary_normalize prec emax z 0 false.

(** Narrowing of a [double] to [float]. *)
Definition of_double (x : float) : float :=
  match x with
  | S754_finite s m e => binary_round prec emax s m e
  | _ => x
  end.

Definition add : float -> float -> float := SFadd prec emax.
Definition div : float -> float -> float := SFdiv prec emax.
Definition ltb : float -> float -> bool := SFltb.

Definition zero : float := S754_zero false.

(** The literal [-1.0]. *)
Definition minus_one : float := of_Z (-1).

(** [long / 10.0] stored in a [float]: the quotient is taken in double
    precision and then narrowed. *)
Definition tenth_of (n : Z) : float :=
  of_double (Float64.div (Float64.of_Z n) (Float64.of_Z 10)).

(** The integer nearest to [m * 2^e * 10^d]; a tie goes up, or to the
    even neighbour when [half_even] is set. *)
Definition scaled_round (half_even : bool) (d : nat) (m : positive) (e : Z) : Z :=
  let num := Zpos m * 10 ^ Z.of_nat d in
  if 0 <=? e then num * 2 ^ e
  else
    let den := 2 ^ (- e) in
    let k := num / den in
    match (2 * (num mod den)) ?= den with
    | Lt => k
    | Gt => k + 1
    | Eq => if half_even && Z.even k then k else k + 1
    end.

(** [String(float, d)]: the [float] is widened to [double], which keeps
    its value, and handed to [dtostrf] with the width [d + 2]. *)
Definition to_String (d : nat) (x : float) : string :=
  Float64.dtostrf x (Z.of_nat d + 2) d.

(** The printf conversion %.<d>f: correctly rounded, ties to even. *)
Definition printf_f (d : nat) (x : float) : string :=
  match x with
  | S754_zero s => (if s then "-" else "") +:+ fixed_digits d 0
  | S754_infinity s => (if s then "-inf" else "inf")
  | S754_nan => "nan"
  | S754_finite s m e =>
      (if s then "-" else "") +:+ fixed_digits d (scaled_round true d m e)
  end.

(** The value [m * 2^e] lies strictly between [a / 10^k] and [b / 10^k]. *)
Definition between (k : Z) (a b : Z) (x : float) : Prop :=
  match x with
  | S754_finite false m e =>
      if 0 <=? e
      then a < Zpos m * 2 ^ e * 10 ^ k /\ Zpos m * 2 ^ e * 10 ^ k < b
      else a * 2 ^ (- e) < Zpos m * 10 ^ k /\ Zpos m * 10 ^ k < b * 2 ^ (- e)
  | _ => False
  end.

End Float32.

(* ===================================================================== *)
(** ** State transformers that may fault                                 *)
(* ===================================================================== *)

(** A function of a sketch reads and writes the globals [S] of the sketch
    and returns a value; [None] is an access outside an array (or a loop
    that used up its fuel), after which nothing is known. *)
Definition M (S A : Type) : Type := S -> option (A * S).

Definition ret {S A} (a : A) : M S A := fun s => Some (a, s).

Definition bind {S A B} (c : M S A) (k : A -> M S B) : M S B :=
  fun s => match c s with Some (a, s') => k a s' | None => None end.

Definition fault {S A} : M S A := fun _ => None.
Definition gets {S A} (f : S -> A) : M S A := fun s => Some (f s, s).
Definition modify {S} (f : S -> S) : M S unit := fun s => Some (tt, f s).

(** An array read: [a[i]] for an [int] index. *)
Definition elem_at {A} (a : list A) (i : Z) : option A :=
  if (0 <=? i) then a !! Z.to_nat i else None.

Definition lift {S A} (o : option A) : M S A :=
  fun s => match o with Some a => Some (a, s) | None => None end.

Notation "'let*' x ':=' c 'in' k" := (bind c (fun x => k))
  (at level 10, x name, c at level 100, k at level 200).
Notation "c1 >> c2" := (bind c1 (fun _ => c2))
  (at level 62, right associativity).

(** The state a run ends in, and its value. *)
Definition exec {S A} (c : M S A) (s : S) : option S := snd <$> c s.
Definition eval {S A} (c : M S A) (s : S) : option A := fst <$> c s.

(** The millisecond clock is an [unsigned long]. *)
Definition wrap32 (z : Z) : Z := z mod 2 ^ 32.

(** An array write: [a[i] = x]. *)
Definition store {A} (a : list A) (i : Z) (x : A) : option (list A) :=
  if (0 <=? i) && (i <? Z.of_nat (length a))
  then Some (<[Z.to_nat i := x]> a) else None.

(** [for (int i = i0; ...; i++)] with [n] iterations left, the local
    variables of the loop carried in [acc]. *)
Fixpoint for_acc {S L} (n : nat) (i : Z) (body : Z -> L -> M S L) (acc : L) : M S L :=
  match n with
  | O => ret acc
  | S n' => let* acc' := body i acc in for_acc n' (i + 1) body acc'
  end.

(** [for (int i = 0; i < count; i++) body]. *)
Definition for_ {S} (count : Z) (body : Z -> M S unit) : M S unit :=
  for_acc (Z.to_nat count) 0 (fun i _ => body i) tt.

(** The same loop with a [return] in its body: it stops at the first
    iteration that answers. *)
Fixpoint for_return {S R} (n : nat) (i : Z) (body : Z -> M S (option R)) : M S (option R) :=
  match n with
  | O => ret None
  | S n' =>
      let* r := body i in
      match r with
      | Some _ => ret r
      | None => for_return n' (i + 1) body
      end
  end.

(* ===================================================================== *)
(** ** wifi_manager.ino: association with rotating credentials           *)
(* ===================================================================== *)

Module WiFi_manager.

Record WiFiCredential := { ssid : string; password : string }.

(** The globals of the sketch, and the radio. [radio ssid pw t] tells
    whether the station reports WL_CONNECTED at time [t] once it was
    started with these credentials; [station] holds the credentials of
    the last [WiFi.begin], none after [WiFi.disconnect]. [attempts] is the
    history of the rotation: every index handed to [TryConnectWiFi] with
    the answer it gave. *)
Record Sketch := {
  wifiList : list WiFiCredential;
  wifiConnected : bool;
  lastSuccessfulWiFiIndex : Z;
  currentTryIndex : Z;
  millis : Z;
  radio : string -> string -> Z -> bool;
  station : option (string * string);
  attempts : list (Z * bool)
}.

Definition SINGLE_WIFI_TIMEOUT : Z := 10000.

(** [sizeof(wifiList) / sizeof(wifiList[0])]. *)
Definition WIFI_COUNT (s : Sketch) : Z := Z.of_nat (length (wifiList s)).

Definition set_wifiConnected (b : bool) (s : Sketch) : Sketch :=
  {| wifiList := wifiList s; wifiConnected := b;
     lastSuccessfulWiFiIndex := lastSuccessfulWiFiIndex s;
     currentTryIndex := currentTryIndex s; millis := millis s;
     radio := radio s; station := station s; attempts := attempts s |}.

Definition set_lastSuccessfulWiFiIndex (k : Z) (s : Sketch) : Sketch :=
  {| wifiList := wifiList s; wifiConnected := wifiConnected s;
     lastSuccessfulWiFiIndex := k;
     currentTryIndex := currentTryIndex s; millis := millis s;
     radio := radio s; station := station s; attempts := attempts s |}.

Definition set_currentTryIndex (k : Z) (s : Sketch) : Sketch :=
  {| wifiList := wifiList s; wifiConnected := wifiConnected s;
     lastSuccessfulWiFiIndex := lastSuccessfulWiFiIndex s;
     currentTryIndex := k; millis := millis s;
     radio := radio s; station := station s; attempts := attempts s |}.

Definition set_millis (t : Z) (s : Sketch) : Sketch :=
  {| wifiList := wifiList s; wifiConnected := wifiConnected s;
     lastSuccessfulWiFiIndex := lastSuccessfulWiFiIndex s;
     currentTryIndex := currentTryIndex s; millis := t;
     radio := radio s; station := station s; attempts := attempts s |}.

Definition set_station (st : option (string * string)) (s : Sketch) : Sketch :=
  {| wifiList := wifiList s; wifiConnected := wifiConnected s;
     lastSuccessfulWiFiIndex := lastSuccessfulWiFiIndex s;
     currentTryIndex := currentTryIndex s; millis := millis s;
     radio := radio s; station := st; attempts := attempts s |}.

Definition set_attempts (l : list (Z * bool)) (s : Sketch) : Sketch :=
  {| wifiList := wifiList s; wifiConnected := wifiConnected s;
     lastSuccessfulWiFiIndex := lastSuccessfulWiFiIndex s;
     currentTryIndex := currentTryIndex s; millis := millis s;
     radio := radio s; station := station s; attempts := l |}.

(** [delay(ms)]: the only way time passes. *)
Definition delay (ms : Z) : M Sketch unit :=
  modify (fun s => set_millis (wrap32 (millis s + ms)) s).

(** [WiFi.status() == WL_CONNECTED]. *)
Definition WiFi_connected (s : Sketch) : bool :=
  match station s with
  | Some (id, pw) => radio s id pw (millis s)
  | None => false
  end.

(** The polling loop of [TryConnectWiFi]; [fuel] bounds its iterations. *)
Fixpoint TryConnectWiFi_wait (fuel : nat) (start timeout : Z) : M Sketch bool :=
  match fuel with
  | O => fault
  | S fuel' =>
      let* now := gets millis in
      if wrap32 (now - start) <? timeout then
        let* up := gets WiFi_connected in
        if up then ret true
        else delay 100 >> TryConnectWiFi_wait fuel' start timeout
      else ret false
  end.

Definition TryConnectWiFi (id pw : string) (timeout : Z) : M Sketch bool :=
  modify (set_station None) >>
  delay 100 >>
  modify (set_station (Some (id, pw))) >>
  let* start := gets millis in
  TryConnectWiFi_wait (Z.to_nat (timeout / 100) + 2) start timeout.

(** The body of the [for] loop of [ConnectWiFi], for the loop variable
    [i] with [n] iterations left, followed by the code after the loop. *)
Fixpoint ConnectWiFi_from (n : nat) (i : Z) : M Sketch unit :=
  match n with
  | O => modify (set_wifiConnected false)
  | S n' =>
      let* last := gets lastSuccessfulWiFiIndex in
      let* count := gets WIFI_COUNT in
      let tryIndex := Z.rem (last + i) count in
      let* list := gets wifiList in
      let* cred := lift (elem_at list tryIndex) in
      let* ok := TryConnectWiFi (ssid cred) (password cred) SINGLE_WIFI_TIMEOUT in
      modify (fun s => set_attempts (attempts s ++ [(tryIndex, ok)]) s) >>
      if ok then
        modify (set_wifiConnected true) >>
        modify (set_lastSuccessfulWiFiIndex tryIndex) >>
        modify (set_currentTryIndex tryIndex)
      else ConnectWiFi_from n' (i + 1)
  end.

Definition ConnectWiFi : M Sketch unit :=
  let* count := gets WIFI_COUNT in
  ConnectWiFi_from (Z.to_nat count) 0.

(** The sketch as compiled: two networks (their secrets left out), the
    cursor on the first. *)
Definition boot (r : string -> string -> Z -> bool) : Sketch :=
  {| wifiList := [ {| ssid := "KamPus-2"; password := "" |};
                   {| ssid := "iWave"; password := "" |} ];
     wifiConnected := false;
     lastSuccessfulWiFiIndex := 0;
     currentTryIndex := 0;
     millis := 0;
     radio := r;
     station := None;
     attempts := [] |}.

(** The order of one rotation: [(start + i) mod n] for [i = 0 .. n-1]. *)
Definition rotation (start : Z) (n : nat) : list Z :=
  map (fun i => (start + Z.of_nat i) mod Z.of_nat n) (seq 0 n).

(** The cursor points into the list. *)
Definition cursor_ok (s : Sketch) : Prop :=
  0 <= lastSuccessfulWiFiIndex s < WIFI_COUNT s \/
  (wifiList s = [] /\ lastSuccessfulWiFiIndex s = 0).


(** A radio on which only the network [name] can be joined. *)
Definition only_network (name : string) : string -> string -> Z -> bool :=
  fun id _ _ => bool_decide (id = name).

End WiFi_manager.

(* ===================================================================== *)
(** ** shelf_config.ino, Shelf_manager.ino, mqtt_manager.ino             *)
(* ===================================================================== *)

Module Firmware.
Import ArduinoString.

Definition SHELF_COUNT : Z := 12.

Record ShelfConfig := {
  id : string;
  pin : Z;
  enabled : bool;
  shelf_length : float
}.

(** An entry of the flash key/value store (Preferences, namespace shelf). *)
Inductive PrefValue := PBool (b : bool) | PFloat (x : float).

Record IPAddress := { ip0 : Z; ip1 : Z; ip2 : Z; ip3 : Z }.

(** One call of [mqttClient.publish] that went out. *)
Record Publication := { topic : string; payload : string; retained : bool }.

(** The globals of the sketch and its peripherals.
    [ultrasonic i k] is what the sensor of slot [i] measures (mm) when [k]
    measurements were taken before; [ranging_log] lists the measurements
    taken, oldest first, as (slot, value). [hostByName] gives, for a host
    name, the answer of the name service and the address it leaves in its
    result argument. [outbox] lists the publications, oldest first. *)
Record World := {
  shelfConfig : list ShelfConfig;
  distance : list Z;
  ultrasonic : Z -> nat -> Z;
  ranging_log : list (Z * Z);
  preferences : gmap string PrefValue;
  mqtt_connected : bool;
  wifi_connected : bool;
  outbox : list Publication;
  device_id : string;
  device_config_response_topic : string;
  device_calibrate_response_topic : string;
  mqtt_hostname : string;
  mqtt_server_ip : string;
  hostByName : string -> bool * IPAddress;
  mqtt_server_resolved_ip : IPAddress;
  mqtt_ip_resolved : bool;
  millis : Z
}.

Definition set_shelfConfig (v : list ShelfConfig) (w : World) : World :=
  {| shelfConfig := v; distance := distance w; ultrasonic := ultrasonic w;
     ranging_log := ranging_log w; preferences := preferences w;
     mqtt_connected := mqtt_connected w; wifi_connected := wifi_connected w;
     outbox := outbox w; device_id := device_id w;
     device_config_response_topic := device_config_response_topic w;
     device_calibrate_response_topic := device_calibrate_response_topic w;
     mqtt_hostname := mqtt_hostname w; mqtt_server_ip := mqtt_server_ip w;
     hostByName := hostByName w;
     mqtt_server_resolved_ip := mqtt_server_resolved_ip w;
     mqtt_ip_resolved := mqtt_ip_resolved w; millis := millis w |}.

Definition set_distance (v : list Z) (w : World) : World :=
  {| shelfConfig := shelfConfig w; distance := v; ultrasonic := ultrasonic w;
     ranging_log := ranging_log w; preferences := preferences w;
     mqtt_connected := mqtt_connected w; wifi_connected := wifi_connected w;
     outbox := outbox w; device_id := device_id w;
     device_config_response_topic := device_config_response_topic w;
     device_calibrate_response_topic := device_calibrate_response_topic w;
     mqtt_hostname := mqtt_hostname w; mqtt_server_ip := mqtt_server_ip w;
     hostByName := hostByName w;
     mqtt_server_resolved_ip := mqtt_server_resolved_ip w;
     mqtt_ip_resolved := mqtt_ip_resolved w; millis := millis w |}.

Definition set_ranging_log (v : list (Z * Z)) (w : World) : World :=
  {| shelfConfig := shelfConfig w; distance := distance w; ultrasonic := ultrasonic w;
     ranging_log := v; preferences := preferences w;
     mqtt_connected := mqtt_connected w; wifi_connected := wifi_connected w;
     outbox := outbox w; device_id := device_id w;
     device_config_response_topic := device_config_response_topic w;
     device_calibrate_response_topic := device_calibrate_response_topic w;
     mqtt_hostname := mqtt_hostname w; mqtt_server_ip := mqtt_server_ip w;
     hostByName := hostByName w;
     mqtt_server_resolved_ip := mqtt_server_resolved_ip w;
     mqtt_ip_resolved := mqtt_ip_resolved w; millis := millis w |}.

Definition set_preferences (v : gmap string PrefValue) (w : World) : World :=
  {| shelfConfig := shelfConfig w; distance := distance w; ultrasonic := ultrasonic w;
     ranging_log := ranging_log w; preferences := v;
     mqtt_connected := mqtt_connected w; wifi_connected := wifi_connected w;
     outbox := outbox w; device_id := device_id w;
     device_config_response_topic := device_config_response_topic w;
     device_calibrate_response_topic := device_calibrate_response_topic w;
     mqtt_hostname := mqtt_hostname w; mqtt_server_ip := mqtt_server_ip w;
     hostByName := hostByName w;
     mqtt_server_resolved_ip := mqtt_server_resolved_ip w;
     mqtt_ip_resolved := mqtt_ip_resolved w; millis := millis w |}.

Definition set_links (mqtt wifi : bool) (w : World) : World :=
  {| shelfConfig := shelfConfig w; distance := distance w; ultrasonic := ultrasonic w;
     ranging_log := ranging_log w; preferences := preferences w;
     mqtt_connected := mqtt; wifi_connected := wifi;
     outbox := outbox w; device_id := device_id w;
     device_config_response_topic := device_config_response_topic w;
     device_calibrate_response_topic := device_calibrate_response_topic w;
     mqtt_hostname := mqtt_hostname w; mqtt_server_ip := mqtt_server_ip w;
     hostByName := hostByName w;
     mqtt_server_resolved_ip := mqtt_server_resolved_ip w;
     mqtt_ip_resolved := mqtt_ip_resolved w; millis := millis w |}.

Definition set_outbox (v : list Publication) (w : World) : World :=
  {| shelfConfig := shelfConfig w; distance := distance w; ultrasonic := ultrasonic w;
     ranging_log := ranging_log w; preferences := preferences w;
     mqtt_connected := mqtt_connected w; wifi_connected := wifi_connected w;
     outbox := v; device_id := device_id w;
     device_config_response_topic := device_config_response_topic w;
     device_calibrate_response_topic := device_calibrate_response_topic w;
     mqtt_hostname := mqtt_hostname w; mqtt_server_ip := mqtt_server_ip w;
     hostByName := hostByName w;
     mqtt_server_resolved_ip := mqtt_server_resolved_ip w;
     mqtt_ip_resolved := mqtt_ip_resolved w; millis := millis w |}.

Definition set_mqtt_server_resolved_ip (v : IPAddress) (w : World) : World :=
  {| shelfConfig := shelfConfig w; distance := distance w; ultrasonic := ultrasonic w;
     ranging_log := ranging_log w; preferences := preferences w;
     mqtt_connected := mqtt_connected w; wifi_connected := wifi_connected w;
     outbox := outbox w; device_id := device_id w;
     device_config_response_topic := device_config_response_topic w;
     device_calibrate_response_topic := device_calibrate_response_topic w;
     mqtt_hostname := mqtt_hostname w; mqtt_server_ip := mqtt_server_ip w;
     hostByName := hostByName w;
     mqtt_server_resolved_ip := v;
     mqtt_ip_resolved := mqtt_ip_resolved w; millis := millis w |}.

Definition set_mqtt_ip_resolved (v : bool) (w : World) : World :=
  {| shelfConfig := shelfConfig w; distance := distance w; ultrasonic := ultrasonic w;
     ranging_log := ranging_log w; preferences := preferences w;
     mqtt_connected := mqtt_connected w; wifi_connected := wifi_connected w;
     outbox := outbox w; device_id := device_id w;
     device_config_response_topic := device_config_response_topic w;
     device_calibrate_response_topic := device_calibrate_response_topic w;
     mqtt_hostname := mqtt_hostname w; mqtt_server_ip := mqtt_server_ip w;
     hostByName := hostByName w;
     mqtt_server_resolved_ip := mqtt_server_resolved_ip w;
     mqtt_ip_resolved := v; millis := millis w |}.

Definition set_millis (v : Z) (w : World) : World :=
  {| shelfConfig := shelfConfig w; distance := distance w; ultrasonic := ultrasonic w;
     ranging_log := ranging_log w; preferences := preferences w;
     mqtt_connected := mqtt_connected w; wifi_connected := wifi_connected w;
     outbox := outbox w; device_id := device_id w;
     device_config_response_topic := device_config_response_topic w;
     device_calibrate_response_topic := device_calibrate_response_topic w;
     mqtt_hostname := mqtt_hostname w; mqtt_server_ip := mqtt_server_ip w;
     hostByName := hostByName w;
     mqtt_server_resolved_ip := mqtt_server_resolved_ip w;
     mqtt_ip_resolved := mqtt_ip_resolved w; millis := v |}.

Definition set_enabled (b : bool) (c : ShelfConfig) : ShelfConfig :=
  {| id := id c; pin := pin c; enabled := b; shelf_length := shelf_length c |}.

Definition set_shelf_length (x : float) (c : ShelfConfig) : ShelfConfig :=
  {| id := id c; pin := pin c; enabled := enabled c; shelf_length := x |}.

(** *** Peripherals *)

Definition delay (ms : Z) : M World unit :=
  modify (fun w => set_millis (wrap32 (millis w + ms)) w).

(** [sensors[i]->MeasureInMillimeters()]. *)
Definition MeasureInMillimeters (i : Z) : M World Z :=
  if (0 <=? i) && (i <? SHELF_COUNT) then
    let* w := gets (fun w => w) in
    let v := ultrasonic w i (length (ranging_log w)) in
    modify (set_ranging_log (ranging_log w ++ [(i, v)])) >> ret v
  else fault.

Definition getBool (key : string) (default : bool) (p : gmap string PrefValue) : bool :=
  match p !! key with Some (PBool b) => b | _ => default end.

Definition getFloat (key : string) (default : float) (p : gmap string PrefValue) : float :=
  match p !! key with Some (PFloat x) => x | _ => default end.

Definition putBool (key : string) (b : bool) : M World unit :=
  modify (fun w => set_preferences (<[key := PBool b]> (preferences w)) w).

Definition putFloat (key : string) (x : float) : M World unit :=
  modify (fun w => set_preferences (<[key := PFloat x]> (preferences w)) w).

(** [mqttClient.publish]: nothing goes out without a session. *)
Definition mqttClient_publish (t p : string) (r : bool) : M World unit :=
  modify (fun w =>
    if mqtt_connected w
    then set_outbox (outbox w ++ [ {| topic := t; payload := p; retained := r |} ]) w
    else w).

(** *** shelf_config.ino *)

Definition shelfConfig_at (i : Z) : M World ShelfConfig :=
  let* table := gets shelfConfig in lift (elem_at table i).

Definition shelfConfig_update (i : Z) (f : ShelfConfig -> ShelfConfig) : M World unit :=
  let* table := gets shelfConfig in
  let* c := lift (elem_at table i) in
  let* table' := lift (store table i (f c)) in
  modify (set_shelfConfig table').

Definition distance_at (i : Z) : M World Z :=
  let* d := gets distance in lift (elem_at d i).

Definition distance_store (i : Z) (v : Z) : M World unit :=
  let* d := gets distance in
  let* d' := lift (store d i v) in
  modify (set_distance d').

Definition getEnabledShelfCount : M World Z :=
  for_acc (Z.to_nat SHELF_COUNT) 0
    (fun i count =>
       let* c := shelfConfig_at i in
       ret (if enabled c then count + 1 else count)) 0.

(** *** Shelf_manager.ino *)

Definition loadShelfConfig : M World unit :=
  for_ SHELF_COUNT (fun i =>
    let* c := shelfConfig_at i in
    let key := id c in
    let* p := gets preferences in
    let savedEnabled := getBool key false p in
    let lengthKey := key +:+ "_len" in
    let savedLength := getFloat lengthKey Float32.zero p in
    shelfConfig_update i (set_enabled savedEnabled) >>
    shelfConfig_update i (set_shelf_length savedLength)).

Definition saveShelfConfig (shelfIndex : Z) : M World unit :=
  if (shelfIndex <? 0) || (shelfIndex >=? SHELF_COUNT) then ret tt
  else
    let* c := shelfConfig_at shelfIndex in
    let key := id c in
    putBool key (enabled c) >>
    let lengthKey := key +:+ "_len" in
    let* c' := shelfConfig_at shelfIndex in
    putFloat lengthKey (shelf_length c').

Definition clearAllShelfConfig : M World unit :=
  modify (set_preferences ∅).

Definition CALIBRATE_SAMPLES : Z := 10.

(** The sampling loop of [calibrateShelf]: the local array
    [validReadings] and the counter [validCount]. *)
Definition calibrate_sample (shelfIndex : Z) (_ : Z) (local : list float * Z)
  : M World (list float * Z) :=
  let '(validReadings, validCount) := local in
  let* distMm := MeasureInMillimeters shelfIndex in
  let distCm := Float32.tenth_of distMm in
  let* local' :=
    if (distMm >=? 20) && (distMm <=? 4000) then
      let* a := lift (store validReadings validCount distCm) in
      ret (a, validCount + 1)
    else ret (validReadings, validCount) in
  delay 100 >> ret local'.

Definition calibrateShelf (shelfIndex : Z) : M World float :=
  if (shelfIndex <? 0) || (shelfIndex >=? SHELF_COUNT) then ret Float32.minus_one
  else
    let* local :=
      for_acc (Z.to_nat CALIBRATE_SAMPLES) 0 (calibrate_sample shelfIndex)
        (replicate (Z.to_nat CALIBRATE_SAMPLES) Float32.zero, 0) in
    let '(validReadings, validCount) := local in
    if validCount <? 5 then ret Float32.minus_one
    else
      let* sum :=
        for_acc (Z.to_nat validCount) 0
          (fun i sum => let* x := lift (elem_at validReadings i) in
                        ret (Float32.add sum x)) Float32.zero in
      let average := Float32.div sum (Float32.of_Z validCount) in
      shelfConfig_update shelfIndex (set_shelf_length average) >>
      saveShelfConfig shelfIndex >>
      ret average.

Definition getShelfIndexById (shelfId : string) : M World Z :=
  let* r := for_return (Z.to_nat SHELF_COUNT) 0 (fun i =>
              let* c := shelfConfig_at i in
              ret (if equals (id c) shelfId then Some i else None)) in
  ret (default (-1) r).

Definition getShelfId (shelfIndex : Z) : M World string :=
  if (shelfIndex <? 0) || (shelfIndex >=? SHELF_COUNT) then ret "UNKNOWN"
  else let* c := shelfConfig_at shelfIndex in ret (id c).

Definition isShelfEnabled (shelfIndex : Z) : M World bool :=
  if (shelfIndex <? 0) || (shelfIndex >=? SHELF_COUNT) then ret false
  else let* c := shelfConfig_at shelfIndex in ret (enabled c).

Definition setShelfEnabled (shelfIndex : Z) (value : bool) : M World unit :=
  if (shelfIndex >=? 0) && (shelfIndex <? SHELF_COUNT) then
    shelfConfig_update shelfIndex (set_enabled value) >>
    saveShelfConfig shelfIndex
  else ret tt.

Definition readAllShelfSensors : M World unit :=
  for_ SHELF_COUNT (fun i =>
    let* c := shelfConfig_at i in
    if negb (enabled c) then distance_store i (-1)
    else
      let* dist := MeasureInMillimeters i in
      delay 35 >>
      let dist := if (dist <? 20) || (dist >? 4000) then -1 else dist in
      distance_store i dist).

(** *** mqtt_manager.ino *)

Definition mqtt_topic_sensor : string := "shelf/sensor".
Definition mqtt_topic_status : string := "shelf/status".

Definition is_digit (c : ascii) : bool := (48 <=? code c) && (code c <=? 57).

Definition set_byte (a : IPAddress) (k v : Z) : IPAddress :=
  if k =? 0 then {| ip0 := v; ip1 := ip1 a; ip2 := ip2 a; ip3 := ip3 a |}
  else if k =? 1 then {| ip0 := ip0 a; ip1 := v; ip2 := ip2 a; ip3 := ip3 a |}
  else if k =? 2 then {| ip0 := ip0 a; ip1 := ip1 a; ip2 := v; ip3 := ip3 a |}
  else {| ip0 := ip0 a; ip1 := ip1 a; ip2 := ip2 a; ip3 := v |}.

(** [IPAddress::fromString] of the Arduino core: dotted decimal, four
    numbers up to 255; the bytes read before a failure stay written. *)
Fixpoint fromString_from (address : string) (acc dots : Z) (a : IPAddress)
  : bool * IPAddress :=
  match address with
  | EmptyString =>
      if dots =? 3 then (true, set_byte a 3 acc) else (false, a)
  | String c rest =>
      if is_digit c then
        let acc := acc * 10 + (code c - 48) in
        if acc >? 255 then (false, a) else fromString_from rest acc dots a
      else if (code c =? 46) then
        if dots =? 3 then (false, a)
        else fromString_from rest 0 (dots + 1) (set_byte a dots acc)
      else (false, a)
  end.

Definition fromString (address : string) (a : IPAddress) : bool * IPAddress :=
  fromString_from address 0 0 a.

Definition resolveMQTTServer : M World bool :=
  let* w := gets (fun w => w) in
  let '(found, ip) := hostByName w (mqtt_hostname w) in
  modify (set_mqtt_server_resolved_ip ip) >>
  if found &&
     (negb (ip0 ip =? 0) || negb (ip1 ip =? 0) ||
      negb (ip2 ip =? 0) || negb (ip3 ip =? 0))
  then modify (set_mqtt_ip_resolved true) >> ret true
  else
    let '(parsed, ip') := fromString (mqtt_server_ip w) ip in
    modify (set_mqtt_server_resolved_ip ip') >>
    if parsed then modify (set_mqtt_ip_resolved true) >> ret true
    else modify (set_mqtt_ip_resolved false) >> ret false.

(** A JSON member with a raw value, and with a quoted value. *)
Definition member (k v : string) : string := q k +:+ ":" +:+ v.
Definition member_q (k v : string) : string := q k +:+ ":" +:+ q v.

Definition json_bool (b : bool) : string := if b then "true" else "false".

Definition publishSystemStatus : M World unit :=
  let* connected := gets mqtt_connected in
  if negb connected then ret tt
  else
    let* w := gets (fun w => w) in
    let* count := getEnabledShelfCount in
    let json :=
      "{" +:+ member_q "device_id" (device_id w) +:+ "," +:+
      member_q "wifi" (if wifi_connected w then "connected" else "disconnected") +:+
      "," +:+ member_q "mqtt" "connected" +:+
      "," +:+ member "uptime_ms" (of_int (millis w)) +:+
      "," +:+ member "shelf_count" (of_int SHELF_COUNT) +:+
      "," +:+ member "enabled_shelf_count" (of_int count) +:+ "}" in
    mqttClient_publish mqtt_topic_status json false.

(** The payload of a sensor message; [snprintf] into 256 bytes keeps at
    most 255 characters. *)
Definition sensor_json (dev : string) (c : ShelfConfig) (shelfIndex dist : Z) : string :=
  String.substring 0 255
    ("{" +:+ member_q "device_id" dev +:+ "," +:+
     member_q "shelf_id" (id c) +:+ "," +:+
     member "index" (of_int shelfIndex) +:+ "," +:+
     member "distance_cm" (Float32.printf_f 1 (Float32.tenth_of dist)) +:+ "," +:+
     member "enabled" "true" +:+ "}").

Definition publishSensorData (shelfIndex : Z) : M World unit :=
  let* connected := gets mqtt_connected in
  if negb connected then ret tt
  else if (shelfIndex <? 0) || (shelfIndex >=? SHELF_COUNT) then ret tt
  else
    let* c := shelfConfig_at shelfIndex in
    if negb (enabled c) then ret tt
    else
      let* dist := distance_at shelfIndex in
      let* dev := gets device_id in
      mqttClient_publish mqtt_topic_sensor (sensor_json dev c shelfIndex dist) false.

Definition publishAllSensorData : M World unit :=
  let* connected := gets mqtt_connected in
  if negb connected then ret tt
  else
    for_ SHELF_COUNT (fun i =>
      let* c := shelfConfig_at i in
      if enabled c then publishSensorData i >> delay 100 else ret tt).

Definition isMQTTConnected : M World bool := gets mqtt_connected.

Definition calibrate_json (dev shelfId : string) (len : float) (success : bool) : string :=
  "{" +:+ member_q "device_id" dev +:+ "," +:+
  member_q "shelf_id" shelfId +:+ "," +:+
  member "success" (json_bool success) +:+ "," +:+
  member "shelf_length" (Float32.to_String 2 len) +:+ "}".

Definition publishCalibrateResult (shelfId : string) (len : float) (success : bool)
  : M World unit :=
  let* connected := gets mqtt_connected in
  if negb connected then ret tt
  else
    let* w := gets (fun w => w) in
    mqttClient_publish (device_calibrate_response_topic w)
      (calibrate_json (device_id w) shelfId len success) false.

Definition handleMQTTCommand (command : string) : M World unit :=
  let command := trim command in
  let originalCommand := command in
  let command := toLowerCase command in
  if equals (c_str command) "status" then publishSystemStatus
  else if equals (c_str command) "read" then readAllShelfSensors >> publishAllSensorData
  else if startsWith command "enable " then
    let shelfId := toUpperCase (trim (substring_from 7 originalCommand)) in
    let* idx := getShelfIndexById (c_str shelfId) in
    if idx >=? 0 then setShelfEnabled idx true >> publishSystemStatus
    else ret tt
  else if startsWith command "disable " then
    let shelfId := toUpperCase (trim (substring_from 8 originalCommand)) in
    let* idx := getShelfIndexById (c_str shelfId) in
    if idx >=? 0 then setShelfEnabled idx false >> publishSystemStatus
    else ret tt
  else if startsWith command "calibrate " then
    let shelfId := toUpperCase (trim (substring_from 10 originalCommand)) in
    let* idx := getShelfIndexById (c_str shelfId) in
    if idx >=? 0 then
      let* len := calibrateShelf idx in
      publishCalibrateResult (c_str shelfId) len (Float32.ltb Float32.zero len)
    else publishCalibrateResult (c_str shelfId) Float32.minus_one false
  else ret tt.

(** One element of the shelves array of the configuration response. *)
Definition shelf_json (i : Z) (c : ShelfConfig) : string :=
  "{" +:+ member_q "shelf_id" (id c) +:+ "," +:+
  member "index" (of_int i) +:+ "," +:+
  member "gpio" (of_int (pin c)) +:+ "," +:+
  member "enabled" (json_bool (enabled c)) +:+ "," +:+
  member "shelf_length" (Float32.to_String 2 (shelf_length c)) +:+ "}".

(** The body of the loop over the slots in [handleShelfConfigRequest]. *)
Definition config_entry (i : Z) (response : string) : M World string :=
  let response := if i >? 0 then response +:+ "," else response in
  let* c := shelfConfig_at i in
  ret (response +:+ shelf_json i c).

Definition handleShelfConfigRequest (message : string) : M World unit :=
  let* dev := gets device_id in
  if (Z.of_nat (String.length message) >? 0) &&
     (indexOf message dev <? 0) &&
     (indexOf message (q "device_id") >=? 0)
  then ret tt
  else
    let response := "{" +:+ member_q "device_id" dev +:+ "," +:+ q "shelves" +:+ ":[" in
    let* response := for_acc (Z.to_nat SHELF_COUNT) 0 config_entry response in
    let response := response +:+ "]," in
    let* count := getEnabledShelfCount in
    let response :=
      response +:+ member "total_count" (of_int SHELF_COUNT) +:+ "," +:+
      member "enabled_count" (of_int count) +:+ "}" in
    let* connected := gets mqtt_connected in
    if connected then
      let* t := gets device_config_response_topic in
      mqttClient_publish t response false
    else ret tt.

(** *** Main_project.ino: the periodic part of [loop] *)

Definition scan_cycle : M World unit :=
  readAllShelfSensors >>
  let* connected := isMQTTConnected in
  if connected then publishAllSensorData else ret tt.

(** *** The sketch as compiled, and the states it runs through *)

Definition slot (name : string) (gpio : Z) : ShelfConfig :=
  {| id := name; pin := gpio; enabled := false; shelf_length := Float32.zero |}.

(** The table of shelf_config.ino. *)
Definition shelfConfig_init : list ShelfConfig :=
  [ slot "A1" 4; slot "A2" 5; slot "A3" 6; slot "A4" 7;
    slot "B1" 8; slot "B2" 9; slot "B3" 10; slot "B4" 11;
    slot "C1" 12; slot "C2" 13; slot "C3" 14; slot "C4" 15 ].

Definition no_address : IPAddress := {| ip0 := 0; ip1 := 0; ip2 := 0; ip3 := 0 |}.

(** The globals after [setup] and the first session with the broker, for
    a device identity, the sensors, the name service, the content of the
    flash store and the state of the two links. *)
Definition boot (dev : string) (sensors : Z -> nat -> Z)
    (dns : string -> bool * IPAddress) (flash : gmap string PrefValue)
    (mqtt wifi : bool) : World :=
  {| shelfConfig := shelfConfig_init;
     distance := replicate (Z.to_nat SHELF_COUNT) 0;
     ultrasonic := sensors;
     ranging_log := [];
     preferences := flash;
     mqtt_connected := mqtt;
     wifi_connected := wifi;
     outbox := [];
     device_id := dev;
     device_config_response_topic := "shelf/" +:+ dev +:+ "/config/response";
     device_calibrate_response_topic := "shelf/" +:+ dev +:+ "/calibrate/response";
     mqtt_hostname := "yslin.local";
     mqtt_server_ip := "192.168.0.109";
     hostByName := dns;
     mqtt_server_resolved_ip := no_address;
     mqtt_ip_resolved := false;
     millis := 0 |}.

(** The two arrays have their declared size. *)
Definition wf (w : World) : Prop :=
  Z.of_nat (length (shelfConfig w)) = SHELF_COUNT /\
  Z.of_nat (length (distance w)) = SHELF_COUNT.

(** What moves the sketch: a command, a configuration request, the
    periodic scan, a restore of the configuration, and the links going
    up or down. *)
Inductive step : World -> World -> Prop :=
| step_command (msg : string) (w w' : World) :
    exec (handleMQTTCommand msg) w = Some w' -> step w w'
| step_config_request (msg : string) (w w' : World) :
    exec (handleShelfConfigRequest msg) w = Some w' -> step w w'
| step_scan (w w' : World) :
    exec scan_cycle w = Some w' -> step w w'
| step_load (w w' : World) :
    exec loadShelfConfig w = Some w' -> step w w'
| step_links (mqtt wifi : bool) (w : World) :
    step w (set_links mqtt wifi w).

Inductive reachable : World -> Prop :=
| reachable_boot dev sensors dns flash mqtt wifi :
    reachable (boot dev sensors dns flash mqtt wifi)
| reachable_step w w' : reachable w -> step w w' -> reachable w'.

(** *** Notions of the specification *)

(** A sample is valid when it lies in [20 mm, 4000 mm]. *)
Definition valid_sample (mm : Z) : bool := (20 <=? mm) && (mm <=? 4000).

(** The next [n] measurements of slot [i], [k] having been taken. *)
Definition readings (sensors : Z -> nat -> Z) (i : Z) (k n : nat) : list Z :=
  map (fun j => sensors i (k + j)%nat) (seq 0 n).

(** The samples a calibration of slot [i] started in [w] will see. *)
Definition calibration_samples (w : World) (i : Z) : list Z :=
  readings (ultrasonic w) i (length (ranging_log w)) (Z.to_nat CALIBRATE_SAMPLES).

(** The mean in single precision: the sum from left to right, divided
    by the count. *)
Definition float_mean (l : list float) : float :=
  Float32.div (fold_left Float32.add l Float32.zero)
              (Float32.of_Z (Z.of_nat (length l))).

(** The valid samples among [l], in centimeters. *)
Definition kept (l : list Z) : list float :=
  map Float32.tenth_of (List.filter valid_sample l).

(** The flash store after [saveShelfConfig] of a slot [c]. *)
Definition saved (c : ShelfConfig) (p : gmap string PrefValue) : gmap string PrefValue :=
  <[id c +:+ "_len" := PFloat (shelf_length c)]> (<[id c := PBool (enabled c)]> p).

(** Centimeters with one decimal: the nearest tenth, as a [float]. *)
Definition round_to_tenth (x : float) : float :=
  match x with
  | S754_finite s m e =>
      let k := Float32.scaled_round false 1 m e in
      Float32.tenth_of (if s then - k else k)
  | _ => x
  end.

(** What [loadShelfConfig] makes of a slot, given the flash store. *)
Definition restore (p : gmap string PrefValue) (c : ShelfConfig) : ShelfConfig :=
  set_shelf_length (getFloat (id c +:+ "_len") Float32.zero p)
    (set_enabled (getBool (id c) false p) c).

(** The dotted address [s] denotes [ip], whatever the object held. *)
Definition parses_to (s : string) (ip : IPAddress) : Prop :=
  forall a : IPAddress, fromString s a = (true, ip).

(** A command as the protocol writes it: the verb in any case, a space
    and the argument, with white space allowed before the verb, before
    the argument and behind it. *)
Definition spelled (verb arg cmd : string) : Prop :=
  exists pre v mid post : string,
    cmd = pre +:+ v +:+ " " +:+ mid +:+ arg +:+ post /\
    blank pre = true /\ blank mid = true /\ blank post = true /\
    toLowerCase v = verb /\ solid arg = true /\ arg <> "".

(** Strings joined by commas. *)
Fixpoint join_commas (l : list string) : string :=
  match l with
  | [] => ""
  | x :: rest =>
      match rest with
      | [] => x
      | _ => x +:+ "," +:+ join_commas rest
      end
  end.

(** [needle] occurs in [s]. *)
Definition contains (s needle : string) : Prop :=
  exists m : nat, String.substring m (String.length needle) s = needle.

(** The sensor publication of slot [i] in [w]. *)
Definition sensor_publication (w : World) (i : Z) (c : ShelfConfig) (d : Z) : Publication :=
  {| topic := mqtt_topic_sensor;
     payload := sensor_json (device_id w) c i d;
     retained := false |}.

(** The elements of the shelves array, joined by commas. *)
Fixpoint shelves_json (i : Z) (table : list ShelfConfig) : string :=
  match table with
  | [] => ""
  | c :: rest =>
      (if i >? 0 then "," else "") +:+ shelf_json i c +:+ shelves_json (i + 1) rest
  end.

Definition enabled_count (table : list ShelfConfig) : Z :=
  Z.of_nat (length (filter (fun c => enabled c = true) table)).

(** The configuration response for a table. *)
Definition config_json (dev : string) (table : list ShelfConfig) : string :=
  (("{" +:+ member_q "device_id" dev +:+ "," +:+ q "shelves" +:+ ":[")
     +:+ shelves_json 0 table +:+ "],") +:+
  member "total_count" (of_int SHELF_COUNT) +:+ "," +:+
  member "enabled_count" (of_int (enabled_count table)) +:+ "}".

(** The position of the first slot named [name], -1 without one. *)
Definition position_of (name : string) (table : list ShelfConfig) : Z :=
  match list_find (fun c => id c = name) table with
  | Some (i, _) => Z.of_nat i
  | None => -1
  end.

(** *** Example worlds *)

(** A sensor that delivers the given samples in turn, then 0. *)
Definition scripted (samples : list Z) : Z -> nat -> Z :=
  fun _ k => nth k samples 0.

Definition no_dns : string -> bool * IPAddress := fun _ => (false, no_address).

Definition scenario_samples : list Z :=
  [198; 201; 199; 15; 202; 197; 4500; 200; 203; 196].

Definition scenario_world : World :=
  boot "ESP32S3_TEST" (scripted scenario_samples) no_dns ∅ true true.

(** The same device with a silent sensor (every sample is 0). *)
Definition silent_world : World :=
  boot "ESP32S3_TEST" (scripted []) no_dns ∅ true true.

(** The same device without a session with the broker. *)
Definition offline_world : World :=
  boot "ESP32S3_TEST" (scripted []) no_dns ∅ false true.

End Firmware.

(* ===================================================================== *)
(** ** Notions for the scan and its publications                         *)
(* ===================================================================== *)

Module Scan_notions.
Import ArduinoString Firmware.

(** The number of enabled slots among the first [j]. *)
Definition enabled_before (table : list ShelfConfig) (j : nat) : nat :=
  length (filter (fun c => enabled c = true) (take j table)).

(** What a scan started in [w] measures on slot [j] when it gets there:
    one measurement was taken for each enabled slot before it. *)
Definition measured (w : World) (j : nat) : Z :=
  ultrasonic w (Z.of_nat j)
    (length (ranging_log w) + enabled_before (shelfConfig w) j)%nat.

(** The sample a scan started in [w] leaves in the cell of slot [j]. *)
Definition scanned (w : World) (j : nat) (c : ShelfConfig) : Z :=
  if enabled c
  then (if valid_sample (measured w j) then measured w j else -1)
  else -1.

(** The measurements of one scan, in the order they are taken. *)
Definition scan_log (w : World) : list (Z * Z) :=
  concat (imap (fun j c => if enabled c then [(Z.of_nat j, measured w j)] else [])
               (shelfConfig w)).

(** The millisecond clock after [n] calls of [delay(d)]. *)
Definition clock_after (n : nat) (d : Z) (m : Z) : Z :=
  Nat.iter n (fun m => wrap32 (m + d)) m.

(** The sensor messages of one round of publications, in order. *)
Definition sensor_publications (w : World) : list Publication :=
  concat (imap (fun j c =>
                  if enabled c
                  then match distance w !! j with
                       | Some d => [sensor_publication w (Z.of_nat j) c d]
                       | None => []
                       end
                  else [])
               (shelfConfig w)).

(** Tenths of a unit written with one decimal. *)
Definition one_decimal (d : Z) : string :=
  of_int (d / 10) +:+ "." +:+ of_int (d mod 10).

(** The check that the sample [d] is published digit for digit: the
    [float] nearest to its tenth prints with one decimal as [d] itself,
    on at most five characters. *)
Definition exact_at (d : Z) : bool :=
  String.eqb (Float32.printf_f 1 (Float32.tenth_of d)) (one_decimal d) &&
  (String.length (one_decimal d) <=? 5)%nat.

(** The payload of a sensor message before it is cut to the buffer,
    with the text of the distance given. *)
Definition sensor_text (dev : string) (c : ShelfConfig) (shelfIndex : Z)
    (dist : string) : string :=
  "{" +:+ member_q "device_id" dev +:+ "," +:+
  member_q "shelf_id" (id c) +:+ "," +:+
  member "index" (of_int shelfIndex) +:+ "," +:+
  member "distance_cm" dist +:+ "," +:+
  member "enabled" "true" +:+ "}".

(** The status message of [w] for a count of enabled slots. *)
Definition status_json (w : World) (count : Z) : string :=
  "{" +:+ member_q "device_id" (device_id w) +:+ "," +:+
  member_q "wifi" (if wifi_connected w then "connected" else "disconnected") +:+
  "," +:+ member_q "mqtt" "connected" +:+
  "," +:+ member "uptime_ms" (of_int (millis w)) +:+
  "," +:+ member "shelf_count" (of_int SHELF_COUNT) +:+
  "," +:+ member "enabled_shelf_count" (of_int count) +:+ "}".

Definition status_publication (w : World) : Publication :=
  {| topic := mqtt_topic_status;
     payload := status_json w (enabled_count (shelfConfig w));
     retained := false |}.

End Scan_notions.

(* ===================================================================== *)
(** ** Notions for the invariants of the sketch                          *)
(* ===================================================================== *)

Module Frame_notions.
Import ArduinoString Firmware.

(** The slots of [w'] have the names and the pins of the slots of [w]. *)
Definition same_slots (w w' : World) : Prop :=
  id <$> shelfConfig w' = id <$> shelfConfig w /\
  pin <$> shelfConfig w' = pin <$> shelfConfig w.

(** From [w] to [w'] the messages [sent] went out, and nothing else:
    none without a session, and none of them retained. *)
Definition sends (w w' : World) (sent : list Publication) : Prop :=
  outbox w' = outbox w ++ sent /\
  (mqtt_connected w = false -> sent = []) /\
  Forall (fun p => retained p = false) sent.

(** A cell of the sample array: the initial 0, the sentinel, or a
    distance of the valid range. *)
Definition sample_ok (d : Z) : Prop := d = 0 \/ d = -1 \/ 20 <= d <= 4000.

(** A sample that a scan wrote: the sentinel, or a distance of the
    valid range. *)
Definition sound (d : Z) : Prop := d = -1 \/ 20 <= d <= 4000.

(** What a handler keeps: the slots, the links, the identity and the
    topics of the device; what it sends; and the samples, which it
    leaves alone or replaces by sound ones. *)
Definition handled (w w' : World) (sent : list Publication) : Prop :=
  same_slots w w' /\ sends w w' sent /\
  mqtt_connected w' = mqtt_connected w /\
  wifi_connected w' = wifi_connected w /\
  device_id w' = device_id w /\
  (distance w' = distance w \/ Forall sound (distance w')).

End Frame_notions.

(* ===================================================================== *)
(** ** mqtt_manager.ino: identity, session with the broker, callback     *)
(* ===================================================================== *)

Module Broker_session.
Import ArduinoString Firmware.

(** What [mqttClient.setServer] was given: an address, or a string. *)
Inductive Server := ServerIP (a : IPAddress) | ServerName (s : string).

(** The globals of mqtt_manager.ino that the command protocol does not
    need, around those it needs, and the rest of the peripherals:
    [efuse_mac] is what [ESP.getEfuseMac] returns; [server],
    [buffer_size] and [keep_alive] are the settings of the client;
    [subscribe_log] lists the topics handed to [mqttClient.subscribe]
    and [connect_log] the server and the client identity of every
    connection attempt, oldest first; [broker k] tells whether the
    attempt number [k] succeeds; [random k] is the value of the call
    number [k] of [random(0xffff)]; [inbox] holds the messages that
    wait in the client, as (topic, payload); [rssi] is [WiFi.RSSI()]. *)
Record Node := {
  world : World;
  efuse_mac : Z;
  serial_number : string;
  device_command_topic : string;
  device_config_request_topic : string;
  lastMQTTReconnect : Z;
  lastStatusPublish : Z;
  server : option Server;
  buffer_size : Z;
  keep_alive : Z;
  subscribe_log : list string;
  connect_log : list (option Server * string);
  broker : nat -> bool;
  random : nat -> Z;
  random_calls : nat;
  inbox : list (string * string);
  rssi : Z
}.

Definition set_world (v : World) (n : Node) : Node :=
  {| world := v; efuse_mac := efuse_mac n; serial_number := serial_number n;
  device_command_topic := device_command_topic n; device_config_request_topic
  := device_config_request_topic n; lastMQTTReconnect := lastMQTTReconnect n;
  lastStatusPublish := lastStatusPublish n; server := server n; buffer_size :=
  buffer_size n; keep_alive := keep_alive n; subscribe_log := subscribe_log n;
  connect_log := connect_log n; broker := broker n; random := random n;
  random_calls := random_calls n; inbox := inbox n; rssi := rssi n |}.

Definition set_serial_number (v : string) (n : Node) : Node :=
  {| world := world n; efuse_mac := efuse_mac n; serial_number := v;
  device_command_topic := device_command_topic n; device_config_request_topic
  := device_config_request_topic n; lastMQTTReconnect := lastMQTTReconnect n;
  lastStatusPublish := lastStatusPublish n; server := server n; buffer_size :=
  buffer_size n; keep_alive := keep_alive n; subscribe_log := subscribe_log n;
  connect_log := connect_log n; broker := broker n; random := random n;
  random_calls := random_calls n; inbox := inbox n; rssi := rssi n |}.

Definition set_device_command_topic (v : string) (n : Node) : Node :=
  {| world := world n; efuse_mac := efuse_mac n; serial_number :=
  serial_number n; device_command_topic := v; device_config_request_topic :=
  device_config_request_topic n; lastMQTTReconnect := lastMQTTReconnect n;
  lastStatusPublish := lastStatusPublish n; server := server n; buffer_size :=
  buffer_size n; keep_alive := keep_alive n; subscribe_log := subscribe_log n;
  connect_log := connect_log n; broker := broker n; random := random n;
  random_calls := random_calls n; inbox := inbox n; rssi := rssi n |}.

Definition set_device_config_request_topic (v : string) (n : Node) : Node :=
  {| world := world n; efuse_mac := efuse_mac n; serial_number :=
  serial_number n; device_command_topic := device_command_topic n;
  device_config_request_topic := v; lastMQTTReconnect := lastMQTTReconnect n;
  lastStatusPublish := lastStatusPublish n; server := server n; buffer_size :=
  buffer_size n; keep_alive := keep_alive n; subscribe_log := subscribe_log n;
  connect_log := connect_log n; broker := broker n; random := random n;
  random_calls := random_calls n; inbox := inbox n; rssi := rssi n |}.

Definition set_lastMQTTReconnect (v : Z) (n : Node) : Node :=
  {| world := world n; efuse_mac := efuse_mac n; serial_number :=
  serial_number n; device_command_topic := device_command_topic n;
  device_config_request_topic := device_config_request_topic n;
  lastMQTTReconnect := v; lastStatusPublish := lastStatusPublish n; server :=
  server n; buffer_size := buffer_size n; keep_alive := keep_alive n;
  subscribe_log := subscribe_log n; connect_log := connect_log n; broker :=
  broker n; random := random n; random_calls := random_calls n; inbox := inbox
  n; rssi := rssi n |}.

Definition set_lastStatusPublish (v : Z) (n : Node) : Node :=
  {| world := world n; efuse_mac := efuse_mac n; serial_number :=
  serial_number n; device_command_topic := device_command_topic n;
  device_config_request_topic := device_config_request_topic n;
  lastMQTTReconnect := lastMQTTReconnect n; lastStatusPublish := v; server :=
  server n; buffer_size := buffer_size n; keep_alive := keep_alive n;
  subscribe_log := subscribe_log n; connect_log := connect_log n; broker :=
  broker n; random := random n; random_calls := random_calls n; inbox := inbox
  n; rssi := rssi n |}.

Definition set_server (v : option Server) (n : Node) : Node :=
  {| world := world n; efuse_mac := efuse_mac n; serial_number :=
  serial_number n; device_command_topic := device_command_topic n;
  device_config_request_topic := device_config_request_topic n;
  lastMQTTReconnect := lastMQTTReconnect n; lastStatusPublish :=
  lastStatusPublish n; server := v; buffer_size := buffer_size n; keep_alive
  := keep_alive n; subscribe_log := subscribe_log n; connect_log :=
  connect_log n; broker := broker n; random := random n; random_calls :=
  random_calls n; inbox := inbox n; rssi := rssi n |}.

Definition set_buffer_size (v : Z) (n : Node) : Node :=
  {| world := world n; efuse_mac := efuse_mac n; serial_number :=
  serial_number n; device_command_topic := device_command_topic n;
  device_config_request_topic := device_config_request_topic n;
  lastMQTTReconnect := lastMQTTReconnect n; lastStatusPublish :=
  lastStatusPublish n; server := server n; buffer_size := v; keep_alive :=
  keep_alive n; subscribe_log := subscribe_log n; connect_log := connect_log
  n; broker := broker n; random := random n; random_calls := random_calls n;
  inbox := inbox n; rssi := rssi n |}.

Definition set_keep_alive (v : Z) (n : Node) : Node :=
  {| world := world n; efuse_mac := efuse_mac n; serial_number :=
  serial_number n; device_command_topic := device_command_topic n;
  device_config_request_topic := device_config_request_topic n;
  lastMQTTReconnect := lastMQTTReconnect n; lastStatusPublish :=
  lastStatusPublish n; server := server n; buffer_size := buffer_size n;
  keep_alive := v; subscribe_log := subscribe_log n; connect_log :=
  connect_log n; broker := broker n; random := random n; random_calls :=
  random_calls n; inbox := inbox n; rssi := rssi n |}.

Definition set_subscribe_log (v : list string) (n : Node) : Node :=
  {| world := world n; efuse_mac := efuse_mac n; serial_number :=
  serial_number n; device_command_topic := device_command_topic n;
  device_config_request_topic := device_config_request_topic n;
  lastMQTTReconnect := lastMQTTReconnect n; lastStatusPublish :=
  lastStatusPublish n; server := server n; buffer_size := buffer_size n;
  keep_alive := keep_alive n; subscribe_log := v; connect_log := connect_log
  n; broker := broker n; random := random n; random_calls := random_calls n;
  inbox := inbox n; rssi := rssi n |}.

Definition set_connect_log (v : list (option Server * string)) (n : Node) : Node :=
  {| world := world n; efuse_mac := efuse_mac n; serial_number :=
  serial_number n; device_command_topic := device_command_topic n;
  device_config_request_topic := device_config_request_topic n;
  lastMQTTReconnect := lastMQTTReconnect n; lastStatusPublish :=
  lastStatusPublish n; server := server n; buffer_size := buffer_size n;
  keep_alive := keep_alive n; subscribe_log := subscribe_log n; connect_log :=
  v; broker := broker n; random := random n; random_calls := random_calls n;
  inbox := inbox n; rssi := rssi n |}.

Definition set_random_calls (v : nat) (n : Node) : Node :=
  {| world := world n; efuse_mac := efuse_mac n; serial_number :=
  serial_number n; device_command_topic := device_command_topic n;
  device_config_request_topic := device_config_request_topic n;
  lastMQTTReconnect := lastMQTTReconnect n; lastStatusPublish :=
  lastStatusPublish n; server := server n; buffer_size := buffer_size n;
  keep_alive := keep_alive n; subscribe_log := subscribe_log n; connect_log :=
  connect_log n; broker := broker n; random := random n; random_calls := v;
  inbox := inbox n; rssi := rssi n |}.

Definition set_inbox (v : list (string * string)) (n : Node) : Node :=
  {| world := world n; efuse_mac := efuse_mac n; serial_number :=
  serial_number n; device_command_topic := device_command_topic n;
  device_config_request_topic := device_config_request_topic n;
  lastMQTTReconnect := lastMQTTReconnect n; lastStatusPublish :=
  lastStatusPublish n; server := server n; buffer_size := buffer_size n;
  keep_alive := keep_alive n; subscribe_log := subscribe_log n; connect_log :=
  connect_log n; broker := broker n; random := random n; random_calls :=
  random_calls n; inbox := v; rssi := rssi n |}.

Definition set_device_id (v : string) (w : World) : World :=
  {| shelfConfig := shelfConfig w; distance := distance w; ultrasonic :=
  ultrasonic w; ranging_log := ranging_log w; preferences := preferences w;
  mqtt_connected := mqtt_connected w; wifi_connected := wifi_connected w;
  outbox := outbox w; device_id := v; device_config_response_topic :=
  device_config_response_topic w; device_calibrate_response_topic :=
  device_calibrate_response_topic w; mqtt_hostname := mqtt_hostname w;
  mqtt_server_ip := mqtt_server_ip w; hostByName := hostByName w;
  mqtt_server_resolved_ip := mqtt_server_resolved_ip w; mqtt_ip_resolved :=
  mqtt_ip_resolved w; millis := millis w |}.

Definition set_device_config_response_topic (v : string) (w : World) : World :=
  {| shelfConfig := shelfConfig w; distance := distance w; ultrasonic :=
  ultrasonic w; ranging_log := ranging_log w; preferences := preferences w;
  mqtt_connected := mqtt_connected w; wifi_connected := wifi_connected w;
  outbox := outbox w; device_id := device_id w; device_config_response_topic
  := v; device_calibrate_response_topic := device_calibrate_response_topic w;
  mqtt_hostname := mqtt_hostname w; mqtt_server_ip := mqtt_server_ip w;
  hostByName := hostByName w; mqtt_server_resolved_ip :=
  mqtt_server_resolved_ip w; mqtt_ip_resolved := mqtt_ip_resolved w; millis :=
  millis w |}.

Definition set_device_calibrate_response_topic (v : string) (w : World) : World :=
  {| shelfConfig := shelfConfig w; distance := distance w; ultrasonic :=
  ultrasonic w; ranging_log := ranging_log w; preferences := preferences w;
  mqtt_connected := mqtt_connected w; wifi_connected := wifi_connected w;
  outbox := outbox w; device_id := device_id w; device_config_response_topic
  := device_config_response_topic w; device_calibrate_response_topic := v;
  mqtt_hostname := mqtt_hostname w; mqtt_server_ip := mqtt_server_ip w;
  hostByName := hostByName w; mqtt_server_resolved_ip :=
  mqtt_server_resolved_ip w; mqtt_ip_resolved := mqtt_ip_resolved w; millis :=
  millis w |}.

(** A function of the command protocol, run on the globals it owns. *)
Definition in_world {A} (c : M World A) : M Node A :=
  fun n => match c (world n) with
           | Some (a, w') => Some (a, set_world w' n)
           | None => None
           end.

Definition mqtt_topic_command : string := "shelf/command".
Definition mqtt_topic_discovery : string := "shelf/discovery".
Definition mqtt_topic_discovery_response : string := "shelf/discovery/response".
Definition mqtt_topic_heartbeat : string := "shelf/heartbeat".
Definition mqtt_topic_heartbeat_response : string := "shelf/heartbeat/response".

Definition MQTT_RECONNECT_INTERVAL : Z := 5000.
Definition STATUS_PUBLISH_INTERVAL : Z := 30000.

(** *** Numbers in base 16 *)

(** A digit of [ultoa]: 0 to 9, then a to f. *)
Definition hex_digit (d : Z) : ascii :=
  ascii_of_nat (Z.to_nat (if d <? 10 then 48 + d else 87 + d)).

(** [ultoa(value, buf, 16)]: the digits are produced from the least
    significant one and written in front of those produced before;
    [fuel] bounds their number. *)
Fixpoint ultoa_from (fuel : nat) (value : Z) (acc : string) : string :=
  match fuel with
  | O => acc
  | S fuel' =>
      let acc := String (hex_digit (value mod 16)) acc in
      if value / 16 =? 0 then acc else ultoa_from fuel' (value / 16) acc
  end.

(** [String(v, HEX)] for a [uint32_t], and for a [long] that is not
    negative. *)
Definition of_hex (v : Z) : string := ultoa_from 8 v "".

(** *** Identity of the device *)

Definition getDeviceId : M Node unit :=
  let* chipid := gets efuse_mac in
  let serial :=
    of_hex (wrap32 (Z.shiftr chipid 32)) +:+ of_hex (wrap32 chipid) in
  let serial := toUpperCase serial in
  modify (set_serial_number serial) >>
  in_world (modify (set_device_id ("ESP32S3_" +:+ serial))) >>
  let* dev := in_world (gets device_id) in
  modify (set_device_command_topic ("shelf/" +:+ dev +:+ "/command")) >>
  in_world (modify (set_device_calibrate_response_topic
                      ("shelf/" +:+ dev +:+ "/calibrate/response"))).

(** *** Publications outside the command protocol *)

Definition publishStatus (status : string) : M World unit :=
  let* connected := gets mqtt_connected in
  if negb connected then ret tt
  else mqttClient_publish mqtt_topic_status status false.

(** The body of the loop of [handleDiscoveryRequest]: the names of the
    enabled slots, between quotes and separated by commas. *)
Definition discovery_entry (i : Z) (local : string * bool) : M World (string * bool) :=
  let '(response, firstShelf) := local in
  let* c := shelfConfig_at i in
  if enabled c then
    let response := if negb firstShelf then response +:+ "," else response in
    ret (response +:+ q (id c), false)
  else ret (response, firstShelf).

Definition handleDiscoveryRequest (message : string) : M Node unit :=
  let* dev := in_world (gets device_id) in
  let response := "{" +:+ member_q "device_id" dev +:+ "," in
  let response := response +:+ member_q "device_name" "ESP32S3 設備" +:+ "," in
  let response := response +:+ q "shelves" +:+ ":[" in
  let* local := in_world (for_acc (Z.to_nat SHELF_COUNT) 0 discovery_entry
                            (response, true)) in
  let response := fst local +:+ "]," in
  let response := response +:+ member "total_shelves" (of_int SHELF_COUNT) +:+ "," in
  let* count := in_world getEnabledShelfCount in
  let response := response +:+ member "enabled_shelves" (of_int count) +:+ "," in
  let* signal := gets rssi in
  let response := response +:+ member "wifi_signal" (of_int signal) +:+ "," in
  let* now := in_world (gets millis) in
  let response := response +:+ member "uptime_ms" (of_int now) in
  let response := response +:+ "}" in
  let* connected := in_world (gets mqtt_connected) in
  if connected
  then in_world (mqttClient_publish mqtt_topic_discovery_response response false)
  else ret tt.

Definition handleHeartbeatRequest (message : string) : M World unit :=
  let* dev := gets device_id in
  let* now := gets millis in
  let response :=
    "{" +:+ member_q "device_id" dev +:+ "," +:+
    member_q "status" "online" +:+ "," +:+
    member "timestamp" (of_int now) +:+ "}" in
  let* connected := gets mqtt_connected in
  if connected
  then mqttClient_publish mqtt_topic_heartbeat_response response false
  else ret tt.

(** *** The callback of the client *)

(** The payload, appended to the message one character at a time. *)
Definition message_of (payload : string) : string :=
  fold_left (fun message c => message +:+ String c "")
            (list_ascii_of_string payload) "".

Definition mqttCallback (topic payload : string) : M Node unit :=
  let message := message_of payload in
  let* command_topic := gets device_command_topic in
  let* request_topic := gets device_config_request_topic in
  if equals topic command_topic then in_world (handleMQTTCommand message)
  else if equals topic mqtt_topic_command then in_world (handleMQTTCommand message)
  else if equals topic mqtt_topic_discovery then handleDiscoveryRequest message
  else if equals topic mqtt_topic_heartbeat
       then in_world (handleHeartbeatRequest message)
  else if equals topic request_topic
       then in_world (handleShelfConfigRequest message)
  else ret tt.

(** *** The session *)

(** [mqttClient.connect(clientId)]: nothing is attempted on a client
    that is connected. *)
Definition mqttClient_connect (clientId : string) : M Node bool :=
  let* connected := in_world (gets mqtt_connected) in
  if connected then ret true
  else
    let* n := gets (fun n => n) in
    let ok := broker n (length (connect_log n)) in
    modify (set_connect_log (connect_log n ++ [(server n, clientId)])) >>
    in_world (modify (fun w => set_links ok (wifi_connected w) w)) >>
    ret ok.

(** [mqttClient.subscribe(topic)], which needs a session. *)
Definition mqttClient_subscribe (t : string) : M Node unit :=
  let* connected := in_world (gets mqtt_connected) in
  if connected
  then modify (fun n => set_subscribe_log (subscribe_log n ++ [t]) n)
  else ret tt.

(** [random(0xffff)]. *)
Definition random_0xffff : M Node Z :=
  let* n := gets (fun n => n) in
  modify (set_random_calls (S (random_calls n))) >>
  ret (random n (random_calls n)).

Definition reconnectMQTT : M Node unit :=
  let* wifi := in_world (gets wifi_connected) in
  if negb wifi then ret tt
  else
    let* resolved := in_world (gets mqtt_ip_resolved) in
    (if negb resolved then
       let* ok := in_world resolveMQTTServer in
       if ok then
         let* ip := in_world (gets mqtt_server_resolved_ip) in
         modify (set_server (Some (ServerIP ip)))
       else
         let* name := in_world (gets mqtt_server_ip) in
         modify (set_server (Some (ServerName name)))
     else ret tt) >>
    let* r := random_0xffff in
    let clientId := "ESP32_Shelf_" +:+ of_hex r in
    (* mqtt_user is empty: the client connects without credentials *)
    let* connected := mqttClient_connect clientId in
    if connected then
      let* command_topic := gets device_command_topic in
      mqttClient_subscribe command_topic >>
      mqttClient_subscribe mqtt_topic_discovery >>
      mqttClient_subscribe mqtt_topic_heartbeat >>
      let* dev := in_world (gets device_id) in
      modify (set_device_config_request_topic
                ("shelf/" +:+ dev +:+ "/config/request")) >>
      let* request_topic := gets device_config_request_topic in
      mqttClient_subscribe request_topic >>
      in_world (modify (set_device_config_response_topic
                          ("shelf/" +:+ dev +:+ "/config/response"))) >>
      in_world (modify (set_device_calibrate_response_topic
                          ("shelf/" +:+ dev +:+ "/calibrate/response"))) >>
      in_world (publishStatus "online")
    else in_world (modify (set_mqtt_ip_resolved false)).

Definition setupMQTT : M Node unit :=
  modify (set_buffer_size 2048) >>
  modify (set_keep_alive 60) >>
  let* _ := in_world resolveMQTTServer in
  let* resolved := in_world (gets mqtt_ip_resolved) in
  (if resolved then
     let* ip := in_world (gets mqtt_server_resolved_ip) in
     modify (set_server (Some (ServerIP ip)))
   else
     let* name := in_world (gets mqtt_server_ip) in
     modify (set_server (Some (ServerName name)))) >>
  let* wifi := in_world (gets wifi_connected) in
  if wifi then reconnectMQTT else ret tt.

(** [mqttClient.loop()]: a message that waits is handed to the
    callback, one per call. *)
Definition mqttClient_loop : M Node unit :=
  let* waiting := gets inbox in
  match waiting with
  | [] => ret tt
  | (t, p) :: rest => modify (set_inbox rest) >> mqttCallback t p
  end.

Definition handleMQTTConnection : M Node unit :=
  let* connected := in_world (gets mqtt_connected) in
  if connected then
    mqttClient_loop >>
    let* now := in_world (gets millis) in
    let* last := gets lastStatusPublish in
    if wrap32 (now - last) >=? STATUS_PUBLISH_INTERVAL then
      modify (set_lastStatusPublish now) >>
      in_world publishSystemStatus
    else ret tt
  else
    let* wifi := in_world (gets wifi_connected) in
    if wifi then
      let* now := in_world (gets millis) in
      let* last := gets lastMQTTReconnect in
      if wrap32 (now - last) >=? MQTT_RECONNECT_INTERVAL then
        modify (set_lastMQTTReconnect now) >>
        reconnectMQTT
      else ret tt
    else ret tt.

(** The globals of mqtt_manager.ino at the start of [setup], for a chip
    and its surroundings. *)
Definition power_on (w : World) (mac : Z) (accepts : nat -> bool)
    (rnd : nat -> Z) (waiting : list (string * string)) (signal : Z) : Node :=
  {| world := w; efuse_mac := mac; serial_number := "";
     device_command_topic := ""; device_config_request_topic := "";
     lastMQTTReconnect := 0; lastStatusPublish := 0;
     server := None; buffer_size := 256; keep_alive := 15;
     subscribe_log := []; connect_log := [];
     broker := accepts; random := rnd; random_calls := 0;
     inbox := waiting; rssi := signal |}.

(** *** Notions for the properties *)

(** The value of a digit among 0-9 and A-F, and of a numeral in base
    16 read from the left behind the value [acc]. *)
Definition hex_value (c : ascii) : Z :=
  if code c <? 58 then code c - 48 else code c - 55.

Fixpoint parse_hex_from (acc : Z) (s : string) : Z :=
  match s with
  | EmptyString => acc
  | String c s' => parse_hex_from (acc * 16 + hex_value c) s'
  end.

Definition parse_hex (s : string) : Z := parse_hex_from 0 s.

(** The names of the enabled slots, in the order of the table. *)
Definition enabled_names (table : list ShelfConfig) : list string :=
  id <$> filter (fun c => enabled c = true) table.

(** The answer to a discovery request. *)
Definition discovery_json (n : Node) : string :=
  "{" +:+ member_q "device_id" (device_id (world n)) +:+ "," +:+
  member_q "device_name" "ESP32S3 設備" +:+ "," +:+
  q "shelves" +:+ ":[" +:+
  join_commas (q <$> enabled_names (shelfConfig (world n))) +:+ "]," +:+
  member "total_shelves" "12" +:+ "," +:+
  member "enabled_shelves"
    (of_int (Z.of_nat (length (enabled_names (shelfConfig (world n)))))) +:+ "," +:+
  member "wifi_signal" (of_int (rssi n)) +:+ "," +:+
  member "uptime_ms" (of_int (millis (world n))) +:+ "}".

(** The answer to a heartbeat request. *)
Definition heartbeat_json (w : World) : string :=
  "{" +:+ member_q "device_id" (device_id w) +:+ "," +:+
  member_q "status" "online" +:+ "," +:+
  member "timestamp" (of_int (millis w)) +:+ "}".

(** One publication, if there is a session. *)
Definition published (w : World) (t p : string) : World :=
  if mqtt_connected w
  then set_outbox (outbox w ++ [ {| topic := t; payload := p; retained := false |} ]) w
  else w.

(** The address the client is given when the static address of the
    sketch denotes [static]: the answer of the name service if there is
    one other than 0.0.0.0, the static address if not. *)
Definition chosen_address (w : World) (static : IPAddress) : IPAddress :=
  let '(found, a) := hostByName w (mqtt_hostname w) in
  if found && negb ((ip0 a =? 0) && (ip1 a =? 0) && (ip2 a =? 0) && (ip3 a =? 0))
  then a else static.

(** The identity of the client at the next connection attempt. *)
Definition next_client_id (n : Node) : string :=
  "ESP32_Shelf_" +:+ of_hex (random n (random_calls n)).

(** The four subscriptions of a new session. *)
Definition session_topics (n : Node) : list string :=
  [ device_command_topic n; "shelf/discovery"; "shelf/heartbeat";
    "shelf/" +:+ device_id (world n) +:+ "/config/request" ].

(** A chip with the given identity, everything else at rest. *)
Definition chip (mac : Z) : Node :=
  power_on offline_world mac (fun _ => false) (fun _ => 0) [] 0.

End Broker_session.

(* ===================================================================== *)
(** ** wifi_manager.ino: the start-up and the manager called from loop   *)
(* ===================================================================== *)

Module WiFi_host.
Import WiFi_manager.

(** The globals of wifi_manager.ino that the rotation does not use, and
    what [WiFi.status()] answers while the station is not connected:
    [disconnected t] tells whether the answer at time [t] is
    WL_DISCONNECTED, and not one of the other codes. *)
Record Host := {
  sketch : Sketch;
  lastCheckTime : Z;
  disconnected : Z -> bool
}.

Definition set_sketch (s : Sketch) (h : Host) : Host :=
  {| sketch := s; lastCheckTime := lastCheckTime h; disconnected := disconnected h |}.

Definition set_lastCheckTime (t : Z) (h : Host) : Host :=
  {| sketch := sketch h; lastCheckTime := t; disconnected := disconnected h |}.

(** A function of the rotation, run on the globals of the manager. *)
Definition in_sketch {A} (c : M Sketch A) : M Host A :=
  fun h => match c (sketch h) with
           | Some (a, s') => Some (a, set_sketch s' h)
           | None => None
           end.

Definition CHECK_INTERVAL : Z := 60000.

(** The loop of [setupWiFi] and what follows it; [WiFi.mode] and
    [WiFi.setAutoReconnect(false)] before it leave the globals alone. *)
Fixpoint setupWiFi_from (n : nat) (i : Z) : M Sketch unit :=
  match n with
  | O => modify (set_wifiConnected false)
  | S n' =>
      let* last := gets lastSuccessfulWiFiIndex in
      let* count := gets WIFI_COUNT in
      let tryIndex := Z.rem (last + i) count in
      let* list := gets wifiList in
      let* cred := lift (elem_at list tryIndex) in
      let* ok := TryConnectWiFi (ssid cred) (password cred) SINGLE_WIFI_TIMEOUT in
      modify (fun s => set_attempts (attempts s ++ [(tryIndex, ok)]) s) >>
      if ok then
        modify (set_wifiConnected true) >>
        modify (set_lastSuccessfulWiFiIndex tryIndex) >>
        modify (set_currentTryIndex tryIndex)
      else setupWiFi_from n' (i + 1)
  end.

Definition setupWiFi : M Sketch unit :=
  let* count := gets WIFI_COUNT in
  setupWiFi_from (Z.to_nat count) 0.

Definition CheckWiFiConnection : M Host unit :=
  let* up := in_sketch (gets WiFi_connected) in
  if up then in_sketch (modify (set_wifiConnected true))
  else
    let* now := in_sketch (gets millis) in
    let* down := gets (fun h => disconnected h now) in
    if down then in_sketch (modify (set_wifiConnected false))
    else ret tt.

Definition HostWiFiManager : M Host unit :=
  let* now := in_sketch (gets millis) in
  let* last := gets lastCheckTime in
  (if wrap32 (now - last) >=? CHECK_INTERVAL then
     let* now' := in_sketch (gets millis) in
     modify (set_lastCheckTime now') >>
     CheckWiFiConnection
   else ret tt) >>
  let* connected := in_sketch (gets wifiConnected) in
  if connected then ret tt
  else in_sketch ConnectWiFi.

(** *** Notions for the properties *)

(** The number of times the loop of [TryConnectWiFi] asks for the
    status within [timeout], and the times at which it asks when the
    call starts at [t]. *)
Definition polls (timeout : Z) : nat := Z.to_nat ((timeout + 99) / 100).

Definition poll_times (timeout t : Z) : list Z :=
  map (fun k => wrap32 (t + 100 + 100 * Z.of_nat k)) (seq 0 (polls timeout)).

(** The [j]-th attempt of a rotation started in [s]: the index of the
    network with each time at which its status is asked; and all the
    attempts of the rotation, in order. *)
Definition attempt_polls (s : Sketch) (j : nat) : list (Z * Z) :=
  map (pair ((lastSuccessfulWiFiIndex s + Z.of_nat j) mod Z.of_nat (length (wifiList s))))
      (poll_times SINGLE_WIFI_TIMEOUT (millis s + 10100 * Z.of_nat j)).

Definition schedule (s : Sketch) : list (Z * Z) :=
  flat_map (attempt_polls s) (seq 0 (length (wifiList s))).

(** Whether the network of index [fst p] can be joined at time [snd p]. *)
Definition up_at (s : Sketch) (p : Z * Z) : bool :=
  match wifiList s !! Z.to_nat (fst p) with
  | Some c => radio s (ssid c) (password c) (snd p)
  | None => false
  end.

(** The flag [wifiConnected] after the check of [HostWiFiManager], if
    one is due. *)
Definition check_due (h : Host) : bool :=
  wrap32 (millis (sketch h) - lastCheckTime h) >=? CHECK_INTERVAL.

Definition flag_after_check (h : Host) : bool :=
  if check_due h then
    if WiFi_connected (sketch h) then true
    else if disconnected h (millis (sketch h)) then false
         else wifiConnected (sketch h)
  else wifiConnected (sketch h).

(** The manager at power-on, on a radio. *)
Definition host_boot (r : string -> string -> Z -> bool) (down : Z -> bool) : Host :=
  {| sketch := boot r; lastCheckTime := 0; disconnected := down |}.

End WiFi_host.

(** The same for the globals of the session: the functions of the
    session run on globals given field by field. *)
Ltac session :=
  cbv beta iota zeta delta
    [bind ret gets modify lift
     Broker_session.in_world Broker_session.random_0xffff
     Broker_session.mqttClient_connect Broker_session.mqttClient_subscribe
     Broker_session.publishStatus Firmware.mqttClient_publish
     Broker_session.set_world Broker_session.set_serial_number
     Broker_session.set_device_command_topic
     Broker_session.set_device_config_request_topic
     Broker_session.set_lastMQTTReconnect Broker_session.set_lastStatusPublish
     Broker_session.set_server Broker_session.set_buffer_size
     Broker_session.set_keep_alive Broker_session.set_subscribe_log
     Broker_session.set_connect_log Broker_session.set_random_calls
     Broker_session.set_inbox Broker_session.set_device_id
     Broker_session.set_device_config_response_topic
     Broker_session.set_device_calibrate_response_topic
     Broker_session.world Broker_session.efuse_mac Broker_session.serial_number
     Broker_session.device_command_topic Broker_session.device_config_request_topic
     Broker_session.lastMQTTReconnect Broker_session.lastStatusPublish
     Broker_session.server Broker_session.buffer_size Broker_session.keep_alive
     Broker_session.subscribe_log Broker_session.connect_log Broker_session.broker
     Broker_session.random Broker_session.random_calls Broker_session.inbox
     Broker_session.rssi
     Firmware.set_shelfConfig Firmware.set_distance Firmware.set_ranging_log
     Firmware.set_preferences Firmware.set_links Firmware.set_outbox
     Firmware.set_mqtt_server_resolved_ip Firmware.set_mqtt_ip_resolved
     Firmware.set_millis
     Firmware.shelfConfig Firmware.distance Firmware.ultrasonic Firmware.ranging_log
     Firmware.preferences Firmware.mqtt_connected Firmware.wifi_connected
     Firmware.outbox Firmware.device_id Firmware.device_config_response_topic
     Firmware.device_calibrate_response_topic Firmware.mqtt_hostname
     Firmware.mqtt_server_ip Firmware.hostByName Firmware.mqtt_server_resolved_ip
     Firmware.mqtt_ip_resolved Firmware.millis negb].

(** Globals written in any order: the setters unfolded, the fields read,
    innermost first. *)
Ltac fields :=
  cbv beta iota delta
    [Firmware.set_shelfConfig Firmware.set_distance Firmware.set_ranging_log
     Firmware.set_preferences Firmware.set_links Firmware.set_outbox
     Firmware.set_mqtt_server_resolved_ip Firmware.set_mqtt_ip_resolved
     Firmware.set_millis
     Firmware.shelfConfig Firmware.distance Firmware.ultrasonic Firmware.ranging_log
     Firmware.preferences Firmware.mqtt_connected Firmware.wifi_connected
     Firmware.outbox Firmware.device_id Firmware.device_config_response_topic
     Firmware.device_calibrate_response_topic Firmware.mqtt_hostname
     Firmware.mqtt_server_ip Firmware.hostByName Firmware.mqtt_server_resolved_ip
     Firmware.mqtt_ip_resolved Firmware.millis].

(* ===================================================================== *)
(** * Properties                                                         *)
(* ===================================================================== *)

(* ===================================================================== *)
(** ** Reasoning about state transformers                                *)
(* ===================================================================== *)

(** Unfolding of the monad, in the goal and in a hypothesis. *)
Ltac run := cbv beta iota delta [bind ret gets modify lift fault].
Ltac run_in H := cbv beta iota delta [bind ret gets modify lift fault] in H.

Section Loops.
Context {S L : Type}.

(** The rule of the [for] loop: an invariant indexed by the number of
    iterations done gives the result of the whole loop, which does not
    fault. *)
Lemma for_acc_invariant (Inv : nat -> L -> S -> Prop) :
  forall (n : nat) (i0 : Z) (body : Z -> L -> M S L) (acc : L) (s : S),
    Inv 0%nat acc s ->
    (forall (k : nat) a t, (k < n)%nat -> Inv k a t ->
       exists a' t', body (i0 + Z.of_nat k) a t = Some (a', t') /\ Inv (Datatypes.S k) a' t') ->
    exists a' s', for_acc n i0 body acc s = Some (a', s') /\ Inv n a' s'.
Proof.
  intros n. revert Inv.
  induction n as [|n IH]; intros Inv i0 body acc s H0 Hstep.
  - exists acc, s. split; [reflexivity | exact H0].
  - destruct (Hstep 0%nat acc s ltac:(lia) H0) as (a1 & s1 & Hb & H1).
    rewrite Z.add_0_r in Hb.
    destruct (IH (fun k => Inv (Datatypes.S k)) (i0 + 1) body a1 s1 H1) as (a' & s' & Hr & Hn).
    + intros k a t Hk HI.
      destruct (Hstep (Datatypes.S k) a t ltac:(lia) HI) as (a2 & t2 & Hb2 & H2).
      exists a2, t2. split; [|exact H2].
      rewrite <- Hb2. f_equal. lia.
    + exists a', s'. split; [|exact Hn].
      simpl. unfold bind. rewrite Hb. exact Hr.
Qed.

End Loops.

(* ===================================================================== *)
(** ** Network associator: the rotation of [ConnectWiFi]                 *)
(* ===================================================================== *)

Module WiFi_rotation.
Import WiFi_manager.






Lemma rotation_length (start : Z) (n : nat) : length (rotation start n) = n.
Proof. unfold rotation. rewrite length_map, length_seq. reflexivity. Qed.






End WiFi_rotation.

(* ===================================================================== *)
(** ** Arrays, and the slot table                                        *)
(* ===================================================================== *)

Lemma elem_at_Some {A} (a : list A) (i : Z) (x : A) :
  elem_at a i = Some x <-> 0 <= i /\ a !! Z.to_nat i = Some x.
Proof.
  unfold elem_at. destruct (Z.leb_spec 0 i); split.
  - intros H1. split; [lia | exact H1].
  - intros [_ H1]. exact H1.
  - discriminate.
  - intros [H1 _]. lia.
Qed.

Lemma elem_at_lt {A} (a : list A) (i : Z) (x : A) :
  elem_at a i = Some x -> 0 <= i < Z.of_nat (length a).
Proof.
  intros [H0 H]%elem_at_Some. apply lookup_lt_Some in H. lia.
Qed.

Lemma elem_at_is_Some {A} (a : list A) (i : Z) :
  0 <= i < Z.of_nat (length a) -> exists x, elem_at a i = Some x.
Proof.
  intros H. destruct (lookup_lt_is_Some_2 a (Z.to_nat i)) as [x Hx]; [lia|].
  exists x. apply elem_at_Some. split; [lia | exact Hx].
Qed.

Lemma elem_at_of_nat {A} (a : list A) (k : nat) : elem_at a (Z.of_nat k) = a !! k.
Proof.
  unfold elem_at. destruct (Z.leb_spec 0 (Z.of_nat k)); [|lia].
  rewrite Nat2Z.id. reflexivity.
Qed.

Lemma store_Some {A} (a : list A) (i : Z) (x : A) :
  0 <= i < Z.of_nat (length a) -> store a i x = Some (<[Z.to_nat i := x]> a).
Proof.
  intros H. unfold store.
  destruct (Z.leb_spec 0 i); [|lia].
  destruct (Z.ltb_spec i (Z.of_nat (length a))); [|lia]. reflexivity.
Qed.

Lemma elem_at_insert_eq {A} (a : list A) (i : Z) (x : A) :
  0 <= i < Z.of_nat (length a) -> elem_at (<[Z.to_nat i := x]> a) i = Some x.
Proof.
  intros H. apply elem_at_Some. split; [lia|].
  apply list_lookup_insert_eq. lia.
Qed.

Lemma elem_at_insert_ne {A} (a : list A) (i j : Z) (x : A) :
  0 <= i -> j <> i -> elem_at (<[Z.to_nat i := x]> a) j = elem_at a j.
Proof.
  intros Hi Hne. unfold elem_at. destruct (Z.leb_spec 0 j); [|reflexivity].
  apply list_lookup_insert_ne. lia.
Qed.

Module Shelf_facts.
Import ArduinoString Firmware.

Lemma shelfConfig_at_Some (w : World) (i : Z) (c : ShelfConfig) :
  elem_at (shelfConfig w) i = Some c -> shelfConfig_at i w = Some (c, w).
Proof. intros H. unfold shelfConfig_at. run. rewrite H. reflexivity. Qed.

Lemma shelfConfig_update_Some (w : World) (i : Z) (c : ShelfConfig) f :
  elem_at (shelfConfig w) i = Some c ->
  shelfConfig_update i f w
  = Some (tt, set_shelfConfig (<[Z.to_nat i := f c]> (shelfConfig w)) w).
Proof.
  intros H. unfold shelfConfig_update. run. rewrite H.
  rewrite store_Some by (eapply elem_at_lt; eauto). reflexivity.
Qed.

Lemma guard_in (i : Z) :
  0 <= i < SHELF_COUNT -> (i <? 0) || (i >=? SHELF_COUNT) = false.
Proof.
  intros H. destruct (Z.ltb_spec i 0), (Z.geb_spec i SHELF_COUNT); simpl; try reflexivity; lia.
Qed.

Lemma guard_out (i : Z) :
  ~ (0 <= i < SHELF_COUNT) -> (i <? 0) || (i >=? SHELF_COUNT) = true.
Proof.
  intros H. destruct (Z.ltb_spec i 0), (Z.geb_spec i SHELF_COUNT); simpl; try reflexivity; lia.
Qed.

Lemma saveShelfConfig_Some (w : World) (i : Z) (c : ShelfConfig) :
  i < SHELF_COUNT ->
  elem_at (shelfConfig w) i = Some c ->
  saveShelfConfig i w = Some (tt, set_preferences (saved c (preferences w)) w).
Proof.
  intros Hi H. unfold saveShelfConfig.
  rewrite guard_in by (apply elem_at_lt in H; lia).
  unfold shelfConfig_at, putBool, putFloat. run.
  rewrite H. cbv beta iota. cbn [shelfConfig set_preferences].
  rewrite H. reflexivity.
Qed.

Lemma setShelfEnabled_Some (w : World) (i : Z) (c : ShelfConfig) (v : bool) :
  i < SHELF_COUNT ->
  elem_at (shelfConfig w) i = Some c ->
  setShelfEnabled i v w
  = Some (tt, set_preferences (saved (set_enabled v c) (preferences w))
                (set_shelfConfig (<[Z.to_nat i := set_enabled v c]> (shelfConfig w)) w)).
Proof.
  intros Hi H. pose proof (elem_at_lt _ _ _ H) as Hr.
  unfold setShelfEnabled.
  destruct (Z.geb_spec i 0); [|lia]. destruct (Z.ltb_spec i SHELF_COUNT); [|lia].
  cbn [andb]. unfold bind at 1.
  rewrite (shelfConfig_update_Some w i c) by exact H.
  rewrite (saveShelfConfig_Some _ i (set_enabled v c)); [reflexivity | exact Hi |].
  cbn [shelfConfig set_shelfConfig]. apply elem_at_insert_eq. exact Hr.
Qed.

Lemma wf_slot (w : World) (i : Z) :
  wf w -> 0 <= i < SHELF_COUNT -> exists c, elem_at (shelfConfig w) i = Some c.
Proof. intros [Hw _] Hi. apply elem_at_is_Some. lia. Qed.

Lemma append_length (a b : string) :
  String.length (a +:+ b) = (String.length a + String.length b)%nat.
Proof. induction a as [|x a IH]; [reflexivity | exact (f_equal S IH)]. Qed.

Lemma length_key_ne (name : string) : name +:+ "_len" <> name.
Proof.
  intros H. apply (f_equal String.length) in H.
  rewrite append_length in H. simpl in H. lia.
Qed.

End Shelf_facts.

(* ===================================================================== *)
(** ** Calibration engine: the loops of [calibrateShelf]                 *)
(* ===================================================================== *)

Module Calibration_facts.
Import ArduinoString Firmware Shelf_facts.

Lemma readings_S us (i : Z) (k n : nat) :
  readings us i k (S n) = readings us i k n ++ [us i (k + n)%nat].
Proof. unfold readings. rewrite seq_S, map_app. reflexivity. Qed.

Lemma readings_length us (i : Z) (k n : nat) : length (readings us i k n) = n.
Proof. unfold readings. rewrite length_map, length_seq. reflexivity. Qed.

Lemma valid_sample_spec (mm : Z) :
  (mm >=? 20) && (mm <=? 4000) = valid_sample mm.
Proof. unfold valid_sample. rewrite Z.geb_leb. reflexivity. Qed.

Lemma filter_length_le {A} (f : A -> bool) (l : list A) :
  (length (List.filter f l) <= length l)%nat.
Proof. induction l as [|x l IH]; simpl; [lia|]. destruct (f x); simpl; lia. Qed.

Lemma kept_snoc (l : list Z) (v : Z) :
  kept (l ++ [v]) = kept l ++ (if valid_sample v then [Float32.tenth_of v] else []).
Proof.
  unfold kept. rewrite List.filter_app, map_app. simpl.
  destruct (valid_sample v); reflexivity.
Qed.

Lemma kept_length_le (l : list Z) : (length (kept l) <= length l)%nat.
Proof. unfold kept. rewrite length_map. apply filter_length_le. Qed.

(** Writing behind the values already kept. *)
Lemma store_behind (vals : list float) (r : nat) (x : float) :
  (0 < r)%nat ->
  store (vals ++ replicate r Float32.zero) (Z.of_nat (length vals)) x
  = Some ((vals ++ [x]) ++ replicate (r - 1) Float32.zero).
Proof.
  intros Hr. rewrite store_Some.
  - f_equal. rewrite Nat2Z.id.
    replace (length vals) with (length vals + 0)%nat at 1 by lia.
    rewrite insert_app_r. destruct r as [|r]; [lia|].
    simpl. rewrite Nat.sub_0_r, <- app_assoc. reflexivity.
  - rewrite length_app, length_replicate. lia.
Qed.

(** The sampling loop: ten measurements of the slot, the valid ones
    kept in order at the front of the array, only the clock and the
    ranging log changed. *)
Lemma sampling_loop (w : World) (i : Z) :
  0 <= i < SHELF_COUNT ->
  exists t,
    for_acc (Z.to_nat CALIBRATE_SAMPLES) 0 (calibrate_sample i)
      (replicate (Z.to_nat CALIBRATE_SAMPLES) Float32.zero, 0) w
    = Some ((kept (calibration_samples w i)
               ++ replicate (10 - length (kept (calibration_samples w i))) Float32.zero,
             Z.of_nat (length (kept (calibration_samples w i)))),
            set_millis t
              (set_ranging_log
                 (ranging_log w ++ map (pair i) (calibration_samples w i)) w)).
Proof.
  intros Hi.
  set (k0 := length (ranging_log w)).
  pose (Inv := fun (k : nat) (local : list float * Z) (s : World) =>
    let seen := readings (ultrasonic w) i k0 k in
    local = (kept seen ++ replicate (10 - length (kept seen)) Float32.zero,
             Z.of_nat (length (kept seen))) /\
    exists t, s = set_millis t (set_ranging_log (ranging_log w ++ map (pair i) seen) w)).
  destruct (for_acc_invariant Inv (Z.to_nat CALIBRATE_SAMPLES) 0
              (calibrate_sample i)
              (replicate (Z.to_nat CALIBRATE_SAMPLES) Float32.zero, 0) w)
    as (a' & s' & Hrun & Hlocal & t & Hs).
  - split; [reflexivity|]. exists (millis w). simpl. rewrite app_nil_r.
    destruct w; reflexivity.
  - intros k [a c] s Hk (Hlocal & t & Hs).
    change (Z.to_nat CALIBRATE_SAMPLES) with 10%nat in Hk.
    injection Hlocal as -> ->. subst s.
    set (seen := readings (ultrasonic w) i k0 k).
    set (v := ultrasonic w i (k0 + k)%nat).
    pose proof (kept_length_le seen) as Hle.
    unfold seen in Hle at 2. rewrite readings_length in Hle.
    unfold calibrate_sample, MeasureInMillimeters.
    destruct (Z.leb_spec 0 i); [|lia]. destruct (Z.ltb_spec i SHELF_COUNT); [|lia].
    cbn [andb]. unfold delay. run.
    cbn [ultrasonic ranging_log set_millis set_ranging_log millis].
    assert (Hlen : length seen = k) by apply readings_length.
    rewrite !length_app, !length_map, !Hlen.
    fold k0. fold v. rewrite valid_sample_spec.
    unfold Inv. rewrite readings_S. fold seen. fold v. rewrite kept_snoc.
    destruct (valid_sample v) eqn:Hv.
    + rewrite store_behind by lia. cbv beta iota.
      eexists _, _. split; [reflexivity|]. split.
      * rewrite length_app. simpl. f_equal; [|lia].
        f_equal. f_equal. lia.
      * eexists. cbn [set_millis set_ranging_log ranging_log millis].
        rewrite map_app, app_assoc. reflexivity.
    + eexists _, _. split; [reflexivity|]. split.
      * rewrite app_nil_r. reflexivity.
      * eexists. cbn [set_millis set_ranging_log ranging_log millis].
        rewrite map_app, app_assoc. reflexivity.
  - exists t. rewrite Hrun. subst s'. rewrite Hlocal. reflexivity.
Qed.

(** The summing loop adds the first [n] cells from left to right. *)
Lemma summing_loop (w : World) (a : list float) :
  forall (n k : nat) (sum : float),
    (k + n <= length a)%nat ->
    for_acc n (Z.of_nat k)
      (fun i sum => let* x := lift (elem_at a i) in ret (Float32.add sum x)) sum w
    = Some (fold_left Float32.add (take n (drop k a)) sum, w).
Proof.
  induction n as [|n IH]; intros k sum Hk; [reflexivity|].
  cbn [for_acc]. run. rewrite elem_at_of_nat.
  destruct (lookup_lt_is_Some_2 a k) as [x Hx]; [lia|]. rewrite Hx.
  replace (Z.of_nat k + 1) with (Z.of_nat (S k)) by lia.
  specialize (IH (S k) (Float32.add sum x)). run_in IH.
  rewrite IH by lia.
  rewrite (drop_S a x k Hx). reflexivity.
Qed.

(** [calibrateShelf] on a slot of the table: it returns, with -1.0 and
    nothing but the clock and the ranging log changed when fewer than
    five samples are valid, and else with the mean, which it writes to
    the slot and to the flash store. *)
Lemma calibrateShelf_run (w : World) (i : Z) (c : ShelfConfig) :
  i < SHELF_COUNT ->
  elem_at (shelfConfig w) i = Some c ->
  exists t,
    let vals := kept (calibration_samples w i) in
    let w1 := set_millis t
                (set_ranging_log
                   (ranging_log w ++ map (pair i) (calibration_samples w i)) w) in
    calibrateShelf i w =
      if Z.of_nat (length vals) <? 5 then Some (Float32.minus_one, w1)
      else
        let c' := set_shelf_length (float_mean vals) c in
        Some (float_mean vals,
              set_preferences (saved c' (preferences w))
                (set_shelfConfig (<[Z.to_nat i := c']> (shelfConfig w)) w1)).
Proof.
  intros Hi Hc. pose proof (elem_at_lt _ _ _ Hc) as Hr.
  destruct (sampling_loop w i ltac:(lia)) as (t & Hloop).
  exists t. cbv zeta.
  set (vals := kept (calibration_samples w i)) in *.
  unfold calibrateShelf. rewrite guard_in by lia.
  unfold bind at 1. rewrite Hloop. cbv beta iota.
  destruct (Z.of_nat (length vals) <? 5) eqn:Hfew; [reflexivity|].
  unfold bind at 1.
  assert (Hle : (length vals <= 10)%nat).
  { subst vals. etransitivity; [apply kept_length_le|].
    unfold calibration_samples. rewrite readings_length. reflexivity. }
  rewrite Nat2Z.id.
  rewrite (summing_loop _ _ (length vals) 0 Float32.zero)
    by (rewrite length_app, length_replicate; lia).
  cbv beta iota. rewrite drop_0, take_app_length.
  fold (float_mean vals).
  unfold bind at 1.
  rewrite (shelfConfig_update_Some _ i c) by exact Hc.
  unfold bind at 1.
  rewrite (saveShelfConfig_Some _ i (set_shelf_length (float_mean vals) c)).
  - reflexivity.
  - exact Hi.
  - cbn [shelfConfig set_shelfConfig set_millis set_ranging_log].
    apply elem_at_insert_eq. exact Hr.
Qed.

End Calibration_facts.

(* ===================================================================== *)
(** ** Scan loop: reading and publishing the slots                       *)
(* ===================================================================== *)

Module Scan_facts.
Import ArduinoString Firmware Shelf_facts.

Lemma distance_store_Some (w : World) (i v : Z) :
  0 <= i < Z.of_nat (length (distance w)) ->
  distance_store i v w = Some (tt, set_distance (<[Z.to_nat i := v]> (distance w)) w).
Proof.
  intros H. unfold distance_store. run. rewrite store_Some by exact H. reflexivity.
Qed.

(** One scan: the table is not touched, every slot that is disabled
    holds the sentinel afterwards, and nothing is published. *)
Lemma readAllShelfSensors_run (w : World) :
  wf w ->
  exists w',
    readAllShelfSensors w = Some (tt, w') /\
    shelfConfig w' = shelfConfig w /\
    preferences w' = preferences w /\
    outbox w' = outbox w /\
    mqtt_connected w' = mqtt_connected w /\
    device_id w' = device_id w /\
    wf w' /\
    (forall i c, elem_at (shelfConfig w) i = Some c -> enabled c = false ->
                 elem_at (distance w') i = Some (-1)).
Proof.
  intros [Hc Hd]. unfold SHELF_COUNT in Hc, Hd.
  pose (Inv := fun (k : nat) (_ : unit) (s : World) =>
    shelfConfig s = shelfConfig w /\ preferences s = preferences w /\
    outbox s = outbox w /\ mqtt_connected s = mqtt_connected w /\
    device_id s = device_id w /\
    length (distance s) = length (distance w) /\
    (forall j c, (j < k)%nat -> shelfConfig w !! j = Some c -> enabled c = false ->
                 distance s !! j = Some (-1))).
  destruct (for_acc_invariant Inv (Z.to_nat SHELF_COUNT) 0
              (fun i _ =>
                 let* c := shelfConfig_at i in
                 if negb (enabled c) then distance_store i (-1)
                 else
                   let* dist := MeasureInMillimeters i in
                   delay 35 >>
                   let dist := if (dist <? 20) || (dist >? 4000) then -1 else dist in
                   distance_store i dist) tt w)
    as ([] & w' & Hrun & H1 & H2 & H3 & H4 & H5 & H6 & H7).
  - unfold Inv. repeat split; try reflexivity. intros j c Hj. lia.
  - intros k [] s Hk (H1 & H2 & H3 & H4 & H5 & H6 & H7). rewrite Z.add_0_l.
    change (Z.to_nat SHELF_COUNT) with 12%nat in Hk.
    destruct (lookup_lt_is_Some_2 (shelfConfig w) k) as [c Hck]; [lia|].
    unfold bind at 1.
    rewrite (shelfConfig_at_Some s _ c) by (rewrite H1, elem_at_of_nat; exact Hck).
    assert (Hstore : forall v s1,
               distance s1 = distance s -> shelfConfig s1 = shelfConfig s ->
               preferences s1 = preferences s -> outbox s1 = outbox s ->
               mqtt_connected s1 = mqtt_connected s -> device_id s1 = device_id s ->
               (enabled c = false -> v = -1) ->
               exists a' t', distance_store (Z.of_nat k) v s1 = Some (a', t') /\
                             Inv (S k) a' t').
    { intros v s1 E1 E2 E3 E4 E5 E6 Hv.
      rewrite distance_store_Some by (rewrite E1, H6; lia).
      eexists tt, _. split; [reflexivity|].
      unfold Inv. cbn [shelfConfig preferences outbox mqtt_connected device_id
                       distance set_distance].
      rewrite length_insert, Nat2Z.id, E1.
      repeat split; try congruence.
      intros j c' Hj Hcj Hen.
      destruct (decide (j = k)) as [->|Hne].
      - rewrite list_lookup_insert_eq by lia.
        assert (c' = c) by congruence. subst c'. rewrite Hv by exact Hen. reflexivity.
      - rewrite list_lookup_insert_ne by lia. apply (H7 j c'); [lia | done | done]. }
    destruct (enabled c) eqn:Hen; cbn [negb].
    + unfold MeasureInMillimeters.
      destruct (Z.leb_spec 0 (Z.of_nat k)); [|lia].
      destruct (Z.ltb_spec (Z.of_nat k) SHELF_COUNT); [|unfold SHELF_COUNT in *; lia].
      cbn [andb]. unfold delay. run.
      apply Hstore; try reflexivity. discriminate.
    + apply Hstore; try reflexivity.
  - exists w'. split; [exact Hrun|].
    repeat split; try done; unfold SHELF_COUNT; try (rewrite ?H1, ?H6; lia).
    intros i c Hic Hen. apply elem_at_Some in Hic as [H0 Hic].
    apply elem_at_Some. split; [exact H0|].
    apply (H7 _ c); try done. apply lookup_lt_Some in Hic.
    unfold SHELF_COUNT in *. lia.
Qed.

(** A disabled slot is not published. *)
Lemma publishSensorData_disabled (w : World) (i : Z) (c : ShelfConfig) :
  elem_at (shelfConfig w) i = Some c -> enabled c = false ->
  publishSensorData i w = Some (tt, w).
Proof.
  intros Hc Hen. unfold publishSensorData. run.
  destruct (mqtt_connected w); cbn [negb]; [|reflexivity].
  destruct ((i <? 0) || (i >=? SHELF_COUNT)); [reflexivity|].
  unfold shelfConfig_at. run. rewrite Hc, Hen. reflexivity.
Qed.

(** An enabled slot of the table is published once, with its sample. *)
Lemma publishSensorData_enabled (w : World) (i : Z) (c : ShelfConfig) (d : Z) :
  mqtt_connected w = true ->
  i < SHELF_COUNT ->
  elem_at (shelfConfig w) i = Some c -> enabled c = true ->
  elem_at (distance w) i = Some d ->
  publishSensorData i w
  = Some (tt, set_outbox (outbox w ++ [sensor_publication w i c d]) w).
Proof.
  intros Hm Hi Hc Hen Hd. unfold publishSensorData. run. rewrite Hm. cbn [negb].
  rewrite guard_in by (apply elem_at_lt in Hc; lia).
  unfold shelfConfig_at, distance_at, mqttClient_publish. run.
  rewrite Hc, Hen. cbn [negb]. rewrite Hd, Hm. reflexivity.
Qed.

(** What a round of publications sends: messages of enabled slots. *)
Lemma publishAllSensorData_run (w : World) :
  wf w ->
  exists w' sent,
    publishAllSensorData w = Some (tt, w') /\
    outbox w' = outbox w ++ sent /\
    shelfConfig w' = shelfConfig w /\
    distance w' = distance w /\
    preferences w' = preferences w /\
    (mqtt_connected w = false -> sent = []) /\
    (forall p, p ∈ sent ->
       exists i c d, elem_at (shelfConfig w) i = Some c /\ enabled c = true /\
                     elem_at (distance w) i = Some d /\
                     p = sensor_publication w i c d).
Proof.
  intros [Hc Hd]. unfold SHELF_COUNT in Hc, Hd. unfold publishAllSensorData. unfold bind at 1, gets at 1.
  destruct (mqtt_connected w) eqn:Hm; cbn [negb].
  2:{ exists w, []. rewrite app_nil_r. repeat split; try reflexivity.
      intros p Hp. inversion Hp. }
  pose (Inv := fun (k : nat) (_ : unit) (s : World) =>
    shelfConfig s = shelfConfig w /\ distance s = distance w /\
    preferences s = preferences w /\ mqtt_connected s = true /\
    device_id s = device_id w /\
    exists sent, outbox s = outbox w ++ sent /\
      forall p, p ∈ sent ->
        exists i c d, elem_at (shelfConfig w) i = Some c /\ enabled c = true /\
                      elem_at (distance w) i = Some d /\
                      p = sensor_publication w i c d).
  destruct (for_acc_invariant Inv (Z.to_nat SHELF_COUNT) 0
              (fun i _ =>
                 let* c := shelfConfig_at i in
                 if enabled c then publishSensorData i >> delay 100 else ret tt) tt w)
    as ([] & w' & Hrun & H1 & H2 & H3 & H4 & H5 & sent & H6 & H7).
  - unfold Inv. repeat split; try done. exists []. rewrite app_nil_r.
    split; [reflexivity|]. intros p Hp. inversion Hp.
  - intros k [] s Hk (H1 & H2 & H3 & H4 & H5 & sent & H6 & H7). rewrite Z.add_0_l.
    change (Z.to_nat SHELF_COUNT) with 12%nat in Hk.
    destruct (lookup_lt_is_Some_2 (shelfConfig w) k) as [c Hck]; [lia|].
    destruct (lookup_lt_is_Some_2 (distance w) k) as [d Hdk]; [lia|].
    unfold bind at 1.
    rewrite (shelfConfig_at_Some s _ c) by (rewrite H1, elem_at_of_nat; exact Hck).
    destruct (enabled c) eqn:Hen.
    + unfold bind at 1.
      rewrite (publishSensorData_enabled s _ c d); try done.
      * unfold delay, modify. eexists tt, _. split; [reflexivity|].
        unfold Inv. cbn [shelfConfig distance preferences mqtt_connected device_id
                         outbox set_outbox set_millis].
        repeat split; try done.
        exists (sent ++ [sensor_publication s (Z.of_nat k) c d]).
        rewrite H6, app_assoc. split; [reflexivity|].
        intros p [Hp|Hp]%elem_of_app; [apply H7; exact Hp|].
        apply list_elem_of_singleton in Hp. subst p.
        exists (Z.of_nat k), c, d. rewrite !elem_at_of_nat.
        repeat split; try done.
        unfold sensor_publication. rewrite H5. reflexivity.
      * unfold SHELF_COUNT. lia.
      * rewrite H1, elem_at_of_nat. exact Hck.
      * rewrite H2, elem_at_of_nat. exact Hdk.
    + eexists tt, s. split; [reflexivity|].
      unfold Inv. repeat split; try done. exists sent. done.
  - exists w', sent. split; [exact Hrun|]. repeat split; try done.
Qed.

End Scan_facts.

(* ===================================================================== *)
(** ** Calibration and the index guards (C1, C2, C10)                    *)
(* ===================================================================== *)

Module Shelf_manager_spec.
Import ArduinoString Firmware Shelf_facts Calibration_facts Scan_facts.

(** C1 (as amended). For a slot of the table, [calibrateShelf] takes
    exactly ten samples of that slot and keeps those within
    [20 mm, 4000 mm]; with at least five of them it returns their mean in
    centimeters, computed in single precision and not rounded to one
    decimal, makes it the reference length of the slot, of that slot
    only, and writes it to the flash store. On the samples
    198, 201, 199, 15, 202, 197, 4500, 200, 203, 196 the samples 15 and
    4500 are dropped and the result is 19.95 cm up to the precision of a
    [float] (it prints as 19.95 with two decimals), which the command
    router reports as a success. *)
Theorem calibrateShelf_mean (w : World) (i : Z) :
  wf w ->
  0 <= i < SHELF_COUNT ->
  let samples := calibration_samples w i in
  let valid := List.filter valid_sample samples in
  let mean := float_mean (map Float32.tenth_of valid) in
  (5 <= length valid)%nat ->
  exists c w',
    elem_at (shelfConfig w) i = Some c /\
    calibrateShelf i w = Some (mean, w') /\
    length samples = 10%nat /\
    ranging_log w' = ranging_log w ++ map (pair i) samples /\
    elem_at (shelfConfig w') i = Some (set_shelf_length mean c) /\
    (forall j, j <> i -> elem_at (shelfConfig w') j = elem_at (shelfConfig w) j) /\
    preferences w' !! (id c +:+ "_len") = Some (PFloat mean) /\
    (samples = scenario_samples ->
       valid = [198; 201; 199; 202; 197; 200; 203; 196] /\
       Float32.between 6 19950000 19950001 mean /\
       Float32.to_String 2 mean = "19.95" /\
       Float32.ltb Float32.zero mean = true).
Proof.
  intros Hwf Hi samples valid mean Hvalid.
  destruct (wf_slot w i Hwf Hi) as [c Hc].
  destruct (calibrateShelf_run w i c ltac:(lia) Hc) as (t & Hrun).
  cbv zeta in Hrun. fold samples in Hrun.
  change (kept samples) with (map Float32.tenth_of valid) in Hrun.
  fold mean in Hrun.
  destruct (Z.ltb_spec (Z.of_nat (length (map Float32.tenth_of valid))) 5) as [Hlt|_].
  { rewrite length_map in Hlt. lia. }
  eexists c, _. split; [exact Hc|]. split; [exact Hrun|].
  cbn [ranging_log shelfConfig preferences set_preferences set_shelfConfig
       set_millis set_ranging_log].
  split; [apply readings_length|]. split; [reflexivity|].
  split; [apply elem_at_insert_eq; eapply elem_at_lt; eauto|].
  split; [intros j Hj; apply elem_at_insert_ne; lia|].
  split; [unfold saved; cbn [id shelf_length set_shelf_length]; apply lookup_insert_eq|].
  intros Hs. subst mean valid. rewrite Hs. vm_compute.
  repeat split; reflexivity.
Qed.

(** The scenario of the specification, on the first slot. *)
Lemma calibrateShelf_mean_witness :
  wf scenario_world /\ 0 <= 0 < SHELF_COUNT /\
  (5 <= length (List.filter valid_sample (calibration_samples scenario_world 0)))%nat /\
  exists w', calibrateShelf 0 scenario_world
             = Some (S754_finite false 10459546 (-19), w').
Proof.
  assert (Hwf : wf scenario_world) by (split; reflexivity).
  assert (Hi : 0 <= 0 < SHELF_COUNT) by (unfold SHELF_COUNT; lia).
  assert (Hvalid :
    (5 <= length (List.filter valid_sample (calibration_samples scenario_world 0)))%nat)
    by (vm_compute; lia).
  split; [exact Hwf|]. split; [exact Hi|]. split; [exact Hvalid|].
  destruct (calibrateShelf_mean scenario_world 0 Hwf Hi Hvalid)
    as (c & w' & _ & Hrun & _).
  exists w'. rewrite Hrun. reflexivity.
Defined.

(** Against C1 as stated: on the samples of the scenario the value
    returned lies strictly between 19.94 and 19.96, so it is not a length
    with one decimal; rounding it to the nearest tenth gives another
    value, which prints as 20.0 and not as the 19.95 of the scenario. *)
Lemma calibrateShelf_keeps_two_decimals :
  exists r w',
    calibrateShelf 0 scenario_world = Some (r, w') /\
    Float32.between 2 1994 1996 r /\
    round_to_tenth r <> r /\
    Float32.to_String 2 r = "19.95" /\
    Float32.to_String 1 r = "20.0".
Proof.
  eexists _, _. split; [vm_compute; reflexivity|].
  split; [vm_compute; split; reflexivity|].
  split; [vm_compute; discriminate|].
  split; vm_compute; reflexivity.
Qed.

(** C2. For a slot of the table, when fewer than five of the ten
    samples lie within [20 mm, 4000 mm], [calibrateShelf] returns -1.0 and
    leaves the table of slots, hence the reference length, and the flash
    store as they were. *)
Theorem calibrateShelf_insufficient (w : World) (i : Z) :
  wf w ->
  0 <= i < SHELF_COUNT ->
  (length (List.filter valid_sample (calibration_samples w i)) < 5)%nat ->
  exists w',
    calibrateShelf i w = Some (Float32.minus_one, w') /\
    shelfConfig w' = shelfConfig w /\
    preferences w' = preferences w /\
    ranging_log w' = ranging_log w ++ map (pair i) (calibration_samples w i) /\
    length (calibration_samples w i) = 10%nat.
Proof.
  intros Hwf Hi Hfew.
  destruct (wf_slot w i Hwf Hi) as [c Hc].
  destruct (calibrateShelf_run w i c ltac:(lia) Hc) as (t & Hrun).
  cbv zeta in Hrun.
  destruct (Z.ltb_spec (Z.of_nat (length (kept (calibration_samples w i)))) 5) as [_|Hge].
  - eexists. split; [exact Hrun|].
    cbn [ranging_log shelfConfig preferences set_millis set_ranging_log].
    repeat split; try reflexivity; apply readings_length.
  - unfold kept in Hge. rewrite length_map in Hge. lia.
Qed.

(** A sensor that answers 0 ten times. *)
Lemma calibrateShelf_insufficient_witness :
  wf silent_world /\ 0 <= 0 < SHELF_COUNT /\
  (length (List.filter valid_sample (calibration_samples silent_world 0)) < 5)%nat /\
  exists w', calibrateShelf 0 silent_world = Some (Float32.minus_one, w') /\
             shelfConfig w' = shelfConfig silent_world /\
             preferences w' = preferences silent_world.
Proof.
  assert (Hwf : wf silent_world) by (split; reflexivity).
  assert (Hi : 0 <= 0 < SHELF_COUNT) by (unfold SHELF_COUNT; lia).
  assert (Hfew :
    (length (List.filter valid_sample (calibration_samples silent_world 0)) < 5)%nat)
    by (vm_compute; lia).
  split; [exact Hwf|]. split; [exact Hi|]. split; [exact Hfew|].
  destruct (calibrateShelf_insufficient silent_world 0 Hwf Hi Hfew)
    as (w' & Hrun & Htable & Hflash & _).
  exists w'. split; [exact Hrun|]. split; [exact Htable | exact Hflash].
Defined.

(** C10. For no index at all does an operation that takes a slot index
    read or write outside the arrays; and an index outside the table is
    answered without touching anything: [isShelfEnabled] says false,
    [getShelfId] says UNKNOWN, [setShelfEnabled], [saveShelfConfig] and
    [publishSensorData] do nothing, and [calibrateShelf] returns -1.0 with
    the whole state as it was, so without a sample taken. *)
Theorem index_guard (w : World) (i : Z) :
  wf w ->
  (is_Some (isShelfEnabled i w) /\
   is_Some (getShelfId i w) /\
   (forall v, is_Some (setShelfEnabled i v w)) /\
   is_Some (calibrateShelf i w) /\
   is_Some (saveShelfConfig i w) /\
   is_Some (publishSensorData i w)) /\
  (~ (0 <= i < SHELF_COUNT) ->
     isShelfEnabled i w = Some (false, w) /\
     getShelfId i w = Some ("UNKNOWN", w) /\
     (forall v, setShelfEnabled i v w = Some (tt, w)) /\
     calibrateShelf i w = Some (Float32.minus_one, w) /\
     saveShelfConfig i w = Some (tt, w) /\
     publishSensorData i w = Some (tt, w)).
Proof.
  intros Hwf.
  assert (Hout : ~ (0 <= i < SHELF_COUNT) ->
     isShelfEnabled i w = Some (false, w) /\
     getShelfId i w = Some ("UNKNOWN", w) /\
     (forall v, setShelfEnabled i v w = Some (tt, w)) /\
     calibrateShelf i w = Some (Float32.minus_one, w) /\
     saveShelfConfig i w = Some (tt, w) /\
     publishSensorData i w = Some (tt, w)).
  { intros Hi.
    unfold isShelfEnabled, getShelfId, setShelfEnabled, calibrateShelf,
      saveShelfConfig, publishSensorData.
    unfold bind, gets. rewrite guard_out by exact Hi.
    repeat split; try reflexivity.
    - intros v. destruct (Z.geb_spec i 0), (Z.ltb_spec i SHELF_COUNT);
        try reflexivity. lia.
    - destruct (mqtt_connected w); reflexivity. }
  split; [|exact Hout].
  destruct (decide (0 <= i < SHELF_COUNT)) as [Hi|Hi].
  - destruct (wf_slot w i Hwf Hi) as [c Hc].
    destruct (elem_at_is_Some (distance w) i) as [d Hd]; [destruct Hwf; lia|].
    unfold isShelfEnabled, getShelfId. rewrite guard_in by exact Hi.
    unfold bind. rewrite (shelfConfig_at_Some _ _ _ Hc).
    split; [eexists; reflexivity|]. split; [eexists; reflexivity|].
    split; [|split; [|split]].
    + intros v. rewrite (setShelfEnabled_Some _ _ c) by (lia || exact Hc).
      eexists; reflexivity.
    + destruct (calibrateShelf_run w i c ltac:(lia) Hc) as (t & Hrun).
      cbv zeta in Hrun. rewrite Hrun.
      destruct (_ <? 5); eexists; reflexivity.
    + rewrite (saveShelfConfig_Some _ _ c) by (lia || exact Hc).
      eexists; reflexivity.
    + destruct (mqtt_connected w) eqn:Hm.
      * destruct (enabled c) eqn:Hen.
        -- rewrite (publishSensorData_enabled w i c d) by (done || lia).
           eexists; reflexivity.
        -- rewrite (publishSensorData_disabled w i c) by done.
           eexists; reflexivity.
      * unfold publishSensorData. run. rewrite Hm. eexists; reflexivity.
  - destruct (Hout Hi) as (H1 & H2 & H3 & H4 & H5 & H6).
    rewrite H1, H2, H4, H5, H6. repeat split; try (eexists; reflexivity).
    intros v. rewrite H3. eexists; reflexivity.
Qed.

(** The guard at the indices 12 and -1 of the table of the sketch. *)
Lemma index_guard_witness :
  wf scenario_world /\ ~ (0 <= 12 < SHELF_COUNT) /\
  calibrateShelf 12 scenario_world = Some (Float32.minus_one, scenario_world) /\
  isShelfEnabled (-1) scenario_world = Some (false, scenario_world).
Proof.
  assert (Hwf : wf scenario_world) by (split; reflexivity).
  assert (Hout : ~ (0 <= 12 < SHELF_COUNT)) by (unfold SHELF_COUNT; lia).
  assert (Hneg : ~ (0 <= -1 < SHELF_COUNT)) by (unfold SHELF_COUNT; lia).
  split; [exact Hwf|]. split; [exact Hout|]. split.
  - destruct (index_guard scenario_world 12 Hwf) as (_ & Hguard).
    destruct (Hguard Hout) as (_ & _ & _ & Hcal & _). exact Hcal.
  - destruct (index_guard scenario_world (-1) Hwf) as (_ & Hguard).
    destruct (Hguard Hneg) as (Hen & _). exact Hen.
Defined.

End Shelf_manager_spec.

(* ===================================================================== *)
(** ** Slot store: write-through and reload (C5)                         *)
(* ===================================================================== *)

Module Slot_store_spec.
Import ArduinoString Firmware Shelf_facts Calibration_facts.

(** [loadShelfConfig] restores every slot from the flash store. *)
Lemma loadShelfConfig_run (w : World) :
  wf w ->
  loadShelfConfig w
  = Some (tt, set_shelfConfig (restore (preferences w) <$> shelfConfig w) w).
Proof.
  intros [Hlen _].
  set (p := preferences w). set (table := shelfConfig w).
  pose (Inv := fun (k : nat) (_ : unit) (s : World) =>
    s = set_shelfConfig ((restore p <$> take k table) ++ drop k table) w).
  destruct (for_acc_invariant Inv (Z.to_nat SHELF_COUNT) 0
              (fun i _ =>
                 let* c := shelfConfig_at i in
                 let key := id c in
                 let* p := gets preferences in
                 let savedEnabled := getBool key false p in
                 let lengthKey := key +:+ "_len" in
                 let savedLength := getFloat lengthKey Float32.zero p in
                 shelfConfig_update i (set_enabled savedEnabled) >>
                 shelfConfig_update i (set_shelf_length savedLength)) tt w)
    as ([] & s' & Hrun & Hs).
  - unfold Inv. rewrite take_0, drop_0. destruct w; reflexivity.
  - intros k [] s Hk ->. rewrite Z.add_0_l.
    assert (Hk' : (k < length table)%nat) by (unfold table; lia).
    destruct (lookup_lt_is_Some_2 table k Hk') as [c Hc].
    assert (Hat : forall x rest,
              elem_at ((restore p <$> take k table) ++ x :: rest) (Z.of_nat k) = Some x).
    { intros x rest. rewrite elem_at_of_nat, lookup_app_r;
        rewrite length_fmap, length_take_le by lia; [|lia].
      rewrite Nat.sub_diag. reflexivity. }
    assert (Hins : forall x y rest,
              <[Z.to_nat (Z.of_nat k) := y]> ((restore p <$> take k table) ++ x :: rest)
              = (restore p <$> take k table) ++ y :: rest).
    { intros x y rest. rewrite Nat2Z.id.
      replace k with (length (restore p <$> take k table) + 0)%nat at 1
        by (rewrite length_fmap, length_take_le by lia; lia).
      rewrite insert_app_r. reflexivity. }
    rewrite (drop_S _ _ _ Hc).
    unfold bind at 1.
    rewrite (shelfConfig_at_Some _ _ c) by (cbn [shelfConfig set_shelfConfig]; apply Hat).
    cbv zeta. unfold bind at 1, gets at 1. unfold bind at 1.
    rewrite (shelfConfig_update_Some _ _ c) by (cbn [shelfConfig set_shelfConfig]; apply Hat).
    cbn [shelfConfig set_shelfConfig preferences]. rewrite Hins.
    rewrite (shelfConfig_update_Some _ _ (set_enabled (getBool (id c) false p) c))
      by (cbn [shelfConfig set_shelfConfig]; apply Hat).
    cbn [shelfConfig set_shelfConfig]. rewrite Hins.
    eexists tt, _. split; [reflexivity|].
    unfold Inv. rewrite (take_S_r _ _ _ Hc), fmap_app, <- app_assoc.
    reflexivity.
  - transitivity (Some (tt, s')); [exact Hrun|].
    rewrite Hs, take_ge, drop_ge, app_nil_r by (unfold table; lia).
    reflexivity.
Qed.

(** C5. [setShelfEnabled] is write-through: on a slot of the table it
    sets the flag and at once stores the flag and the current reference
    length of the slot under its two keys, so that [loadShelfConfig],
    run on these globals or after a restart that kept the flash store and
    the name of the slot, gives the slot this flag and this length back. *)
Theorem setShelfEnabled_write_through (w : World) (i : Z) (v : bool) :
  wf w ->
  0 <= i < SHELF_COUNT ->
  exists c w1,
    elem_at (shelfConfig w) i = Some c /\
    setShelfEnabled i v w = Some (tt, w1) /\
    elem_at (shelfConfig w1) i = Some (set_enabled v c) /\
    preferences w1 !! id c = Some (PBool v) /\
    preferences w1 !! (id c +:+ "_len") = Some (PFloat (shelf_length c)) /\
    (exists w2, loadShelfConfig w1 = Some (tt, w2) /\
                elem_at (shelfConfig w2) i = Some (set_enabled v c)) /\
    (forall r c0,
       wf r ->
       preferences r = preferences w1 ->
       elem_at (shelfConfig r) i = Some c0 ->
       id c0 = id c ->
       exists r', loadShelfConfig r = Some (tt, r') /\
                  elem_at (shelfConfig r') i
                  = Some {| id := id c0; pin := pin c0; enabled := v;
                            shelf_length := shelf_length c |}).
Proof.
  intros Hwf Hi.
  destruct (wf_slot w i Hwf Hi) as [c Hc].
  pose proof (elem_at_lt _ _ _ Hc) as Hr.
  eexists c, _. split; [exact Hc|].
  split; [apply (setShelfEnabled_Some w i c v); [lia | exact Hc]|].
  cbn [shelfConfig preferences set_preferences set_shelfConfig].
  assert (Hb : saved (set_enabled v c) (preferences w) !! id c = Some (PBool v)).
  { unfold saved. cbn [id enabled shelf_length set_enabled].
    rewrite lookup_insert_ne by apply length_key_ne. apply lookup_insert_eq. }
  assert (Hf : saved (set_enabled v c) (preferences w) !! (id c +:+ "_len")
               = Some (PFloat (shelf_length c))).
  { unfold saved. cbn [id enabled shelf_length set_enabled]. apply lookup_insert_eq. }
  assert (Hreload : forall r c0,
       wf r ->
       preferences r = saved (set_enabled v c) (preferences w) ->
       elem_at (shelfConfig r) i = Some c0 ->
       id c0 = id c ->
       exists r', loadShelfConfig r = Some (tt, r') /\
                  elem_at (shelfConfig r') i
                  = Some {| id := id c0; pin := pin c0; enabled := v;
                            shelf_length := shelf_length c |}).
  { intros r c0 Hwr Hp Hc0 Hid.
    eexists. split; [apply loadShelfConfig_run; exact Hwr|].
    cbn [shelfConfig set_shelfConfig].
    apply elem_at_Some. apply elem_at_Some in Hc0 as [H0 Hc0].
    split; [exact H0|].
    rewrite list_lookup_fmap, Hc0. cbn [fmap option_fmap option_map]. f_equal.
    unfold restore, getBool, getFloat. rewrite Hp.
    destruct c0 as [name gpio en len]. cbn [id] in Hid |- *. subst name.
    rewrite Hb, Hf. reflexivity. }
  split; [apply elem_at_insert_eq; exact Hr|].
  split; [exact Hb|]. split; [exact Hf|]. split; [|exact Hreload].
  match goal with
  | |- exists w2, loadShelfConfig ?w1 = _ /\ _ =>
      destruct (Hreload w1 (set_enabled v c)) as (r' & Hl & Hr')
  end.
  - destruct Hwf as [H1 H2]. split; cbn [shelfConfig distance set_preferences set_shelfConfig].
    + rewrite length_insert. exact H1.
    + exact H2.
  - reflexivity.
  - cbn [shelfConfig set_preferences set_shelfConfig]. apply elem_at_insert_eq. exact Hr.
  - reflexivity.
  - exists r'. split; [exact Hl|]. rewrite Hr'. destruct c; reflexivity.
Qed.

(** Enabling the first slot of the sketch, then reloading. *)
Lemma setShelfEnabled_write_through_witness :
  wf scenario_world /\ 0 <= 0 < SHELF_COUNT /\
  exists w1 w2, setShelfEnabled 0 true scenario_world = Some (tt, w1) /\
                loadShelfConfig w1 = Some (tt, w2) /\
                elem_at (shelfConfig w2) 0 = Some (set_enabled true (slot "A1" 4)).
Proof.
  assert (Hwf : wf scenario_world) by (split; reflexivity).
  assert (Hi : 0 <= 0 < SHELF_COUNT) by (unfold SHELF_COUNT; lia).
  split; [exact Hwf|]. split; [exact Hi|].
  destruct (setShelfEnabled_write_through scenario_world 0 true Hwf Hi)
    as (c & w1 & Hc & Hset & _ & _ & _ & (w2 & Hload & Hslot) & _).
  exists w1, w2. split; [exact Hset|]. split; [exact Hload|].
  rewrite Hslot. f_equal. f_equal.
  assert (E : Some c = Some (slot "A1" 4)) by (rewrite <- Hc; reflexivity).
  injection E as ->. reflexivity.
Defined.

End Slot_store_spec.

(* ===================================================================== *)
(** ** Broker link: resolution of the broker address (C4)                *)
(* ===================================================================== *)

Module Broker_link_spec.
Import ArduinoString Firmware.

Lemma nonzero_address (ip : IPAddress) :
  negb (ip0 ip =? 0) || negb (ip1 ip =? 0) || negb (ip2 ip =? 0) || negb (ip3 ip =? 0)
  = true <-> ip <> no_address.
Proof.
  destruct ip as [a b c d]. cbn [ip0 ip1 ip2 ip3]. unfold no_address.
  destruct (Z.eqb_spec a 0), (Z.eqb_spec b 0), (Z.eqb_spec c 0), (Z.eqb_spec d 0);
    cbn; split; intros H; try reflexivity; try discriminate; try congruence.
Qed.

(** C4. Given a well-formed static address, [resolveMQTTServer] always
    answers true with the resolved flag set; the address it keeps is the
    one of the name service only when the lookup succeeded with an
    address other than 0.0.0.0, and the static address otherwise; the
    rest of the state is left alone. *)
Theorem resolveMQTTServer_policy (w : World) (static : IPAddress) :
  parses_to (mqtt_server_ip w) static ->
  exists w',
    resolveMQTTServer w = Some (true, w') /\
    mqtt_ip_resolved w' = true /\
    (forall ip, hostByName w (mqtt_hostname w) = (true, ip) -> ip <> no_address ->
                mqtt_server_resolved_ip w' = ip) /\
    (forall ip, hostByName w (mqtt_hostname w) = (true, ip) -> ip = no_address ->
                mqtt_server_resolved_ip w' = static) /\
    (forall ip, hostByName w (mqtt_hostname w) = (false, ip) ->
                mqtt_server_resolved_ip w' = static) /\
    w' = set_mqtt_ip_resolved true
           (set_mqtt_server_resolved_ip (mqtt_server_resolved_ip w') w).
Proof.
  intros Hstatic. unfold resolveMQTTServer. run.
  destruct (hostByName w (mqtt_hostname w)) as [found ip] eqn:Hdns.
  destruct found; cbn [andb].
  - destruct (negb (ip0 ip =? 0) || negb (ip1 ip =? 0) || negb (ip2 ip =? 0)
              || negb (ip3 ip =? 0)) eqn:Hnz.
    + apply nonzero_address in Hnz.
      eexists. split; [reflexivity|].
      cbn [mqtt_ip_resolved mqtt_server_resolved_ip set_mqtt_ip_resolved
           set_mqtt_server_resolved_ip].
      repeat split; try reflexivity; intros ip' Hip'; try congruence.
    + rewrite Hstatic.
      eexists. split; [reflexivity|].
      cbn [mqtt_ip_resolved mqtt_server_resolved_ip set_mqtt_ip_resolved
           set_mqtt_server_resolved_ip].
      repeat split; try reflexivity; intros ip' Hip'; try congruence.
      intros Hne. apply nonzero_address in Hne. congruence.
  - rewrite Hstatic.
    eexists. split; [reflexivity|].
    cbn [mqtt_ip_resolved mqtt_server_resolved_ip set_mqtt_ip_resolved
         set_mqtt_server_resolved_ip].
    repeat split; try reflexivity; intros ip' Hip'; try congruence.
Qed.

(** The static address of the sketch, without a name service. *)
Lemma resolveMQTTServer_policy_witness :
  parses_to (mqtt_server_ip scenario_world)
    {| ip0 := 192; ip1 := 168; ip2 := 0; ip3 := 109 |} /\
  exists w', resolveMQTTServer scenario_world = Some (true, w') /\
             mqtt_ip_resolved w' = true.
Proof.
  assert (Hstatic : parses_to (mqtt_server_ip scenario_world)
                      {| ip0 := 192; ip1 := 168; ip2 := 0; ip3 := 109 |})
    by (intros a; reflexivity).
  split; [exact Hstatic|].
  destruct (resolveMQTTServer_policy scenario_world _ Hstatic)
    as (w' & Hrun & Hflag & _).
  exists w'. split; [exact Hrun | exact Hflag].
Defined.

End Broker_link_spec.

(* ===================================================================== *)
(** ** Disabled slots and the sensor publications (C6)                   *)
(* ===================================================================== *)

Module Scan_loop_spec.
Import ArduinoString Firmware Shelf_facts Scan_facts.

(** C6 (as amended). After every scan ([readAllShelfSensors], and the
    scan cycle of the main loop) each disabled slot holds the sentinel -1;
    [publishSensorData] sends nothing for a disabled slot, and every
    message sent by [publishAllSensorData] or by a scan cycle is the
    sensor message of a slot that is enabled. *)
Theorem disabled_slot_after_scan (w : World) :
  wf w ->
  (exists w',
     readAllShelfSensors w = Some (tt, w') /\
     shelfConfig w' = shelfConfig w /\
     forall i c, elem_at (shelfConfig w') i = Some c -> enabled c = false ->
                 elem_at (distance w') i = Some (-1)) /\
  (forall i c, elem_at (shelfConfig w) i = Some c -> enabled c = false ->
               publishSensorData i w = Some (tt, w)) /\
  (exists w' sent,
     publishAllSensorData w = Some (tt, w') /\
     outbox w' = outbox w ++ sent /\
     forall p, p ∈ sent ->
       exists i c d, elem_at (shelfConfig w) i = Some c /\ enabled c = true /\
                     p = sensor_publication w i c d) /\
  (exists w' sent,
     scan_cycle w = Some (tt, w') /\
     shelfConfig w' = shelfConfig w /\
     (forall i c, elem_at (shelfConfig w') i = Some c -> enabled c = false ->
                  elem_at (distance w') i = Some (-1)) /\
     outbox w' = outbox w ++ sent /\
     forall p, p ∈ sent ->
       exists i c d, elem_at (shelfConfig w') i = Some c /\ enabled c = true /\
                     elem_at (distance w') i = Some d /\
                     p = sensor_publication w i c d).
Proof.
  intros Hwf.
  destruct (readAllShelfSensors_run w Hwf)
    as (w1 & Hread & Hc1 & Hp1 & Ho1 & Hm1 & Hd1 & Hwf1 & Hsent1).
  destruct (publishAllSensorData_run w Hwf)
    as (w2 & sent & Hpub & Ho2 & Hc2 & Hd2 & Hp2 & Hoff & Hsent2).
  split; [|split; [|split]].
  - exists w1. split; [exact Hread|]. split; [exact Hc1|].
    intros i c Hc. apply Hsent1. rewrite <- Hc1. exact Hc.
  - intros i c. apply publishSensorData_disabled.
  - exists w2, sent. split; [exact Hpub|]. split; [exact Ho2|].
    intros p Hp. destruct (Hsent2 p Hp) as (i & c & d & H1 & H2 & H3 & H4).
    exists i, c, d. done.
  - destruct (publishAllSensorData_run w1 Hwf1)
      as (w3 & sent3 & Hpub3 & Ho3 & Hc3 & Hd3 & Hp3 & Hoff3 & Hsent3).
    unfold scan_cycle, isMQTTConnected. unfold bind at 1. rewrite Hread.
    unfold bind at 1, gets at 1.
    destruct (mqtt_connected w1) eqn:Hm.
    + exists w3, sent3. split; [exact Hpub3|].
      split; [congruence|].
      split.
      { intros i c Hc Hen. rewrite Hd3. apply (Hsent1 i c); [|exact Hen]. congruence. }
      split; [congruence|].
      intros p Hp. destruct (Hsent3 p Hp) as (i & c & d & H1 & H2 & H3 & H4).
      exists i, c, d. repeat split; try congruence.
      rewrite H4. unfold sensor_publication. rewrite Hd1. reflexivity.
    + exists w1, []. split; [reflexivity|]. split; [exact Hc1|].
      split.
      { intros i c Hc. apply Hsent1. rewrite <- Hc1. exact Hc. }
      split; [rewrite app_nil_r; exact Ho1|].
      intros p Hp. inversion Hp.
Qed.

(** A scan of the sketch at boot, where every slot is disabled. *)
Lemma disabled_slot_after_scan_witness :
  wf scenario_world /\
  exists w', readAllShelfSensors scenario_world = Some (tt, w') /\
             elem_at (distance w') 0 = Some (-1).
Proof.
  assert (Hwf : wf scenario_world) by (split; reflexivity).
  split; [exact Hwf|].
  destruct (disabled_slot_after_scan scenario_world Hwf)
    as ((w' & Hread & Htable & Hsentinel) & _).
  exists w'. split; [exact Hread|].
  apply (Hsentinel 0 (slot "A1" 4)); [rewrite Htable|]; reflexivity.
Defined.

(** Against C6 as stated: a slot that was enabled, scanned and then
    disabled keeps its last sample (198 mm here) while it is disabled,
    until the next scan; and at boot every slot is disabled with the
    sample 0. *)
Lemma disabled_slot_sample_not_sentinel :
  (exists w c, reachable w /\
     elem_at (shelfConfig w) 0 = Some c /\ enabled c = false /\
     elem_at (distance w) 0 = Some 198) /\
  (exists c, reachable scenario_world /\
     elem_at (shelfConfig scenario_world) 0 = Some c /\ enabled c = false /\
     elem_at (distance scenario_world) 0 = Some 0).
Proof.
  split.
  - destruct (handleMQTTCommand "enable A1" scenario_world) as [[[] w1]|] eqn:H1;
      [|vm_compute in H1; discriminate].
    destruct (scan_cycle w1) as [[[] w2]|] eqn:H2.
    2:{ vm_compute in H1. injection H1 as <-. vm_compute in H2. discriminate. }
    destruct (handleMQTTCommand "disable A1" w2) as [[[] w3]|] eqn:H3.
    2:{ vm_compute in H1. injection H1 as <-. vm_compute in H2. injection H2 as <-.
        vm_compute in H3. discriminate. }
    exists w3, (slot "A1" 4).
    split.
    + assert (R0 : reachable scenario_world) by apply reachable_boot.
      assert (R1 : reachable w1).
      { apply (reachable_step scenario_world w1 R0), (step_command "enable A1").
        unfold exec. rewrite H1. reflexivity. }
      assert (R2 : reachable w2).
      { apply (reachable_step w1 w2 R1), step_scan.
        unfold exec. rewrite H2. reflexivity. }
      apply (reachable_step w2 w3 R2), (step_command "disable A1").
      unfold exec. rewrite H3. reflexivity.
    + vm_compute in H1. injection H1 as <-. vm_compute in H2. injection H2 as <-.
      vm_compute in H3. injection H3 as <-. vm_compute. repeat split; reflexivity.
  - exists (slot "A1" 4). split; [apply reachable_boot|].
    vm_compute. repeat split; reflexivity.
Qed.

End Scan_loop_spec.

(* ===================================================================== *)
(** ** Floating point: the loop of [dtostrf] that counts the digits      *)
(* ===================================================================== *)

Module Float_facts.
Import Float64.

(** The powers of ten as the loop computes them. *)
Lemma count_digits_from (number : float) (m : nat) :
  is_finite number = true ->
  forall (k fuel digitcount : nat),
    (k + m = 308)%nat -> (m < fuel)%nat ->
    count_digits fuel number (Nat.iter k (fun t => mul t (of_Z 10)) (of_Z 1)) digitcount
    = count_digits (S m) number (Nat.iter k (fun t => mul t (of_Z 10)) (of_Z 1))
        digitcount.
Proof.
  intros Hfin. induction m as [|m IH]; intros k fuel digitcount Hk Hfuel.
  - assert (k = 308%nat) by lia. subst k.
    remember (Nat.iter 308 (fun t => mul t (of_Z 10)) (of_Z 1)) as top eqn:Etop.
    assert (Htop : mul (of_Z 10) top = S754_infinity false)
      by (rewrite Etop; vm_compute; reflexivity).
    clear Etop.
    destruct fuel as [|fuel]; [lia|]. cbn [count_digits]. rewrite Htop.
    destruct number; try discriminate; reflexivity.
  - destruct fuel as [|fuel]; [lia|].
    cbn [count_digits].
    destruct (SFleb _ number); [|reflexivity].
    change (mul (Nat.iter k (fun t => mul t (of_Z 10)) (of_Z 1)) (of_Z 10))
      with (Nat.iter (S k) (fun t => mul t (of_Z 10)) (of_Z 1)).
    apply (IH (S k) fuel (S digitcount)); lia.
Qed.

(** The loop ends by itself: more rounds than the 400 allowed change
    nothing for a finite number. *)
Lemma count_digits_fuel (number : float) (fuel : nat) :
  is_finite number = true -> (400 <= fuel)%nat ->
  count_digits fuel number (of_Z 1) 1 = count_digits 400 number (of_Z 1) 1.
Proof.
  intros Hfin Hfuel.
  pose proof (count_digits_from number 308 Hfin 0 fuel 1 eq_refl ltac:(lia)) as H1.
  pose proof (count_digits_from number 308 Hfin 0 400 1 eq_refl ltac:(lia)) as H2.
  change (Nat.iter 0 (fun t => mul t (of_Z 10)) (of_Z 1)) with (of_Z 1) in H1, H2.
  rewrite H1, H2. reflexivity.
Qed.

End Float_facts.

(* ===================================================================== *)
(** ** Strings: NUL bytes, white space and case                          *)
(* ===================================================================== *)

Module String_facts.
Import ArduinoString.

Lemma append_assoc (a b c : string) : (a +:+ b) +:+ c = a +:+ (b +:+ c).
Proof. induction a as [|x a IH]; [reflexivity | exact (f_equal (String x) IH)]. Qed.

Lemma append_empty_r (a : string) : a +:+ "" = a.
Proof. induction a as [|x a IH]; [reflexivity | exact (f_equal (String x) IH)]. Qed.

Lemma append_cons (c : ascii) (a b : string) : String c a +:+ b = String c (a +:+ b).
Proof. reflexivity. Qed.

Lemma all_chars_app (p : ascii -> bool) (a b : string) :
  all_chars p (a +:+ b) = all_chars p a && all_chars p b.
Proof.
  induction a as [|x a IH]; [reflexivity|].
  rewrite append_cons. cbn [all_chars]. rewrite IH, andb_assoc. reflexivity.
Qed.

Lemma all_chars_impl (p r : ascii -> bool) (s : string) :
  (forall c, p c = true -> r c = true) -> all_chars p s = true -> all_chars r s = true.
Proof.
  intros Hpr. induction s as [|x s IH]; [reflexivity|]. cbn [all_chars].
  rewrite !andb_true_iff. intros [Hx Hs]. split; [apply Hpr; exact Hx | apply IH; exact Hs].
Qed.

Lemma solid_nul_free (s : string) : solid s = true -> nul_free s = true.
Proof.
  apply all_chars_impl. intros c H. apply andb_true_iff in H as [_ H]. exact H.
Qed.

(** A C string is read whole. *)
Lemma c_str_nul_free (s : string) : nul_free s = true -> c_str s = s.
Proof.
  induction s as [|x s IH]; [reflexivity|]. cbn [nul_free all_chars c_str].
  rewrite andb_true_iff. intros [Hx Hs].
  destruct (code x =? 0); [discriminate|]. f_equal. apply IH. exact Hs.
Qed.

Lemma c_str_is_nul_free (s : string) : nul_free (c_str s) = true.
Proof.
  induction s as [|x s IH]; [reflexivity|]. cbn [c_str].
  destruct (code x =? 0) eqn:E; [reflexivity|].
  cbn [nul_free all_chars]. rewrite E. exact IH.
Qed.

(** What follows a NUL is not read. *)
Lemma c_str_app_NUL (a b : string) :
  nul_free a = true -> c_str (a +:+ NUL +:+ b) = a.
Proof.
  induction a as [|x a IH]; [reflexivity|]. cbn [nul_free all_chars].
  rewrite andb_true_iff. intros [Hx Ha]. rewrite append_cons. cbn [c_str].
  destruct (code x =? 0); [discriminate|]. f_equal. apply IH. exact Ha.
Qed.

(** The case conversions on a text without NUL. *)
Lemma map_chars_app (f : ascii -> ascii) (a b : string) :
  nul_free a = true -> map_chars f (a +:+ b) = map_chars f a +:+ map_chars f b.
Proof.
  induction a as [|x a IH]; [reflexivity|]. cbn [nul_free all_chars].
  rewrite andb_true_iff. intros [Hx Ha]. rewrite append_cons. cbn [map_chars].
  destruct (code x =? 0); [discriminate|]. rewrite append_cons. f_equal. apply IH. exact Ha.
Qed.

Lemma map_chars_length (f : ascii -> ascii) (s : string) :
  String.length (map_chars f s) = String.length s.
Proof.
  induction s as [|x s IH]; [reflexivity|]. cbn [map_chars].
  destruct (code x =? 0); [reflexivity|]. cbn [String.length]. rewrite IH. reflexivity.
Qed.

Lemma tolower_class (c : ascii) :
  isspace (tolower c) = isspace c /\ (code (tolower c) =? 0) = (code c =? 0).
Proof. destruct c as [[] [] [] [] [] [] [] []]; split; reflexivity. Qed.

Lemma toupper_class (c : ascii) :
  isspace (toupper c) = isspace c /\ (code (toupper c) =? 0) = (code c =? 0).
Proof. destruct c as [[] [] [] [] [] [] [] []]; split; reflexivity. Qed.

(** A text that is solid in lower case was solid before. *)
Lemma toLowerCase_solid (s : string) :
  solid (toLowerCase s) = true -> solid s = true.
Proof.
  unfold toLowerCase. induction s as [|x s IH]; [reflexivity|]. cbn [map_chars].
  destruct (code x =? 0) eqn:E.
  - cbn [solid all_chars]. rewrite E, andb_false_r. discriminate.
  - cbn [solid all_chars]. destruct (tolower_class x) as [-> ->].
    rewrite !andb_true_iff. intros [Hx Hs]. split; [exact Hx | apply IH; exact Hs].
Qed.

Lemma toUpperCase_nul_free (s : string) :
  nul_free s = true -> nul_free (toUpperCase s) = true.
Proof.
  unfold toUpperCase. induction s as [|x s IH]; [reflexivity|].
  cbn [nul_free all_chars]. rewrite andb_true_iff. intros [Hx Hs].
  cbn [map_chars]. destruct (code x =? 0) eqn:E; [discriminate|].
  cbn [nul_free all_chars]. destruct (toupper_class x) as [_ ->]. rewrite E.
  apply IH. exact Hs.
Qed.

(** The lookup text of an argument is its upper case, up to the NUL. *)
Lemma c_str_toUpperCase (s : string) :
  c_str (toUpperCase s) = toUpperCase (c_str s).
Proof.
  unfold toUpperCase. induction s as [|x s IH]; [reflexivity|].
  cbn [map_chars c_str]. destruct (code x =? 0) eqn:E.
  - cbn [c_str]. rewrite E. reflexivity.
  - cbn [c_str map_chars]. destruct (toupper_class x) as [_ ->]. rewrite E.
    f_equal. exact IH.
Qed.

(** Trimming. *)
Lemma ltrim_blank_app (a s : string) : blank a = true -> ltrim (a +:+ s) = ltrim s.
Proof.
  induction a as [|x a IH]; [reflexivity|]. cbn [blank all_chars].
  rewrite andb_true_iff. intros [Hx Ha]. rewrite append_cons. cbn [ltrim].
  rewrite Hx. apply IH. exact Ha.
Qed.

Lemma ltrim_solid (s : string) : solid s = true -> ltrim s = s.
Proof.
  destruct s as [|x s]; [reflexivity|]. cbn [solid all_chars ltrim].
  rewrite !andb_true_iff. intros [[Hx _] _].
  destruct (isspace x); [discriminate | reflexivity].
Qed.

Lemma ltrim_solid_app (a s : string) :
  solid a = true -> a <> "" -> ltrim (a +:+ s) = a +:+ s.
Proof.
  destruct a as [|x a]; [done|]. intros H _. rewrite append_cons. cbn [ltrim].
  cbn [solid all_chars] in H. rewrite !andb_true_iff in H. destruct H as [[Hx _] _].
  destruct (isspace x); [discriminate | reflexivity].
Qed.

Lemma rtrim_blank (b : string) : blank b = true -> rtrim b = "".
Proof.
  induction b as [|x b IH]; [reflexivity|]. cbn [blank all_chars].
  rewrite andb_true_iff. intros [Hx Hb]. cbn [rtrim]. rewrite (IH Hb), Hx. reflexivity.
Qed.

Lemma rtrim_solid (s : string) : solid s = true -> rtrim s = s.
Proof.
  induction s as [|x s IH]; [reflexivity|]. cbn [solid all_chars].
  rewrite !andb_true_iff. intros [[Hx _] Hs]. cbn [rtrim]. rewrite (IH Hs).
  destruct s; [|reflexivity]. destruct (isspace x); [discriminate | reflexivity].
Qed.

Lemma rtrim_app (a s : string) :
  rtrim s <> "" -> rtrim (a +:+ s) = a +:+ rtrim s.
Proof.
  intros Hs. induction a as [|x a IH]; [reflexivity|].
  rewrite !append_cons. cbn [rtrim]. rewrite IH.
  destruct (a +:+ rtrim s) eqn:E; [|reflexivity].
  destruct a; [|discriminate]. cbn in E. contradiction.
Qed.

Lemma rtrim_solid_blank (s b : string) :
  solid s = true -> s <> "" -> blank b = true -> rtrim (s +:+ b) = s.
Proof.
  intros Hs Hne Hb. induction s as [|x s IH]; [done|].
  rewrite append_cons. cbn [rtrim].
  cbn [solid all_chars] in Hs. rewrite !andb_true_iff in Hs. destruct Hs as [[Hx _] Hs].
  destruct s as [|y s].
  - change ("" +:+ b) with b. rewrite (rtrim_blank b Hb).
    destruct (isspace x); [discriminate | reflexivity].
  - rewrite (IH Hs ltac:(discriminate)). reflexivity.
Qed.

(** A text between white space is what [trim] leaves, when it begins
    and ends with a solid part. *)
Lemma trim_padded (pre a m z post : string) :
  blank pre = true -> blank post = true ->
  solid a = true -> a <> "" -> solid z = true -> z <> "" ->
  trim (pre +:+ (a +:+ m +:+ z) +:+ post) = a +:+ m +:+ z.
Proof.
  intros Hpre Hpost Ha Hane Hz Hzne. unfold trim.
  rewrite ltrim_blank_app by exact Hpre.
  rewrite append_assoc, ltrim_solid_app by assumption.
  rewrite !append_assoc.
  assert (Hend : rtrim (z +:+ post) = z) by (apply rtrim_solid_blank; assumption).
  rewrite (rtrim_app a), (rtrim_app m), Hend; try reflexivity.
  - rewrite Hend. exact Hzne.
  - rewrite (rtrim_app m), Hend by (rewrite Hend; exact Hzne).
    destruct m; [exact Hzne | discriminate].
Qed.

Lemma trim_blank_solid (m z : string) :
  blank m = true -> solid z = true -> trim (m +:+ z) = z.
Proof.
  intros Hm Hz. unfold trim. rewrite ltrim_blank_app by exact Hm.
  rewrite ltrim_solid by exact Hz. apply rtrim_solid. exact Hz.
Qed.

Lemma substring_from_app (a b : string) :
  substring_from (String.length a) (a +:+ b) = b.
Proof.
  induction a as [|x a IH]; [destruct b; reflexivity|]. exact IH.
Qed.

Lemma prefix_app (a b : string) : String.prefix a (a +:+ b) = true.
Proof.
  induction a as [|x a IH]; [destruct b; reflexivity|].
  rewrite append_cons. cbn [String.prefix].
  destruct (ascii_dec x x); [exact IH | contradiction].
Qed.

End String_facts.

(* ===================================================================== *)
(** ** Command router: lookup of a slot, the verbs                       *)
(* ===================================================================== *)

Module Router_facts.
Import ArduinoString Firmware String_facts Shelf_facts Calibration_facts.

Lemma enabled_count_snoc (l : list ShelfConfig) (c : ShelfConfig) :
  enabled_count (l ++ [c]) = if enabled c then enabled_count l + 1 else enabled_count l.
Proof.
  unfold enabled_count. rewrite filter_app, length_app.
  destruct (enabled c) eqn:E.
  - rewrite filter_singleton_True by (exact [] || exact E). simpl. lia.
  - rewrite filter_singleton_False by (exact [] || congruence). simpl. lia.
Qed.

Lemma getEnabledShelfCount_run (w : World) :
  wf w -> getEnabledShelfCount w = Some (enabled_count (shelfConfig w), w).
Proof.
  intros [Hc _]. unfold SHELF_COUNT in Hc.
  pose (Inv := fun (k : nat) (count : Z) (s : World) =>
    s = w /\ count = enabled_count (take k (shelfConfig w))).
  destruct (for_acc_invariant Inv (Z.to_nat SHELF_COUNT) 0
              (fun i count =>
                 let* c := shelfConfig_at i in
                 ret (if enabled c then count + 1 else count)) 0 w)
    as (n & w' & Hrun & -> & ->).
  - split; reflexivity.
  - intros k count s Hk [-> ->]. rewrite Z.add_0_l.
    change (Z.to_nat SHELF_COUNT) with 12%nat in Hk.
    destruct (lookup_lt_is_Some_2 (shelfConfig w) k) as [c Hck]; [lia|].
    unfold bind.
    rewrite (shelfConfig_at_Some w _ c) by (rewrite elem_at_of_nat; exact Hck).
    eexists _, w. split; [reflexivity|]. split; [reflexivity|].
    rewrite (take_S_r _ _ _ Hck), enabled_count_snoc. reflexivity.
  - unfold getEnabledShelfCount. rewrite Hrun.
    rewrite take_ge by (change (Z.to_nat SHELF_COUNT) with 12%nat; lia).
    reflexivity.
Qed.

(** The status message of [w]. *)
Lemma publishSystemStatus_run (w : World) :
  wf w ->
  exists json,
    publishSystemStatus w
    = Some (tt, if mqtt_connected w
                then set_outbox (outbox w ++ [ {| topic := mqtt_topic_status;
                                                 payload := json;
                                                 retained := false |} ]) w
                else w).
Proof.
  intros Hwf. unfold publishSystemStatus. unfold bind at 1, gets at 1.
  destruct (mqtt_connected w) eqn:Hm; cbn [negb].
  - unfold bind at 1, gets at 1. unfold bind at 1.
    rewrite getEnabledShelfCount_run by exact Hwf.
    unfold mqttClient_publish, modify. rewrite Hm. eexists. reflexivity.
  - exists "". reflexivity.
Qed.

(** The search loop of [getShelfIndexById]. *)
Lemma find_loop (w : World) (name : string) :
  forall (rest : list ShelfConfig) (k : nat),
    (forall j, (j < length rest)%nat -> shelfConfig w !! (k + j)%nat = rest !! j) ->
    for_return (length rest) (Z.of_nat k)
      (fun i => let* c := shelfConfig_at i in
                ret (if equals (id c) name then Some i else None)) w
    = Some (match list_find (fun c => id c = name) rest with
            | Some (j, _) => Some (Z.of_nat (k + j))
            | None => None
            end, w).
Proof.
  induction rest as [|c rest IH]; intros k Hrest; [reflexivity|].
  cbn [length for_return list_find]. unfold bind at 1.
  unfold bind at 1.
  rewrite (shelfConfig_at_Some w _ c).
  2:{ rewrite elem_at_of_nat. rewrite <- (Nat.add_0_r k).
      rewrite Hrest by (simpl; lia). reflexivity. }
  unfold ret at 1. unfold equals.
  destruct (decide (id c = name)) as [E|E].
  - rewrite bool_decide_eq_true_2 by exact E.
    rewrite Nat.add_0_r. reflexivity.
  - rewrite bool_decide_eq_false_2 by exact E.
    replace (Z.of_nat k + 1) with (Z.of_nat (S k)) by lia.
    rewrite IH.
    + destruct (list_find (λ c0 : ShelfConfig, id c0 = name) rest) as [[j x]|];
        cbn; [|reflexivity].
      do 3 f_equal. lia.
    + intros j Hj. change (rest !! j) with ((c :: rest) !! S j).
      rewrite <- (Hrest (S j)) by (simpl; lia). f_equal. lia.
Qed.

Lemma getShelfIndexById_run (w : World) (name : string) :
  wf w -> getShelfIndexById name w = Some (position_of name (shelfConfig w), w).
Proof.
  intros [Hc _]. unfold SHELF_COUNT in Hc.
  unfold getShelfIndexById, position_of.
  pose proof (find_loop w name (shelfConfig w) 0 (fun j _ => eq_refl)) as H.
  replace (length (shelfConfig w)) with (Z.to_nat SHELF_COUNT) in H
    by (change (Z.to_nat SHELF_COUNT) with 12%nat; lia).
  change (Z.of_nat 0) with 0 in H.
  unfold bind at 1. rewrite H.
  destruct (list_find _ _) as [[j x]|]; reflexivity.
Qed.

Lemma position_of_found (name : string) (table : list ShelfConfig) (i : Z) :
  position_of name table = i -> 0 <= i ->
  exists c, elem_at table i = Some c /\ id c = name.
Proof.
  unfold position_of. intros H Hi.
  destruct (list_find _ _) as [[j c]|] eqn:Hf; [|lia].
  apply list_find_Some in Hf as (Hj & Hid & _).
  exists c. subst i. rewrite elem_at_of_nat. done.
Qed.

Lemma position_of_range (name : string) (table : list ShelfConfig) :
  -1 <= position_of name table < Z.of_nat (length table).
Proof.
  unfold position_of.
  destruct (list_find _ _) as [[j c]|] eqn:Hf; [|lia].
  apply list_find_Some in Hf as (Hj & _). apply lookup_lt_Some in Hj. lia.
Qed.

Lemma position_of_missing (name : string) (table : list ShelfConfig) :
  position_of name table = -1 <-> Forall (fun c => id c <> name) table.
Proof.
  unfold position_of. split.
  - intros H. apply (list_find_None (fun c => id c = name)).
    destruct (list_find _ _) as [[j c]|]; [lia | reflexivity].
  - intros H. apply (list_find_None (fun c => id c = name)) in H.
    rewrite H. reflexivity.
Qed.

(** A prefix fixes the first character. *)
Lemma startsWith_cons (s : string) (a : ascii) (p : string) :
  startsWith s (String a p) = true ->
  exists s', s = String a s' /\ startsWith s' p = true.
Proof.
  unfold startsWith. destruct s as [|b s]; simpl; [discriminate|].
  destruct (ascii_dec a b) as [->|]; [|discriminate].
  intros H. exists s. done.
Qed.

(** The verbs exclude each other. *)
Lemma verb_enable (s : string) :
  startsWith s "enable " = true ->
  equals (c_str s) "status" = false /\ equals (c_str s) "read" = false.
Proof.
  intros H.
  repeat (apply startsWith_cons in H; destruct H as (? & -> & H)).
  unfold equals.
  split; apply bool_decide_eq_false_2; intros E; cbn in E; discriminate.
Qed.

Lemma verb_disable (s : string) :
  startsWith s "disable " = true ->
  equals (c_str s) "status" = false /\ equals (c_str s) "read" = false /\
  startsWith s "enable " = false.
Proof.
  intros H.
  repeat (apply startsWith_cons in H; destruct H as (? & -> & H)).
  unfold equals.
  repeat split; try (apply bool_decide_eq_false_2; intros E; cbn in E; discriminate).
Qed.


(** A command spelled as the protocol writes it passes the test of its
    verb, and the text that is looked up is its argument in upper
    case. *)
Lemma spelled_argument (verb arg cmd : string) :
  spelled verb arg cmd ->
  solid verb = true -> verb <> "" ->
  startsWith (toLowerCase (trim cmd)) (verb +:+ " ") = true /\
  c_str (toUpperCase (trim (substring_from (S (String.length verb)) (trim cmd))))
  = toUpperCase arg.
Proof.
  intros (pre & v & mid & post & -> & Hpre & Hmid & Hpost & Hv & Harg & Hne) Hverb Hvne.
  assert (Hvs : solid v = true) by (apply toLowerCase_solid; rewrite Hv; exact Hverb).
  assert (Hv0 : v <> "") by (intros ->; apply Hvne; rewrite <- Hv; reflexivity).
  assert (Hlen : String.length verb = String.length v)
    by (rewrite <- Hv; apply map_chars_length).
  assert (Ht : trim (pre +:+ v +:+ " " +:+ mid +:+ arg +:+ post)
               = v +:+ (" " +:+ mid) +:+ arg).
  { rewrite <- (trim_padded pre v (" " +:+ mid) arg post) by assumption.
    f_equal. rewrite !append_assoc. reflexivity. }
  rewrite Ht. split.
  - unfold toLowerCase. rewrite map_chars_app by (apply solid_nul_free; exact Hvs).
    fold (toLowerCase v). rewrite Hv.
    change (map_chars tolower ((" " +:+ mid) +:+ arg))
      with (" " +:+ map_chars tolower (mid +:+ arg)).
    rewrite <- append_assoc. apply prefix_app.
  - rewrite Hlen.
    replace (v +:+ (" " +:+ mid) +:+ arg) with ((v +:+ " ") +:+ (mid +:+ arg))
      by (rewrite !append_assoc; reflexivity).
    replace (Datatypes.S (String.length v)) with (String.length (v +:+ " "))
      by (rewrite append_length; cbn [String.length]; lia).
    rewrite substring_from_app, trim_blank_solid by assumption.
    apply c_str_nul_free, toUpperCase_nul_free, solid_nul_free. exact Harg.
Qed.

End Router_facts.

(* ===================================================================== *)
(** ** Command router: enable, disable and calibrate (C7, C8)            *)
(* ===================================================================== *)

Module Command_router_spec.
Import ArduinoString Firmware String_facts Shelf_facts Calibration_facts Router_facts.

Lemma set_outbox_same (w : World) : set_outbox (outbox w) w = w.
Proof. destruct w; reflexivity. Qed.

(** The enable and disable branches of the router. *)
Lemma handle_switch (w : World) (cmd : string) (v : bool) :
  wf w ->
  startsWith (toLowerCase (trim cmd)) (if v then "enable " else "disable ") = true ->
  handleMQTTCommand cmd w
  = (let name :=
       c_str (toUpperCase (trim (substring_from (if v then 7 else 8) (trim cmd)))) in
     let i := position_of name (shelfConfig w) in
     if i >=? 0 then (setShelfEnabled i v >> publishSystemStatus) w else Some (tt, w)).
Proof.
  intros Hwf Hverb. unfold handleMQTTCommand. cbv zeta.
  destruct v.
  - destruct (verb_enable _ Hverb) as (-> & ->). rewrite Hverb.
    unfold bind at 1. rewrite getShelfIndexById_run by exact Hwf.
    destruct (_ >=? 0); reflexivity.
  - destruct (verb_disable _ Hverb) as (-> & -> & ->). rewrite Hverb.
    unfold bind at 1. rewrite getShelfIndexById_run by exact Hwf.
    destruct (_ >=? 0); reflexivity.
Qed.

(** Setting the flag of a slot of the table, then the status message. *)
Lemma switch_run (w : World) (i : Z) (c : ShelfConfig) (v : bool) :
  wf w ->
  i < SHELF_COUNT ->
  elem_at (shelfConfig w) i = Some c ->
  exists sent,
    (length sent <= 1)%nat /\
    (setShelfEnabled i v >> publishSystemStatus) w
    = Some (tt, set_outbox (outbox w ++ sent)
                  (set_preferences (saved (set_enabled v c) (preferences w))
                     (set_shelfConfig (<[Z.to_nat i := set_enabled v c]> (shelfConfig w))
                        w))).
Proof.
  intros [Hw1 Hw2] Hi Hc. pose proof (elem_at_lt _ _ _ Hc) as Hr.
  unfold bind at 1.
  rewrite (setShelfEnabled_Some w i c v) by (lia || exact Hc).
  match goal with
  | |- context [publishSystemStatus ?w1] =>
      destruct (publishSystemStatus_run w1) as (json & Hpub)
  end.
  { split; cbn [shelfConfig distance set_preferences set_shelfConfig];
      [rewrite length_insert|]; assumption. }
  rewrite Hpub. cbn [mqtt_connected set_preferences set_shelfConfig].
  destruct (mqtt_connected w).
  - eexists [_]. split; [simpl; lia | reflexivity].
  - exists []. split; [simpl; lia|]. rewrite app_nil_r. reflexivity.
Qed.

(** C7. The verbs enable and disable are recognised whatever their case,
    and the rest of the command, trimmed and put in upper case, names the
    slot; the lookup compares C strings, so the name ends at the first
    NUL byte if the payload carried one. When no slot has this name the
    command changes nothing: no flag, nothing in the flash store, no
    publication. When a slot has it, the first such slot gets the flag,
    which is stored at once, and at most the status message goes out.
    A command spelled with the verb in any case and with white space
    before the verb, before the argument and behind it passes the test
    of the verb, and the name looked up is the argument in upper case.
    In particular the argument of enable a1 is A1, the first slot of the
    table of the sketch, with or without white space around it and
    whatever follows a NUL byte, and Z9 names none. *)
Theorem command_enable_disable (w : World) (cmd : string) (v : bool) :
  wf w ->
  let name :=
    c_str (toUpperCase (trim (substring_from (if v then 7 else 8) (trim cmd)))) in
  let i := position_of name (shelfConfig w) in
  (startsWith (toLowerCase (trim cmd)) (if v then "enable " else "disable ") = true ->
   (i = -1 -> handleMQTTCommand cmd w = Some (tt, w)) /\
   (0 <= i ->
      exists c w' sent,
        elem_at (shelfConfig w) i = Some c /\ id c = name /\
        handleMQTTCommand cmd w = Some (tt, w') /\
        elem_at (shelfConfig w') i = Some (set_enabled v c) /\
        preferences w' !! name = Some (PBool v) /\
        outbox w' = outbox w ++ sent /\ (length sent <= 1)%nat)) /\
  (forall arg : string,
     spelled (if v then "enable" else "disable") arg cmd ->
     startsWith (toLowerCase (trim cmd)) (if v then "enable " else "disable ") = true /\
     name = toUpperCase arg) /\
  (c_str (toUpperCase (trim (substring_from 7 (trim "enable a1")))) = "A1" /\
   c_str (toUpperCase (trim (substring_from 7 (trim "  EnAbLe   a1  ")))) = "A1" /\
   c_str (toUpperCase (trim (substring_from 7 (trim ("enable a1" +:+ NUL +:+ "b2")))))
   = "A1" /\
   position_of "A1" shelfConfig_init = 0 /\
   c_str (toUpperCase (trim (substring_from 7 (trim "enable Z9")))) = "Z9" /\
   position_of "Z9" shelfConfig_init = -1).
Proof.
  intros Hwf name i. split; [|split].
  - intros Hverb.
    rewrite (handle_switch w cmd v Hwf Hverb). cbv zeta. fold name. fold i.
    split.
    + intros ->. reflexivity.
    + intros Hi. destruct (Z.geb_spec i 0) as [_|]; [|lia].
      destruct (position_of_found name (shelfConfig w) i eq_refl Hi) as (c & Hc & Hid).
      pose proof (position_of_range name (shelfConfig w)) as Hr. fold i in Hr.
      destruct (switch_run w i c v Hwf) as (sent & Hlen & Hrun);
        [destruct Hwf; lia | exact Hc |].
      rewrite Hrun. exists c. eexists. exists sent.
      split; [exact Hc|]. split; [exact Hid|]. split; [reflexivity|].
      cbn [shelfConfig preferences outbox set_outbox set_preferences set_shelfConfig].
      split; [apply elem_at_insert_eq; eapply elem_at_lt; eauto|].
      split; [|split; [reflexivity | exact Hlen]].
      unfold saved. cbn [id enabled set_enabled]. rewrite Hid.
      rewrite lookup_insert_ne by apply length_key_ne. apply lookup_insert_eq.
  - intros arg Hsp. subst name. destruct v.
    + exact (spelled_argument "enable" arg cmd Hsp eq_refl ltac:(discriminate)).
    + exact (spelled_argument "disable" arg cmd Hsp eq_refl ltac:(discriminate)).
  - vm_compute. repeat split; reflexivity.
Qed.

(** The commands of the scenario on the table of the sketch: an unknown
    slot, and the first slot named in lower case between blanks. *)
Lemma command_enable_disable_witness :
  wf scenario_world /\
  handleMQTTCommand "ENABLE z9 " scenario_world = Some (tt, scenario_world) /\
  exists w', handleMQTTCommand "  EnAbLe   a1  " scenario_world = Some (tt, w') /\
             elem_at (shelfConfig w') 0 = Some (set_enabled true (slot "A1" 4)) /\
             preferences w' !! "A1" = Some (PBool true).
Proof.
  assert (Hwf : wf scenario_world) by (split; reflexivity).
  split; [exact Hwf|]. split.
  - destruct (command_enable_disable scenario_world "ENABLE z9 " true Hwf)
      as (Hrun & _).
    destruct (Hrun eq_refl) as (Hmissing & _).
    apply Hmissing. reflexivity.
  - destruct (command_enable_disable scenario_world "  EnAbLe   a1  " true Hwf)
      as (Hrun & Hspelled & _).
    destruct (Hspelled "a1") as (Hverb & Hname).
    { exists "  ", "EnAbLe", "  ", "  ". repeat split; discriminate. }
    destruct (Hrun Hverb) as (_ & Hfound).
    destruct (Hfound ltac:(vm_compute; discriminate))
      as (c & w' & sent & Hc & _ & Hrun' & Hslot & Hflash & _).
    exists w'. split; [exact Hrun'|].
    assert (E : Some c = Some (slot "A1" 4)) by (rewrite <- Hc; reflexivity).
    injection E as ->. split; [exact Hslot|].
    rewrite Hname in Hflash. exact Hflash.
Defined.


Lemma publishCalibrateResult_run (w : World) (name : string) (len : float) (ok : bool) :
  publishCalibrateResult name len ok w
  = Some (tt, set_outbox
                (outbox w ++
                 if mqtt_connected w
                 then [ {| topic := device_calibrate_response_topic w;
                           payload := calibrate_json (device_id w) name len ok;
                           retained := false |} ]
                 else []) w).
Proof.
  unfold publishCalibrateResult, mqttClient_publish. run.
  destruct (mqtt_connected w) eqn:Hm; cbn [negb].
  - rewrite Hm. reflexivity.
  - rewrite app_nil_r, set_outbox_same. reflexivity.
Qed.




End Command_router_spec.

(* ===================================================================== *)
(** ** Configuration requests (C9)                                       *)
(* ===================================================================== *)

Module Config_request_spec.
Import ArduinoString Firmware String_facts Shelf_facts Router_facts
       Command_router_spec.

Lemma shelves_json_snoc (l : list ShelfConfig) (c : ShelfConfig) :
  forall i : Z,
    shelves_json i (l ++ [c])
    = shelves_json i l +:+
      ((if i + Z.of_nat (length l) >? 0 then "," else "") +:+
       shelf_json (i + Z.of_nat (length l)) c).
Proof.
  induction l as [|x l IH]; intros i.
  - cbn [app shelves_json length]. rewrite Z.add_0_r.
    cbn [String.append]. rewrite !append_empty_r. reflexivity.
  - cbn [app shelves_json length]. rewrite IH, !append_assoc.
    replace (i + 1 + Z.of_nat (length l)) with (i + Z.of_nat (S (length l))) by lia.
    reflexivity.
Qed.

Lemma join_commas_cons (x : string) (l : list string) :
  join_commas (x :: l)
  = x +:+ match l with [] => "" | _ => "," +:+ join_commas l end.
Proof. destruct l; [symmetry; apply append_empty_r | reflexivity]. Qed.

(** The elements of the array, as a list joined by commas. *)
Lemma shelves_json_from (l : list ShelfConfig) :
  forall i : Z, 0 <= i ->
    shelves_json (i + 1) l
    = match l with
      | [] => ""
      | _ => "," +:+ join_commas (imap (fun k c => shelf_json (i + 1 + Z.of_nat k) c) l)
      end.
Proof.
  induction l as [|c rest IH]; intros i Hi; [reflexivity|].
  cbn [shelves_json]. destruct (Z.gtb_spec (i + 1) 0) as [_|]; [|lia].
  rewrite (IH (i + 1)) by lia. rewrite imap_cons, join_commas_cons, Z.add_0_r.
  assert (E : imap ((fun k c => shelf_json (i + 1 + Z.of_nat k) c) ∘ S) rest
              = imap (fun k c => shelf_json (i + 1 + 1 + Z.of_nat k) c) rest).
  { apply imap_ext. intros k x _. cbn. f_equal. lia. }
  rewrite E. destruct rest; reflexivity.
Qed.

Lemma shelves_json_join (table : list ShelfConfig) :
  shelves_json 0 table
  = join_commas (imap (fun k c => shelf_json (Z.of_nat k) c) table).
Proof.
  destruct table as [|c rest]; [reflexivity|].
  cbn [shelves_json]. change (0 >? 0) with false. cbv iota.
  change ("" +:+ shelf_json 0 c +:+ shelves_json (0 + 1) rest)
    with (shelf_json 0 c +:+ shelves_json (0 + 1) rest).
  rewrite (shelves_json_from rest 0) by lia.
  rewrite imap_cons, join_commas_cons.
  assert (E : imap ((fun k c => shelf_json (Z.of_nat k) c) ∘ S) rest
              = imap (fun k c => shelf_json (0 + 1 + Z.of_nat k) c) rest).
  { apply imap_ext. intros k x _. cbn. f_equal. lia. }
  rewrite E. destruct rest; reflexivity.
Qed.

(** The occurrence test of the firmware agrees with [contains] on the
    two texts up to their first NUL. *)
Lemma indexOf_contains (s needle : string) :
  s <> "" ->
  ((indexOf s needle >=? 0) = true <-> contains (c_str s) (c_str needle)).
Proof.
  intros Hs. unfold indexOf, contains.
  destruct s as [|a s]; [done|].
  destruct (String.index 0 (c_str needle) (c_str (String a s))) as [n|] eqn:Hidx.
  - split; [intros _ | intros _; apply Z.geb_le; lia].
    exists n. eapply index_correct1. exact Hidx.
  - split; [discriminate|]. intros [m Hm]. exfalso.
    destruct (c_str needle) as [|b needle'] eqn:En.
    + destruct (c_str (String a s)); simpl in Hidx; discriminate Hidx.
    + apply (index_correct3 0 m _ _ Hidx); [discriminate | lia | exact Hm].
Qed.

Lemma contains_nonempty (s needle : string) :
  contains s needle -> needle <> "" -> s <> "".
Proof.
  intros [m Hm] Hn ->. destruct needle; [done|].
  destruct m; simpl in Hm; discriminate.
Qed.

(** The test at the head of [handleShelfConfigRequest]. *)
Lemma addressed_elsewhere (message dev : string) :
  ((Z.of_nat (String.length message) >? 0) &&
   (indexOf message dev <? 0) && (indexOf message (q "device_id") >=? 0)) = true
  <-> contains (c_str message) (q "device_id") /\
      ~ contains (c_str message) (c_str dev).
Proof.
  destruct message as [|a s].
  - split; [discriminate|]. intros [H _]. exfalso.
    apply contains_nonempty in H; [done | discriminate].
  - pose proof (indexOf_contains (String a s) dev ltac:(discriminate)) as Hd.
    pose proof (indexOf_contains (String a s) (q "device_id") ltac:(discriminate)) as Hk.
    change (c_str (q "device_id")) with (q "device_id") in Hk.
    assert (Hlen : (Z.of_nat (String.length (String a s)) >? 0) = true).
    { apply Z.gtb_lt. simpl. lia. }
    rewrite Hlen. cbn [andb]. rewrite andb_true_iff, Hk.
    rewrite <- Hd.
    destruct (Z.ltb_spec (indexOf (String a s) dev) 0),
             (Z.geb_spec (indexOf (String a s) dev) 0); try lia;
      split; intros [H1 H2]; split; try done.
Qed.

(** The loop over the slots writes the elements of the array. *)
Lemma config_entries (w : World) (head : string) :
  wf w ->
  for_acc (Z.to_nat SHELF_COUNT) 0 config_entry head w
  = Some (head +:+ shelves_json 0 (shelfConfig w), w).
Proof.
  intros [Hc Hd]. unfold SHELF_COUNT in Hc.
  pose (Inv := fun (k : nat) (response : string) (s : World) =>
    s = w /\ response = head +:+ shelves_json 0 (take k (shelfConfig w))).
  destruct (for_acc_invariant Inv (Z.to_nat SHELF_COUNT) 0 config_entry head w)
    as (response & w' & Hrun & -> & ->).
  - split; [reflexivity|]. rewrite take_0. cbn [shelves_json].
    rewrite append_empty_r. reflexivity.
  - intros k response s Hk [-> ->]. rewrite Z.add_0_l.
    change (Z.to_nat SHELF_COUNT) with 12%nat in Hk.
    destruct (lookup_lt_is_Some_2 (shelfConfig w) k) as [c Hck]; [lia|].
    unfold config_entry. cbv zeta. unfold bind.
    rewrite (shelfConfig_at_Some w _ c) by (rewrite elem_at_of_nat; exact Hck).
    eexists _, w. split; [reflexivity|]. split; [reflexivity|].
    rewrite (take_S_r _ _ _ Hck), shelves_json_snoc.
    rewrite length_take_le by lia. rewrite Z.add_0_l.
    destruct (Z.of_nat k >? 0); rewrite !append_assoc; reflexivity.
  - rewrite Hrun.
    rewrite take_ge by (change (Z.to_nat SHELF_COUNT) with 12%nat; lia).
    reflexivity.
Qed.

(** A configuration request is dropped, or answered with the whole
    table. *)
Lemma handleShelfConfigRequest_run (w : World) (message : string) :
  wf w ->
  handleShelfConfigRequest message w
  = Some (tt,
          if (Z.of_nat (String.length message) >? 0) &&
             (indexOf message (device_id w) <? 0) &&
             (indexOf message (q "device_id") >=? 0)
          then w
          else if mqtt_connected w
               then set_outbox
                      (outbox w ++
                       [ {| topic := device_config_response_topic w;
                            payload := config_json (device_id w) (shelfConfig w);
                            retained := false |} ]) w
               else w).
Proof.
  intros Hwf. unfold handleShelfConfigRequest. unfold bind at 1, gets at 1.
  destruct ((Z.of_nat (String.length message) >? 0) &&
            (indexOf message (device_id w) <? 0) &&
            (indexOf message (q "device_id") >=? 0)); [reflexivity|].
  cbv zeta. unfold bind at 1.
  rewrite config_entries by exact Hwf.
  unfold bind at 1.
  rewrite getEnabledShelfCount_run by exact Hwf.
  unfold bind at 1, gets at 1.
  destruct (mqtt_connected w) eqn:Hm; [|reflexivity].
  unfold mqttClient_publish. run. rewrite Hm.
  unfold config_json. rewrite !append_assoc. reflexivity.
Qed.

(** The configuration response, written out. *)
Lemma config_json_entries (dev : string) (table : list ShelfConfig) :
  config_json dev table
  = "{" +:+ member_q "device_id" dev +:+ "," +:+ q "shelves" +:+ ":[" +:+
    join_commas
      (imap (fun k c =>
               "{" +:+ member_q "shelf_id" (id c) +:+ "," +:+
               member "index" (of_int (Z.of_nat k)) +:+ "," +:+
               member "gpio" (of_int (pin c)) +:+ "," +:+
               member "enabled" (if enabled c then "true" else "false") +:+ "," +:+
               member "shelf_length" (Float32.to_String 2 (shelf_length c)) +:+ "}")
            table) +:+
    "]," +:+ member "total_count" "12" +:+ "," +:+
    member "enabled_count" (of_int (enabled_count table)) +:+ "}".
Proof.
  unfold config_json. rewrite shelves_json_join, !append_assoc. reflexivity.
Qed.

(** C9 (as amended). Of a configuration request the firmware reads the
    text up to its first NUL byte. A request whose text contains the
    quoted key device_id, double quotes included, but not the identity of
    the device is ignored: nothing is published and nothing changes.
    Every other request, the empty one too, is answered: with a session
    to the broker by exactly one message on the configuration topic of
    the device, not retained, which lists every slot of the table in
    order, separated by commas, with its shelf_id, index, gpio, enabled
    flag and shelf_length, followed by the number of slots and the number
    of enabled ones; without a session by nothing. The length is written
    with two decimals by [dtostrf], in double precision: 12.375 is sent
    as 12.37. *)
Theorem config_request_addressing (w : World) (message : string) :
  wf w ->
  (contains (c_str message) (q "device_id") ->
   ~ contains (c_str message) (c_str (device_id w)) ->
   handleShelfConfigRequest message w = Some (tt, w)) /\
  (~ (contains (c_str message) (q "device_id") /\
      ~ contains (c_str message) (c_str (device_id w))) ->
   handleShelfConfigRequest message w
   = Some (tt,
           if mqtt_connected w
           then set_outbox
                  (outbox w ++
                   [ {| topic := device_config_response_topic w;
                        payload :=
                          "{" +:+ member_q "device_id" (device_id w) +:+ "," +:+
                          q "shelves" +:+ ":[" +:+
                          join_commas
                            (imap (fun k c =>
                                     "{" +:+ member_q "shelf_id" (id c) +:+ "," +:+
                                     member "index" (of_int (Z.of_nat k)) +:+ "," +:+
                                     member "gpio" (of_int (pin c)) +:+ "," +:+
                                     member "enabled"
                                       (if enabled c then "true" else "false") +:+ "," +:+
                                     member "shelf_length"
                                       (Float32.to_String 2 (shelf_length c)) +:+ "}")
                                  (shelfConfig w)) +:+
                          "]," +:+ member "total_count" "12" +:+ "," +:+
                          member "enabled_count"
                            (of_int (Z.of_nat
                                       (length (filter (fun c => enabled c = true)
                                                  (shelfConfig w))))) +:+ "}";
                        retained := false |} ]) w
           else w)) /\
  length (shelfConfig w) = 12%nat /\
  (forall a b rest, join_commas (a :: b :: rest) = a +:+ "," +:+ join_commas (b :: rest)) /\
  (forall a, join_commas [a] = a) /\
  (Float32.to_String 2 (Float32.div (Float32.of_Z 12375) (Float32.of_Z 1000)) = "12.37" /\
   Float32.to_String 2 Float32.zero = "0.00" /\
   Float32.to_String 2 (Float32.tenth_of 1995) = "199.50").
Proof.
  intros Hwf.
  pose proof (addressed_elsewhere message (device_id w)) as Htest.
  rewrite (handleShelfConfigRequest_run w message Hwf).
  split; [|split; [|split; [|split; [|split]]]].
  - intros Hk Hd. destruct Htest as [_ Htest]. rewrite Htest by done. reflexivity.
  - intros Hnot.
    destruct ((Z.of_nat (String.length message) >? 0) &&
              (indexOf message (device_id w) <? 0) &&
              (indexOf message (q "device_id") >=? 0)) eqn:Ht.
    + exfalso. apply Hnot. apply Htest. reflexivity.
    + rewrite config_json_entries. reflexivity.
  - destruct Hwf as [Hc _]. unfold SHELF_COUNT in Hc. lia.
  - reflexivity.
  - reflexivity.
  - vm_compute. repeat split; reflexivity.
Qed.

(** With a session: the empty request is answered, a request for
    another device is ignored, and a request whose key stands behind a
    NUL byte is answered. *)
Lemma config_request_addressing_witness :
  wf scenario_world /\
  (exists p, handleShelfConfigRequest "" scenario_world
             = Some (tt, set_outbox (outbox scenario_world ++ [p]) scenario_world) /\
             topic p = "shelf/ESP32S3_TEST/config/response") /\
  handleShelfConfigRequest ("{" +:+ q "device_id" +:+ ":" +:+ q "ESP32S3_ELSE" +:+ "}")
    scenario_world = Some (tt, scenario_world) /\
  (exists p, handleShelfConfigRequest ("x" +:+ NUL +:+ q "device_id") scenario_world
             = Some (tt, set_outbox (outbox scenario_world ++ [p]) scenario_world)).
Proof.
  assert (Hwf : wf scenario_world) by (split; reflexivity).
  split; [exact Hwf|]. split; [|split].
  - destruct (config_request_addressing scenario_world "" Hwf) as (_ & Hanswer & _).
    assert (Hnot : ~ (contains (c_str "") (q "device_id") /\
                      ~ contains (c_str "") (c_str (device_id scenario_world)))).
    { intros [[m Hm] _]. destruct m; discriminate Hm. }
    eexists. split; [rewrite (Hanswer Hnot); reflexivity | reflexivity].
  - destruct (config_request_addressing scenario_world
                ("{" +:+ q "device_id" +:+ ":" +:+ q "ESP32S3_ELSE" +:+ "}") Hwf)
      as (Hignore & _).
    apply Hignore.
    + exists 1%nat. reflexivity.
    + intros H.
      apply (indexOf_contains
               ("{" +:+ q "device_id" +:+ ":" +:+ q "ESP32S3_ELSE" +:+ "}")
               (device_id scenario_world) ltac:(discriminate)) in H.
      vm_compute in H. discriminate H.
  - destruct (config_request_addressing scenario_world
                ("x" +:+ NUL +:+ q "device_id") Hwf) as (_ & Hanswer & _).
    assert (Hnot : ~ (contains (c_str ("x" +:+ NUL +:+ q "device_id")) (q "device_id") /\
                      ~ contains (c_str ("x" +:+ NUL +:+ q "device_id"))
                          (c_str (device_id scenario_world)))).
    { intros [H _].
      change (q "device_id") with (c_str (q "device_id")) in H at 2.
      apply (indexOf_contains ("x" +:+ NUL +:+ q "device_id") (q "device_id")
               ltac:(discriminate)) in H.
      vm_compute in H. discriminate H. }
    eexists. rewrite (Hanswer Hnot). reflexivity.
Defined.

(** Against C9 as stated: without a session to the broker the empty
    request gets no response; and a request that names another device
    without the double quotes around device_id is answered. *)
Lemma config_request_unanswered_or_answered :
  handleShelfConfigRequest "" offline_world = Some (tt, offline_world) /\
  outbox offline_world = [] /\
  contains "{device_id:OTHER}" "device_id" /\
  ~ contains "{device_id:OTHER}" (device_id scenario_world) /\
  exists w', handleShelfConfigRequest "{device_id:OTHER}" scenario_world = Some (tt, w') /\
             length (outbox w') = 1%nat.
Proof.
  split; [reflexivity|]. split; [reflexivity|].
  split; [exists 1%nat; reflexivity|].
  split.
  - intros H.
    change (contains (c_str "{device_id:OTHER}") (c_str (device_id scenario_world))) in H.
    apply (indexOf_contains "{device_id:OTHER}" _ ltac:(discriminate)) in H.
    vm_compute in H. discriminate.
  - eexists. split; [vm_compute; reflexivity | reflexivity].
Qed.

End Config_request_spec.

(* ===================================================================== *)
(** ** The shape of the arrays is an invariant of the sketch             *)
(* ===================================================================== *)

Module Reachable_states.
Import ArduinoString Firmware Shelf_facts Calibration_facts Slot_store_spec
       Scan_facts Router_facts Command_router_spec Config_request_spec.

Lemma wf_frame (w w' : World) :
  length (shelfConfig w') = length (shelfConfig w) ->
  length (distance w') = length (distance w) ->
  wf w -> wf w'.
Proof. intros H1 H2 [Hc Hd]. split; congruence. Qed.

(** Every command is handled without a fault and keeps the arrays in
    shape. *)
Lemma handleMQTTCommand_wf (w : World) (msg : string) :
  wf w -> exists w', handleMQTTCommand msg w = Some (tt, w') /\ wf w'.
Proof.
  intros Hwf. unfold handleMQTTCommand. cbv zeta.
  destruct (equals (c_str (toLowerCase (trim msg))) "status").
  { destruct (publishSystemStatus_run w Hwf) as (json & ->).
    eexists. split; [reflexivity|].
    destruct (mqtt_connected w); [|exact Hwf].
    apply (wf_frame w); [reflexivity | reflexivity | exact Hwf]. }
  destruct (equals (c_str (toLowerCase (trim msg))) "read").
  { destruct (readAllShelfSensors_run w Hwf) as (w1 & Hread & _ & _ & _ & _ & _ & Hwf1 & _).
    destruct (publishAllSensorData_run w1 Hwf1) as (w2 & sent & Hpub & _ & Hc & Hd & _).
    exists w2. unfold bind. rewrite Hread. split; [exact Hpub|].
    apply (wf_frame w1); [congruence | congruence | exact Hwf1]. }
  assert (Hswitch : forall v name,
    exists w', (let* idx := getShelfIndexById name in
                if idx >=? 0 then setShelfEnabled idx v >> publishSystemStatus
                else ret tt) w = Some (tt, w') /\ wf w').
  { intros v name. unfold bind at 1. rewrite getShelfIndexById_run by exact Hwf.
    pose proof (position_of_range name (shelfConfig w)) as Hr.
    destruct (Z.geb_spec (position_of name (shelfConfig w)) 0) as [Hi|Hi].
    - destruct (position_of_found name (shelfConfig w) _ eq_refl Hi) as (c & Hc & _).
      destruct (switch_run w (position_of name (shelfConfig w)) c v Hwf)
        as (sent & _ & ->); [destruct Hwf; lia | exact Hc |].
      eexists. split; [reflexivity|].
      apply (wf_frame w); [|reflexivity | exact Hwf].
      cbn [shelfConfig set_outbox set_preferences set_shelfConfig].
      apply length_insert.
    - exists w. split; [reflexivity | exact Hwf]. }
  destruct (startsWith (toLowerCase (trim msg)) "enable "); [apply Hswitch|].
  destruct (startsWith (toLowerCase (trim msg)) "disable "); [apply Hswitch|].
  destruct (startsWith (toLowerCase (trim msg)) "calibrate ").
  { unfold bind at 1. rewrite getShelfIndexById_run by exact Hwf.
    set (name := c_str (toUpperCase (trim (substring_from 10 (trim msg))))).
    pose proof (position_of_range name (shelfConfig w)) as Hr.
    destruct (Z.geb_spec (position_of name (shelfConfig w)) 0) as [Hi|Hi].
    - destruct (position_of_found name (shelfConfig w) _ eq_refl Hi) as (c & Hc & _).
      assert (Hlt : position_of name (shelfConfig w) < SHELF_COUNT)
        by (destruct Hwf; lia).
      destruct (calibrateShelf_run w (position_of name (shelfConfig w)) c Hlt Hc)
        as (t & Hrun).
      cbv zeta in Hrun. unfold bind at 1. rewrite Hrun.
      destruct (_ <? 5); rewrite publishCalibrateResult_run;
        (eexists; split; [reflexivity|]);
        (apply (wf_frame w); [|reflexivity | exact Hwf]);
        cbn [shelfConfig set_outbox set_preferences set_shelfConfig set_millis
             set_ranging_log]; [reflexivity | apply length_insert].
    - rewrite publishCalibrateResult_run. eexists. split; [reflexivity|].
      apply (wf_frame w); [reflexivity | reflexivity | exact Hwf]. }
  exists w. split; [reflexivity | exact Hwf].
Qed.

Lemma scan_cycle_wf (w : World) :
  wf w -> exists w', scan_cycle w = Some (tt, w') /\ wf w'.
Proof.
  intros Hwf.
  destruct (readAllShelfSensors_run w Hwf) as (w1 & Hread & _ & _ & _ & _ & _ & Hwf1 & _).
  destruct (publishAllSensorData_run w1 Hwf1) as (w2 & sent & Hpub & _ & Hc & Hd & _).
  unfold scan_cycle, isMQTTConnected. unfold bind at 1. rewrite Hread.
  unfold bind at 1, gets at 1.
  destruct (mqtt_connected w1).
  - exists w2. split; [exact Hpub|].
    apply (wf_frame w1); [congruence | congruence | exact Hwf1].
  - exists w1. split; [reflexivity | exact Hwf1].
Qed.

(** The arrays keep their size along every step. *)
Lemma step_wf (w w' : World) : wf w -> step w w' -> wf w'.
Proof.
  intros Hwf Hstep. destruct Hstep as [msg w w' H | msg w w' H | w w' H | w w' H | m r w].
  - destruct (handleMQTTCommand_wf w msg Hwf) as (w1 & Hrun & Hwf1).
    unfold exec in H. rewrite Hrun in H. injection H as <-. exact Hwf1.
  - unfold exec in H. rewrite (handleShelfConfigRequest_run w msg Hwf) in H.
    injection H as <-.
    destruct (_ && _); [exact Hwf|].
    destruct (mqtt_connected w); [|exact Hwf].
    apply (wf_frame w); [reflexivity | reflexivity | exact Hwf].
  - destruct (scan_cycle_wf w Hwf) as (w1 & Hrun & Hwf1).
    unfold exec in H. rewrite Hrun in H. injection H as <-. exact Hwf1.
  - unfold exec in H. rewrite (loadShelfConfig_run w Hwf) in H. injection H as <-.
    apply (wf_frame w); [|reflexivity | exact Hwf].
    cbn [shelfConfig set_shelfConfig]. apply length_fmap.
  - apply (wf_frame w); [reflexivity | reflexivity | exact Hwf].
Qed.

(** The hypothesis [wf] of the properties holds in every state the
    sketch reaches. *)
Lemma reachable_wf (w : World) : reachable w -> wf w.
Proof.
  induction 1 as [dev sensors dns flash mqtt wifi | w w' _ IH Hstep].
  - split; reflexivity.
  - exact (step_wf w w' IH Hstep).
Qed.

End Reachable_states.

(* ===================================================================== *)
(** ** Flash store: defaults, reset, and what survives a reload          *)
(* ===================================================================== *)

Module Flash_store_props.
Import ArduinoString Firmware Shelf_facts Calibration_facts Slot_store_spec
       Router_facts.

Lemma restore_id (p : gmap string PrefValue) (c : ShelfConfig) :
  id (restore p c) = id c /\ pin (restore p c) = pin c.
Proof. split; reflexivity. Qed.

Lemma elem_at_fmap {A B} (f : A -> B) (l : list A) (i : Z) :
  elem_at (f <$> l) i = f <$> elem_at l i.
Proof.
  unfold elem_at. destruct (0 <=? i); [|reflexivity]. apply list_lookup_fmap.
Qed.

(** X1. [loadShelfConfig] overwrites the flag and the reference length
    of every slot with what the flash store holds under the name of the
    slot and under that name followed by _len, whatever the slot held
    before; a key that is missing, or that holds a value of the other
    type, gives the default: disabled, length 0.0. Names and pins are
    kept, and nothing but the table changes. *)
Theorem loadShelfConfig_defaults (w : World) :
  wf w ->
  exists w',
    loadShelfConfig w = Some (tt, w') /\
    w' = set_shelfConfig (shelfConfig w') w /\
    length (shelfConfig w') = length (shelfConfig w) /\
    forall i c, elem_at (shelfConfig w) i = Some c ->
      exists c', elem_at (shelfConfig w') i = Some c' /\
        id c' = id c /\ pin c' = pin c /\
        (forall b, preferences w !! id c = Some (PBool b) -> enabled c' = b) /\
        ((forall b, preferences w !! id c <> Some (PBool b)) -> enabled c' = false) /\
        (forall x, preferences w !! (id c +:+ "_len") = Some (PFloat x) ->
                   shelf_length c' = x) /\
        ((forall x, preferences w !! (id c +:+ "_len") <> Some (PFloat x)) ->
                   shelf_length c' = Float32.zero).
Proof.
  intros Hwf. rewrite (loadShelfConfig_run w Hwf).
  eexists. split; [reflexivity|]. cbn [shelfConfig set_shelfConfig].
  split; [reflexivity|]. split; [apply length_fmap|].
  intros i c Hc. exists (restore (preferences w) c).
  rewrite elem_at_fmap, Hc. split; [reflexivity|].
  split; [reflexivity|]. split; [reflexivity|].
  unfold restore, getBool, getFloat. cbn [enabled shelf_length set_shelf_length set_enabled].
  repeat split.
  - intros b ->. reflexivity.
  - intros Hno. destruct (preferences w !! id c) as [[b|x]|] eqn:E; try reflexivity.
    destruct (Hno b). reflexivity.
  - intros x ->. reflexivity.
  - intros Hno. destruct (preferences w !! (id c +:+ "_len")) as [[b|x]|] eqn:E;
      try reflexivity.
    destruct (Hno x). reflexivity.
Qed.

(** The table of the sketch, restored from an empty flash store. *)
Lemma loadShelfConfig_defaults_witness :
  wf scenario_world /\
  exists w', loadShelfConfig scenario_world = Some (tt, w') /\
             length (shelfConfig w') = 12%nat.
Proof.
  split; [split; reflexivity|].
  destruct (loadShelfConfig_defaults scenario_world) as (w' & H1 & _ & H2 & _).
  - split; reflexivity.
  - exists w'. split; [exact H1 | exact H2].
Defined.

Lemma enabled_count_all_off (l : list ShelfConfig) :
  enabled_count ((fun c => slot (id c) (pin c)) <$> l) = 0.
Proof.
  unfold enabled_count. induction l as [|c l IH]; [reflexivity|].
  rewrite fmap_cons, filter_cons_False; [exact IH|]. cbn. discriminate.
Qed.

(** X2. [clearAllShelfConfig] followed by [loadShelfConfig] is a reset
    to the factory state: the flash store is empty, every slot is
    disabled with the reference length 0.0 under its old name and pin,
    and the count of enabled slots is 0. *)
Theorem clear_then_load_resets (w : World) :
  wf w ->
  exists w',
    (clearAllShelfConfig >> loadShelfConfig) w = Some (tt, w') /\
    preferences w' = ∅ /\
    shelfConfig w' = (fun c => slot (id c) (pin c)) <$> shelfConfig w /\
    distance w' = distance w /\ outbox w' = outbox w /\
    getEnabledShelfCount w' = Some (0, w').
Proof.
  intros Hwf. unfold clearAllShelfConfig. run.
  rewrite (loadShelfConfig_run (set_preferences ∅ w)) by exact Hwf.
  eexists. split; [reflexivity|].
  cbn [preferences shelfConfig distance outbox set_preferences set_shelfConfig].
  assert (E : restore ∅ <$> shelfConfig w
              = (fun c => slot (id c) (pin c)) <$> shelfConfig w).
  { apply list_fmap_ext. intros _ c _. reflexivity. }
  rewrite E. repeat split; try reflexivity.
  rewrite getEnabledShelfCount_run.
  - cbn [shelfConfig set_shelfConfig]. rewrite enabled_count_all_off. reflexivity.
  - destruct Hwf as [H1 H2]. split; cbn [shelfConfig distance set_shelfConfig set_preferences].
    + rewrite length_fmap. exact H1.
    + exact H2.
Qed.

(** A reset of the sketch after its first slot was enabled. *)
Lemma clear_then_load_resets_witness :
  exists w1 w2,
    setShelfEnabled 0 true scenario_world = Some (tt, w1) /\ wf w1 /\
    (clearAllShelfConfig >> loadShelfConfig) w1 = Some (tt, w2) /\
    shelfConfig w2 = shelfConfig_init /\ preferences w2 = ∅.
Proof.
  pose proof (setShelfEnabled_Some scenario_world 0 (slot "A1" 4) true
                ltac:(unfold SHELF_COUNT; lia) eq_refl) as Hset.
  set (w1 := set_preferences _ _) in Hset.
  assert (Hwf : wf w1) by (split; reflexivity).
  destruct (clear_then_load_resets w1 Hwf) as (w2 & H1 & H2 & H3 & _).
  exists w1, w2. split; [exact Hset|]. split; [exact Hwf|].
  split; [exact H1|]. split; [|exact H2].
  rewrite H3. reflexivity.
Defined.

(** X3. A calibration that succeeds survives a reload: after
    [calibrateShelf] returned the mean of at least five valid samples,
    [loadShelfConfig] gives the slot this mean as reference length and
    the flag it had, since the calibration stored both. *)
Theorem calibration_survives_reload (w : World) (i : Z) :
  wf w ->
  0 <= i < SHELF_COUNT ->
  (5 <= length (List.filter valid_sample (calibration_samples w i)))%nat ->
  exists c mean w1 w2,
    elem_at (shelfConfig w) i = Some c /\
    calibrateShelf i w = Some (mean, w1) /\
    loadShelfConfig w1 = Some (tt, w2) /\
    elem_at (shelfConfig w2) i = Some (set_shelf_length mean c) /\
    preferences w2 = preferences w1.
Proof.
  intros Hwf Hi Hvalid.
  destruct (wf_slot w i Hwf Hi) as [c Hc].
  destruct (calibrateShelf_run w i c ltac:(lia) Hc) as (t & Hrun).
  cbv zeta in Hrun.
  assert (Hlen : length (kept (calibration_samples w i))
                 = length (List.filter valid_sample (calibration_samples w i)))
    by (unfold kept; apply length_map).
  destruct (Z.ltb_spec (Z.of_nat (length (kept (calibration_samples w i)))) 5) as [Hlt|_];
    [lia|].
  set (mean := float_mean (kept (calibration_samples w i))) in *.
  eexists c, mean, _, _. split; [exact Hc|]. split; [exact Hrun|].
  pose proof (elem_at_lt _ _ _ Hc) as Hr.
  rewrite loadShelfConfig_run.
  2:{ destruct Hwf as [H1 H2]. split;
      cbn [shelfConfig distance set_preferences set_shelfConfig set_millis set_ranging_log].
      - rewrite length_insert. exact H1.
      - exact H2. }
  split; [reflexivity|].
  cbn [shelfConfig preferences set_preferences set_shelfConfig set_millis set_ranging_log].
  split; [|reflexivity].
  rewrite elem_at_fmap, elem_at_insert_eq by exact Hr.
  cbn [fmap option_fmap option_map]. f_equal.
  unfold restore, saved, getBool, getFloat.
  cbn [id enabled shelf_length set_shelf_length set_enabled].
  rewrite lookup_insert_eq.
  rewrite lookup_insert_ne by apply length_key_ne.
  rewrite lookup_insert_eq.
  destruct c; reflexivity.
Qed.

(** The calibration of the scenario, then a reload. *)
Lemma calibration_survives_reload_witness :
  wf scenario_world /\ 0 <= 0 < SHELF_COUNT /\
  exists w1 w2,
    calibrateShelf 0 scenario_world = Some (S754_finite false 10459546 (-19), w1) /\
    loadShelfConfig w1 = Some (tt, w2) /\
    elem_at (shelfConfig w2) 0
    = Some (set_shelf_length (S754_finite false 10459546 (-19)) (slot "A1" 4)).
Proof.
  assert (Hwf : wf scenario_world) by (split; reflexivity).
  split; [exact Hwf|]. split; [unfold SHELF_COUNT; lia|].
  destruct (calibration_survives_reload scenario_world 0 Hwf)
    as (c & mean & w1 & w2 & Hc & Hcal & Hload & Hslot & _).
  - unfold SHELF_COUNT; lia.
  - vm_compute. lia.
  - exists w1, w2.
    assert (Hc0 : elem_at (shelfConfig scenario_world) 0 = Some (slot "A1" 4))
      by reflexivity.
    rewrite Hc0 in Hc. injection Hc as <-.
    assert (Hm : mean = S754_finite false 10459546 (-19)).
    { assert (E : fst <$> calibrateShelf 0 scenario_world
                  = Some (S754_finite false 10459546 (-19))) by (vm_compute; reflexivity).
      rewrite Hcal in E. cbn in E. congruence. }
    subst mean. split; [exact Hcal|]. split; [exact Hload | exact Hslot].
Defined.

End Flash_store_props.

(* ===================================================================== *)
(** ** Names and indices of the slots                                    *)
(* ===================================================================== *)

Module Slot_lookup_props.
Import ArduinoString Firmware Shelf_facts Router_facts.

Lemma getShelfId_in (w : World) (i : Z) (c : ShelfConfig) :
  i < SHELF_COUNT -> elem_at (shelfConfig w) i = Some c ->
  getShelfId i w = Some (id c, w).
Proof.
  intros Hi Hc. unfold getShelfId.
  rewrite guard_in by (apply elem_at_lt in Hc; lia).
  unfold bind. rewrite (shelfConfig_at_Some _ _ _ Hc). reflexivity.
Qed.

(** X4. [getShelfIndexById] and [getShelfId] are inverse to each other
    as far as the table allows: the index found for a name is -1 or an
    index of the table, the one of the first slot with this name, and
    [getShelfId] gives the name back there; when the names of the table
    are pairwise distinct, as in the sketch, the index of every slot is
    found again from its name; and an index outside the table is
    answered by UNKNOWN, which is found at no index unless a slot has
    this name. Neither function changes the state. *)
Theorem shelf_id_index_round_trip (w : World) :
  wf w ->
  (forall name, exists i,
      getShelfIndexById name w = Some (i, w) /\ -1 <= i < SHELF_COUNT /\
      (0 <= i -> getShelfId i w = Some (name, w) /\
                 forall j c, 0 <= j < i -> elem_at (shelfConfig w) j = Some c ->
                             id c <> name) /\
      (i = -1 -> Forall (fun c => id c <> name) (shelfConfig w))) /\
  (NoDup (id <$> shelfConfig w) ->
   forall i, 0 <= i < SHELF_COUNT ->
     exists name, getShelfId i w = Some (name, w) /\
                  getShelfIndexById name w = Some (i, w)) /\
  (forall i, ~ (0 <= i < SHELF_COUNT) ->
     getShelfId i w = Some ("UNKNOWN", w) /\
     (Forall (fun c => id c <> "UNKNOWN") (shelfConfig w) ->
      getShelfIndexById "UNKNOWN" w = Some (-1, w))).
Proof.
  intros Hwf. pose proof Hwf as [Hlen _].
  split; [|split].
  - intros name. exists (position_of name (shelfConfig w)).
    split; [apply getShelfIndexById_run; exact Hwf|].
    pose proof (position_of_range name (shelfConfig w)) as Hr.
    split; [lia|]. split.
    + intros H0.
      destruct (position_of_found name (shelfConfig w) _ eq_refl H0) as (c & Hc & Hid).
      split.
      * rewrite (getShelfId_in w _ c) by (lia || exact Hc). rewrite Hid. reflexivity.
      * intros j c' Hj Hcj Hname.
        unfold position_of in *.
        destruct (list_find (fun c => id c = name) (shelfConfig w)) as [[k x]|] eqn:E;
          [|lia].
        apply list_find_Some in E as (_ & _ & Hfirst).
        apply elem_at_Some in Hcj as [_ Hcj].
        apply (Hfirst (Z.to_nat j) c'); [exact Hcj | lia | exact Hname].
    + intros Hm. apply position_of_missing. exact Hm.
  - intros Hnd i Hi.
    destruct (wf_slot w i Hwf Hi) as [c Hc].
    exists (id c). split; [apply getShelfId_in; [lia | exact Hc]|].
    rewrite getShelfIndexById_run by exact Hwf. do 2 f_equal.
    pose proof (position_of_range (id c) (shelfConfig w)) as Hr.
    destruct (decide (position_of (id c) (shelfConfig w) = -1)) as [Hm|Hm].
    + apply position_of_missing in Hm.
      apply elem_at_Some in Hc as [_ Hc].
      rewrite Forall_forall in Hm.
      destruct (Hm c); [|reflexivity].
      apply list_elem_of_lookup. eauto.
    + destruct (position_of_found (id c) (shelfConfig w) _ eq_refl ltac:(lia))
        as (c' & Hc' & Hid).
      apply elem_at_Some in Hc as [_ Hc]. apply elem_at_Some in Hc' as [H0 Hc'].
      assert (Z.to_nat (position_of (id c) (shelfConfig w)) = Z.to_nat i); [|lia].
      apply (NoDup_lookup (id <$> shelfConfig w) _ _ (id c) Hnd).
      * rewrite list_lookup_fmap, Hc'. cbn. congruence.
      * rewrite list_lookup_fmap, Hc. reflexivity.
  - intros i Hi. split.
    + unfold getShelfId. rewrite guard_out by exact Hi. reflexivity.
    + intros Hno. rewrite getShelfIndexById_run by exact Hwf. do 2 f_equal.
      apply position_of_missing. exact Hno.
Qed.

(** The table of the sketch: B3 is slot 6, and slot 6 is B3. *)
Lemma shelf_id_index_round_trip_witness :
  wf scenario_world /\ NoDup (id <$> shelfConfig scenario_world) /\
  getShelfId 6 scenario_world = Some ("B3", scenario_world) /\
  getShelfIndexById "B3" scenario_world = Some (6, scenario_world).
Proof.
  assert (Hwf : wf scenario_world) by (split; reflexivity).
  assert (Hnd : NoDup (id <$> shelfConfig scenario_world)).
  { apply (bool_decide_unpack (NoDup (id <$> shelfConfig scenario_world))).
    vm_compute. exact I. }
  split; [exact Hwf|]. split; [exact Hnd|].
  destruct (shelf_id_index_round_trip scenario_world Hwf) as (_ & H & _).
  destruct (H Hnd 6 ltac:(unfold SHELF_COUNT; lia)) as (name & H1 & H2).
  assert (E : getShelfId 6 scenario_world = Some ("B3", scenario_world)) by reflexivity.
  rewrite E in H1. injection H1 as <-. split; [exact E | exact H2].
Defined.

End Slot_lookup_props.

(* ===================================================================== *)
(** ** What a scan measures and stores                                   *)
(* ===================================================================== *)

Module Scan_props.
Import ArduinoString Firmware Shelf_facts Scan_facts Router_facts Scan_notions.

Lemma concat_imap_length {B} (g : nat -> ShelfConfig -> B) (l : list ShelfConfig) :
  length (concat (imap (fun j c => if enabled c then [g j c] else []) l))
  = length (filter (fun c => enabled c = true) l).
Proof.
  revert g. induction l as [|x l IH]; intros g; [reflexivity|].
  rewrite imap_cons. cbn [concat]. rewrite length_app.
  rewrite (imap_ext _ (fun j c => if enabled c then [g (S j) c] else []))
    by (intros; reflexivity).
  rewrite IH. destruct (enabled x) eqn:E.
  - rewrite filter_cons_True by exact E. reflexivity.
  - rewrite filter_cons_False by congruence. reflexivity.
Qed.

Lemma clock_after_wrap (n : nat) (d m : Z) :
  0 <= m < 2 ^ 32 -> clock_after n d m = wrap32 (m + d * Z.of_nat n).
Proof.
  intros Hm. unfold clock_after. induction n as [|n IH].
  - cbn [Nat.iter]. unfold wrap32. rewrite Z.mul_0_r, Z.add_0_r.
    symmetry. apply Z.mod_small. exact Hm.
  - rewrite Nat.iter_succ, IH. unfold wrap32.
    rewrite Zplus_mod_idemp_l. f_equal. lia.
Qed.

Lemma imap_snoc {A B} (f : nat -> A -> B) (l : list A) (x : A) :
  imap f (l ++ [x]) = imap f l ++ [f (length l) x].
Proof. rewrite imap_app. cbn. rewrite Nat.add_0_r. reflexivity. Qed.

Lemma enabled_before_S (table : list ShelfConfig) (k : nat) (c : ShelfConfig) :
  table !! k = Some c ->
  enabled_before table (S k)
  = (enabled_before table k + if enabled c then 1 else 0)%nat.
Proof.
  intros Hc. unfold enabled_before. rewrite (take_S_r _ _ _ Hc), filter_app, length_app.
  f_equal. destruct (enabled c) eqn:E.
  - rewrite filter_cons_True by exact E. reflexivity.
  - rewrite filter_cons_False by congruence. reflexivity.
Qed.

Lemma range_filter (v : Z) :
  (if (v <? 20) || (v >? 4000) then -1 else v) = (if valid_sample v then v else -1).
Proof.
  unfold valid_sample.
  destruct (Z.ltb_spec v 20), (Z.leb_spec 20 v), (Z.leb_spec v 4000),
    (Z.gtb_spec v 4000); cbn; try reflexivity; lia.
Qed.

(** The state after one scan. *)
Lemma scan_run (w : World) :
  wf w ->
  readAllShelfSensors w
  = Some (tt, set_millis
                (clock_after (enabled_before (shelfConfig w) 12) 35 (millis w))
                (set_distance (imap (scanned w) (shelfConfig w))
                   (set_ranging_log (ranging_log w ++ scan_log w) w))).
Proof.
  intros [Hc Hd]. unfold SHELF_COUNT in Hc, Hd.
  set (table := shelfConfig w).
  set (f := fun j c => if enabled c then [(Z.of_nat j, measured w j)] else []).
  pose (Inv := fun (k : nat) (_ : unit) (s : World) =>
    s = set_millis (clock_after (enabled_before table k) 35 (millis w))
          (set_distance (imap (scanned w) (take k table) ++ drop k (distance w))
             (set_ranging_log (ranging_log w ++ concat (imap f (take k table))) w))).
  destruct (for_acc_invariant Inv (Z.to_nat SHELF_COUNT) 0
              (fun i _ =>
                 let* c := shelfConfig_at i in
                 if negb (enabled c) then distance_store i (-1)
                 else
                   let* dist := MeasureInMillimeters i in
                   delay 35 >>
                   let dist := if (dist <? 20) || (dist >? 4000) then -1 else dist in
                   distance_store i dist) tt w)
    as ([] & w' & Hrun & Hw').
  - unfold Inv. cbn. rewrite app_nil_r. destruct w; reflexivity.
  - intros k [] s Hk Hs. rewrite Z.add_0_l.
    change (Z.to_nat SHELF_COUNT) with 12%nat in Hk.
    destruct (lookup_lt_is_Some_2 table k) as [c Hck]; [unfold table; lia|].
    destruct (lookup_lt_is_Some_2 (distance w) k) as [d Hdk]; [lia|].
    assert (Hlt : length (take k table) = k) by (rewrite length_take; unfold table; lia).
    assert (Hlen : length (imap (scanned w) (take k table)) = k)
      by (rewrite length_imap; exact Hlt).
    assert (Hlog : length (ranging_log s)
                   = (length (ranging_log w) + enabled_before table k)%nat).
    { rewrite Hs. cbn [ranging_log set_millis set_distance set_ranging_log].
      rewrite length_app. f_equal. apply concat_imap_length. }
    assert (Hstore : forall v s1,
               s1 = set_millis (millis s1) (set_ranging_log (ranging_log s1) s) ->
               distance_store (Z.of_nat k) v s1
               = Some (tt, set_distance
                             (imap (scanned w) (take k table) ++ v :: drop (S k) (distance w))
                             s1)).
    { intros v s1 Hs1.
      assert (Hds : distance s1 = imap (scanned w) (take k table) ++ drop k (distance w))
        by (rewrite Hs1, Hs; reflexivity).
      rewrite distance_store_Some.
      - rewrite Hds, Nat2Z.id. do 3 f_equal.
        replace k with (length (imap (scanned w) (take k table)) + 0)%nat at 1 by lia.
        rewrite insert_app_r. f_equal.
        rewrite (drop_S _ _ _ Hdk). reflexivity.
      - rewrite Hds, length_app, length_drop, Hlen. lia. }
    unfold bind at 1.
    rewrite (shelfConfig_at_Some s _ c)
      by (rewrite Hs, elem_at_of_nat; exact Hck).
    unfold Inv. rewrite (take_S_r _ _ _ Hck), !imap_snoc, Hlt, concat_app.
    rewrite (enabled_before_S _ _ _ Hck).
    unfold f at 2, scanned at 2. cbn [concat].
    destruct (enabled c) eqn:Hen; cbn [negb].
    + unfold MeasureInMillimeters.
      destruct (Z.leb_spec 0 (Z.of_nat k)); [|lia].
      destruct (Z.ltb_spec (Z.of_nat k) SHELF_COUNT); [|unfold SHELF_COUNT in *; lia].
      cbn [andb]. unfold delay. run. rewrite Hlog.
      assert (Hus : ultrasonic s = ultrasonic w) by (rewrite Hs; reflexivity).
      rewrite Hus. fold table. fold (measured w k). rewrite range_filter.
      rewrite Hstore by reflexivity.
      eexists tt, _. split; [reflexivity|].
      rewrite Hs. fields.
      rewrite app_nil_r, <- !app_assoc.
      replace (enabled_before table k + 1)%nat with (S (enabled_before table k)) by lia.
      unfold clock_after. rewrite Nat.iter_succ. reflexivity.
    + rewrite Hstore by (rewrite Hs; reflexivity).
      eexists tt, _. split; [reflexivity|].
      rewrite Hs. fields.
      rewrite !app_nil_r, <- !app_assoc, Nat.add_0_r. reflexivity.
  - transitivity (Some (tt, w')); [exact Hrun|]. unfold Inv in Hw'. rewrite Hw'.
    change (Z.to_nat SHELF_COUNT) with 12%nat.
    assert (Ht : take 12 table = table) by (apply take_ge; unfold table; lia).
    assert (Hdr : drop 12 (distance w) = []) by (apply drop_ge; lia).
    rewrite Ht, Hdr, app_nil_r. reflexivity.
Qed.

Lemma elem_of_concat_imap {A B} (F : nat -> A -> list B) (l : list A) (x : B) :
  x ∈ concat (imap F l) <-> exists j c, l !! j = Some c /\ x ∈ F j c.
Proof.
  revert F. induction l as [|a l IH]; intros F.
  - cbn. split; [intros H; inversion H | intros (j & c & H & _); discriminate].
  - rewrite imap_cons. cbn [concat]. rewrite elem_of_app, IH. split.
    + intros [H|(j & c & Hj & H)].
      * exists 0%nat, a. split; [reflexivity | exact H].
      * exists (S j), c. split; [exact Hj | exact H].
    + intros ([|j] & c & Hj & H).
      * left. cbn in Hj. injection Hj as ->. exact H.
      * right. exists j, c. split; [exact Hj | exact H].
Qed.

(** Entries made for the enabled slots come in the order of the slots. *)
Lemma concat_imap_ordered {B} (key : B -> Z) (h : nat -> ShelfConfig -> B)
    (l : list ShelfConfig) :
  forall o : nat,
    (forall j c, key (h j c) = Z.of_nat (o + j)) ->
    let log := concat (imap (fun j c => if enabled c then [h j c] else []) l) in
    Forall (fun x => Z.of_nat o <= key x) log /\
    (forall a b x y, (a < b)%nat -> log !! a = Some x -> log !! b = Some y ->
                     key x < key y).
Proof.
  revert h. induction l as [|c l IH]; intros h o Hkey log.
  - subst log. cbn. split; [constructor|]. intros a b x y _ H. discriminate.
  - subst log. rewrite imap_cons. cbn [concat].
    rewrite (imap_ext _ (fun j c => if enabled c then [h (S j) c] else []))
      by (intros; reflexivity).
    destruct (IH (fun j => h (S j)) (S o)) as [Hlow Hord].
    { intros j c'. rewrite Hkey. f_equal. lia. }
    set (rest := concat _) in *.
    assert (Hlow' : Forall (fun x => Z.of_nat o <= key x) rest).
    { eapply Forall_impl; [exact Hlow|]. cbn. intros x Hx. lia. }
    destruct (enabled c).
    + split.
      * constructor; [rewrite Hkey; lia | exact Hlow'].
      * intros [|a] [|b] x y Hab Hx Hy; try lia.
        -- cbn in Hx, Hy. injection Hx as <-. rewrite Hkey.
           rewrite Forall_forall in Hlow.
           assert (Z.of_nat (S o) <= key y); [|lia].
           apply Hlow. apply list_elem_of_lookup. eauto.
        -- cbn in Hx, Hy. apply (Hord a b); [lia | exact Hx | exact Hy].
    + split; [exact Hlow' | exact Hord].
Qed.

(** X5. One run of [readAllShelfSensors] triggers the sensor of every
    enabled slot exactly once, in the order of the slots, and the sensor
    of no disabled slot; it leaves in the cell of an enabled slot the
    value measured when that lies within [20 mm, 4000 mm] and -1
    otherwise, and -1 in the cell of a disabled slot, so that every cell
    holds -1 or a value of this range afterwards. It waits 35 ms per
    enabled slot and changes nothing but the samples, the clock and the
    log of the measurements. *)
Theorem scan_measures_enabled_slots (w : World) :
  wf w ->
  exists w',
    readAllShelfSensors w = Some (tt, w') /\
    w' = set_millis (millis w')
           (set_distance (distance w') (set_ranging_log (ranging_log w') w)) /\
    ranging_log w' = ranging_log w ++ scan_log w /\
    Z.of_nat (length (scan_log w)) = enabled_count (shelfConfig w) /\
    (forall i v, (i, v) ∈ scan_log w <->
       exists j c, i = Z.of_nat j /\ shelfConfig w !! j = Some c /\
                   enabled c = true /\ v = measured w j) /\
    (forall a b x y, (a < b)%nat -> scan_log w !! a = Some x ->
                     scan_log w !! b = Some y -> fst x < fst y) /\
    (forall j c, shelfConfig w !! j = Some c ->
       distance w' !! j
       = Some (if enabled c
               then (if valid_sample (measured w j) then measured w j else -1)
               else -1)) /\
    Forall (fun d => d = -1 \/ 20 <= d <= 4000) (distance w') /\
    (0 <= millis w < 2 ^ 32 ->
     millis w' = wrap32 (millis w + 35 * enabled_count (shelfConfig w))).
Proof.
  intros Hwf. rewrite (scan_run w Hwf). eexists. split; [reflexivity|].
  cbn [millis distance ranging_log set_millis set_distance set_ranging_log].
  split; [reflexivity|]. split; [reflexivity|].
  assert (Hcount : Z.of_nat (length (scan_log w)) = enabled_count (shelfConfig w)).
  { unfold scan_log, enabled_count. rewrite concat_imap_length. reflexivity. }
  split; [exact Hcount|]. split; [|split; [|split; [|split]]].
  - intros i v. unfold scan_log. rewrite elem_of_concat_imap. split.
    + intros (j & c & Hj & Hin). exists j, c.
      destruct (enabled c); [|inversion Hin].
      apply list_elem_of_singleton in Hin. injection Hin as -> ->. done.
    + intros (j & c & -> & Hj & Hen & ->). exists j, c. split; [exact Hj|].
      rewrite Hen. apply list_elem_of_singleton. reflexivity.
  - apply (concat_imap_ordered fst (fun j _ => (Z.of_nat j, measured w j))
             (shelfConfig w) 0).
    intros j c. reflexivity.
  - intros j c Hj. rewrite list_lookup_imap, Hj. reflexivity.
  - apply Forall_forall. intros d Hd.
    apply elem_of_lookup_imap in Hd as (j & c & -> & _).
    unfold scanned. destruct (enabled c); [|left; reflexivity].
    destruct (valid_sample (measured w j)) eqn:Hv; [|left; reflexivity].
    right. unfold valid_sample in Hv. lia.
  - intros Hm. rewrite clock_after_wrap by exact Hm. f_equal.
    destruct Hwf as [Hlen _]. unfold SHELF_COUNT in Hlen.
    unfold enabled_count, enabled_before.
    rewrite take_ge by lia. lia.
Qed.

(** A scan of the sketch with its first slot enabled: 198 mm is
    measured and stored for it, every other cell holds -1. *)
Lemma scan_measures_enabled_slots_witness :
  exists w1 w',
    setShelfEnabled 0 true scenario_world = Some (tt, w1) /\ wf w1 /\
    readAllShelfSensors w1 = Some (tt, w') /\
    ranging_log w' = [(0, 198)] /\
    distance w' = [198; -1; -1; -1; -1; -1; -1; -1; -1; -1; -1; -1].
Proof.
  pose proof (setShelfEnabled_Some scenario_world 0 (slot "A1" 4) true
                ltac:(unfold SHELF_COUNT; lia) eq_refl) as Hset.
  set (w1 := set_preferences _ _) in Hset.
  assert (Hwf : wf w1) by (split; reflexivity).
  destruct (scan_measures_enabled_slots w1 Hwf)
    as (w' & Hrun & _ & Hlog & _ & _ & _ & Hcell & _).
  exists w1, w'. split; [exact Hset|]. split; [exact Hwf|]. split; [exact Hrun|].
  split; [rewrite Hlog; reflexivity|].
  assert (E : snd <$> readAllShelfSensors w1
              = Some (set_distance [198; -1; -1; -1; -1; -1; -1; -1; -1; -1; -1; -1]
                        (set_millis 35 (set_ranging_log [(0, 198)] w1))))
    by reflexivity.
  rewrite Hrun in E. cbn in E. injection E as ->. reflexivity.
Defined.

End Scan_props.

(* ===================================================================== *)
(** ** What a round of sensor publications sends                         *)
(* ===================================================================== *)

Module Publication_props.
Import ArduinoString Firmware Shelf_facts Scan_facts Router_facts Scan_notions
       Scan_props.

Lemma world_eta (w : World) :
  set_millis (millis w) (set_outbox (outbox w) w) = w.
Proof. destruct w; reflexivity. Qed.

(** With both arrays in shape every slot has a sample. *)
Lemma sensor_publications_total (w : World) :
  wf w ->
  sensor_publications w
  = concat (imap (fun j c =>
                    if enabled c
                    then [sensor_publication w (Z.of_nat j) c
                            (default 0 (distance w !! j))]
                    else [])
                 (shelfConfig w)).
Proof.
  intros [Hc Hd]. unfold sensor_publications. f_equal. apply imap_ext.
  intros j c Hj. destruct (enabled c); [|reflexivity].
  apply lookup_lt_Some in Hj.
  destruct (lookup_lt_is_Some_2 (distance w) j) as [d Hdj]; [lia|].
  rewrite Hdj. reflexivity.
Qed.

(** The state after a round of publications with a session. *)
Lemma publishAllSensorData_online (w : World) :
  wf w -> mqtt_connected w = true ->
  publishAllSensorData w
  = Some (tt, set_millis
                (clock_after (enabled_before (shelfConfig w) 12) 100 (millis w))
                (set_outbox (outbox w ++ sensor_publications w) w)).
Proof.
  intros [Hc Hd] Hm. unfold SHELF_COUNT in Hc, Hd.
  set (table := shelfConfig w).
  set (g := fun j c =>
              if enabled c
              then match distance w !! j with
                   | Some d => [sensor_publication w (Z.of_nat j) c d]
                   | None => []
                   end
              else []).
  pose (Inv := fun (k : nat) (_ : unit) (s : World) =>
    s = set_millis (clock_after (enabled_before table k) 100 (millis w))
          (set_outbox (outbox w ++ concat (imap g (take k table))) w)).
  destruct (for_acc_invariant Inv (Z.to_nat SHELF_COUNT) 0
              (fun i _ =>
                 let* c := shelfConfig_at i in
                 if enabled c then publishSensorData i >> delay 100 else ret tt) tt w)
    as ([] & w' & Hrun & Hw').
  - unfold Inv. cbn. rewrite app_nil_r. destruct w; reflexivity.
  - intros k [] s Hk Hs. rewrite Z.add_0_l.
    change (Z.to_nat SHELF_COUNT) with 12%nat in Hk.
    destruct (lookup_lt_is_Some_2 table k) as [c Hck]; [unfold table; lia|].
    destruct (lookup_lt_is_Some_2 (distance w) k) as [d Hdk]; [lia|].
    assert (Hlt : length (take k table) = k) by (rewrite length_take; unfold table; lia).
    unfold bind at 1.
    rewrite (shelfConfig_at_Some s _ c)
      by (rewrite Hs, elem_at_of_nat; exact Hck).
    unfold Inv. rewrite (take_S_r _ _ _ Hck), imap_snoc, Hlt, concat_app.
    rewrite (enabled_before_S _ _ _ Hck).
    unfold g at 2. cbn [concat]. rewrite Hdk.
    destruct (enabled c) eqn:Hen.
    + unfold bind at 1.
      rewrite (publishSensorData_enabled s _ c d).
      * unfold delay, modify. eexists tt, _. split; [reflexivity|].
        unfold sensor_publication. rewrite Hs. fields.
        rewrite app_nil_r, <- !app_assoc.
        replace (enabled_before table k + 1)%nat with (S (enabled_before table k)) by lia.
        unfold clock_after. rewrite Nat.iter_succ. reflexivity.
      * rewrite Hs. exact Hm.
      * unfold SHELF_COUNT. lia.
      * rewrite Hs, elem_at_of_nat. exact Hck.
      * exact Hen.
      * rewrite Hs, elem_at_of_nat. exact Hdk.
    + eexists tt, s. split; [reflexivity|].
      rewrite Hs, !app_nil_r, Nat.add_0_r. reflexivity.
  - unfold publishAllSensorData. unfold bind at 1, gets at 1. rewrite Hm. cbn [negb].
    transitivity (Some (tt, w')); [exact Hrun|]. unfold Inv in Hw'. rewrite Hw'.
    change (Z.to_nat SHELF_COUNT) with 12%nat.
    assert (Ht : take 12 table = table) by (apply take_ge; unfold table; lia).
    rewrite Ht. reflexivity.
Qed.

Lemma publishAllSensorData_offline (w : World) :
  mqtt_connected w = false -> publishAllSensorData w = Some (tt, w).
Proof. intros Hm. unfold publishAllSensorData. run. rewrite Hm. reflexivity. Qed.

Lemma sensor_publications_length (w : World) :
  wf w ->
  Z.of_nat (length (sensor_publications w)) = enabled_count (shelfConfig w).
Proof.
  intros Hwf. rewrite (sensor_publications_total w Hwf), concat_imap_length.
  reflexivity.
Qed.

Lemma sensor_publications_elem (w : World) (p : Publication) :
  p ∈ sensor_publications w <->
  exists j c d, shelfConfig w !! j = Some c /\ enabled c = true /\
                distance w !! j = Some d /\
                p = sensor_publication w (Z.of_nat j) c d.
Proof.
  unfold sensor_publications. rewrite elem_of_concat_imap. split.
  - intros (j & c & Hj & Hin). exists j, c.
    destruct (enabled c); [|inversion Hin].
    destruct (distance w !! j) as [d|]; [|inversion Hin].
    exists d. apply list_elem_of_singleton in Hin. done.
  - intros (j & c & d & Hj & Hen & Hdj & ->). exists j, c. split; [exact Hj|].
    rewrite Hen, Hdj. apply list_elem_of_singleton. reflexivity.
Qed.

(** X6. With a session to the broker, [publishAllSensorData] sends
    exactly one sensor message for every enabled slot, in the order of
    the slots, each with the sample the slot holds, and none for a
    disabled slot; it waits 100 ms after each message and changes
    nothing else. Without a session it does nothing at all. *)
Theorem publishAllSensorData_sends_enabled_slots (w : World) :
  wf w ->
  exists w',
    publishAllSensorData w = Some (tt, w') /\
    w' = set_millis (millis w') (set_outbox (outbox w') w) /\
    (mqtt_connected w = false -> w' = w) /\
    (mqtt_connected w = true ->
       outbox w' = outbox w ++ sensor_publications w /\
       (0 <= millis w < 2 ^ 32 ->
        millis w' = wrap32 (millis w + 100 * enabled_count (shelfConfig w)))) /\
    Z.of_nat (length (sensor_publications w)) = enabled_count (shelfConfig w) /\
    (forall p, p ∈ sensor_publications w <->
       exists j c d, shelfConfig w !! j = Some c /\ enabled c = true /\
                     distance w !! j = Some d /\
                     p = sensor_publication w (Z.of_nat j) c d).
Proof.
  intros Hwf.
  pose proof (sensor_publications_length w Hwf) as Hlen.
  pose proof (sensor_publications_elem w) as Hmem.
  destruct (mqtt_connected w) eqn:Hm.
  - rewrite (publishAllSensorData_online w Hwf Hm). eexists. split; [reflexivity|].
    cbn [millis outbox set_millis set_outbox].
    split; [reflexivity|]. split; [discriminate|]. split; [|split; [exact Hlen | exact Hmem]].
    intros _. split; [reflexivity|].
    intros Hr. rewrite clock_after_wrap by exact Hr. f_equal.
    destruct Hwf as [Hl _]. unfold SHELF_COUNT in Hl.
    unfold enabled_count, enabled_before. rewrite take_ge by lia. lia.
  - exists w. split.
    + apply publishAllSensorData_offline. exact Hm.
    + split; [symmetry; apply world_eta|]. split; [reflexivity|].
      split; [discriminate|]. split; [exact Hlen | exact Hmem].
Qed.

(** The sketch after its first slot was enabled and scanned: one
    message, for the slot A1. *)
Lemma publishAllSensorData_sends_enabled_slots_witness :
  exists w1 w2 w',
    setShelfEnabled 0 true scenario_world = Some (tt, w1) /\
    readAllShelfSensors w1 = Some (tt, w2) /\ wf w2 /\
    publishAllSensorData w2 = Some (tt, w') /\
    payload <$> outbox w'
    = [ "{" +:+ member_q "device_id" "ESP32S3_TEST" +:+ "," +:+
        member_q "shelf_id" "A1" +:+ "," +:+ member "index" "0" +:+ "," +:+
        member "distance_cm" "19.8" +:+ "," +:+ member "enabled" "true" +:+ "}" ].
Proof.
  pose proof (setShelfEnabled_Some scenario_world 0 (slot "A1" 4) true
                ltac:(unfold SHELF_COUNT; lia) eq_refl) as Hset.
  set (w1 := set_preferences _ _) in Hset.
  assert (Hwf1 : wf w1) by (split; reflexivity).
  pose proof (scan_run w1 Hwf1) as Hscan.
  set (w2 := set_millis _ _) in Hscan.
  assert (Hwf2 : wf w2) by (split; reflexivity).
  destruct (publishAllSensorData_sends_enabled_slots w2 Hwf2)
    as (w' & Hrun & _ & _ & Hon & _).
  destruct (Hon eq_refl) as [Hout _].
  exists w1, w2, w'. split; [exact Hset|]. split; [exact Hscan|].
  split; [exact Hwf2|]. split; [exact Hrun|].
  rewrite Hout. vm_compute. reflexivity.
Defined.

End Publication_props.

(* ===================================================================== *)
(** ** The text of a sensor message                                      *)
(* ===================================================================== *)

Module Sensor_text_props.
Import ArduinoString Firmware Shelf_facts Scan_facts Router_facts Scan_notions
       Scan_props Publication_props.

Lemma substring_all (s : string) :
  forall n : nat, (String.length s <= n)%nat -> String.substring 0 n s = s.
Proof.
  induction s as [|a s IH]; intros [|n] H; cbn in *; try reflexivity; try lia.
  f_equal. apply IH. lia.
Qed.

Lemma q_length (s : string) : String.length (q s) = (String.length s + 2)%nat.
Proof. unfold q. rewrite !append_length. cbn. lia. Qed.

Lemma sensor_text_length (dev : string) (c : ShelfConfig) (i : Z) (txt : string) :
  String.length (sensor_text dev c i txt)
  = (69 + String.length dev + String.length (id c)
     + String.length (of_int i) + String.length txt)%nat.
Proof.
  unfold sensor_text, member, member_q.
  rewrite !append_length, !q_length. cbn. lia.
Qed.

(** The samples of the valid range, checked one by one. *)
Lemma exact_everywhere :
  forallb exact_at (map Z.of_nat (seq 20 3981)) = true.
Proof. vm_compute. reflexivity. Qed.

Lemma exact_in_range (d : Z) :
  20 <= d <= 4000 ->
  Float32.printf_f 1 (Float32.tenth_of d) = one_decimal d /\
  (String.length (one_decimal d) <= 5)%nat.
Proof.
  intros Hd. pose proof exact_everywhere as H.
  rewrite forallb_forall in H. specialize (H d).
  assert (Hin : In d (map Z.of_nat (seq 20 3981))).
  { apply in_map_iff. exists (Z.to_nat d). split; [lia|]. apply in_seq. lia. }
  apply H in Hin. unfold exact_at in Hin.
  apply andb_true_iff in Hin as [H1 H2].
  apply String.eqb_eq in H1. apply Nat.leb_le in H2. split; assumption.
Qed.

Lemma index_text_length (j : nat) :
  (j < 12)%nat -> (String.length (of_int (Z.of_nat j)) <= 2)%nat.
Proof.
  intros H. do 12 (destruct j as [|j]; [vm_compute; lia|]). lia.
Qed.

(** The text of the sample a scan stores for a slot. *)
Lemma sample_text (dev : string) (c : ShelfConfig) (j : nat) (v : Z) :
  (j < 12)%nat ->
  (String.length dev + String.length (id c) <= 179)%nat ->
  sensor_json dev c (Z.of_nat j) (if valid_sample v then v else -1)
  = sensor_text dev c (Z.of_nat j) (if valid_sample v then one_decimal v else "-0.1").
Proof.
  intros Hj Hlen. pose proof (index_text_length j Hj) as Hidx.
  change (sensor_json dev c (Z.of_nat j) (if valid_sample v then v else -1))
    with (String.substring 0 255
            (sensor_text dev c (Z.of_nat j)
               (Float32.printf_f 1
                  (Float32.tenth_of (if valid_sample v then v else -1))))).
  destruct (valid_sample v) eqn:Hv.
  - unfold valid_sample in Hv.
    destruct (exact_in_range v ltac:(lia)) as [-> Hfive].
    apply substring_all. rewrite sensor_text_length. lia.
  - assert (E : Float32.printf_f 1 (Float32.tenth_of (-1)) = "-0.1")
      by (vm_compute; reflexivity).
    rewrite E. apply substring_all. rewrite sensor_text_length. cbn. lia.
Qed.

(** X7. What a scan cycle publishes with a session to the broker, when
    the identity of the device and the name of a slot have at most 179
    characters together (the identities of the sketch have at most 24,
    its names 2): for every enabled slot, and for these only, one
    message on shelf/sensor, not retained, that fits the 256 byte buffer
    uncut; its distance_cm is the value just measured, in centimeters
    with the digit of the millimeters, when that lies within
    [20 mm, 4000 mm], and -0.1 otherwise: the sentinel -1 is divided by
    ten like a sample. *)
Theorem scan_cycle_payloads (w : World) :
  wf w ->
  mqtt_connected w = true ->
  (forall c, c ∈ shelfConfig w ->
     (String.length (device_id w) + String.length (id c) <= 179)%nat) ->
  exists w' sent,
    scan_cycle w = Some (tt, w') /\
    outbox w' = outbox w ++ sent /\
    Z.of_nat (length sent) = enabled_count (shelfConfig w) /\
    (forall p, p ∈ sent <->
       exists j c, shelfConfig w !! j = Some c /\ enabled c = true /\
         p = {| topic := "shelf/sensor";
                payload := sensor_text (device_id w) c (Z.of_nat j)
                             (if valid_sample (measured w j)
                              then one_decimal (measured w j) else "-0.1");
                retained := false |}).
Proof.
  intros Hwf Hm Hlen.
  pose proof (scan_run w Hwf) as Hscan.
  set (w2 := set_millis _ _) in Hscan.
  assert (Hwf2 : wf w2).
  { destruct Hwf as [H1 H2]. split; [exact H1|].
    unfold w2. cbn [distance set_millis set_distance]. rewrite length_imap. exact H1. }
  assert (Hm2 : mqtt_connected w2 = true) by exact Hm.
  pose proof (publishAllSensorData_online w2 Hwf2 Hm2) as Hrun.
  pose proof (sensor_publications_length w2 Hwf2) as Hcount.
  eexists _, (sensor_publications w2).
  split.
  { unfold scan_cycle, isMQTTConnected. unfold bind at 1. rewrite Hscan.
    unfold bind at 1, gets at 1. rewrite Hm2. exact Hrun. }
  split; [reflexivity|]. split; [exact Hcount|].
  intros p. rewrite sensor_publications_elem. split.
    + intros (j & c & d & Hj & Hen & Hd & ->). exists j, c.
      split; [exact Hj|]. split; [exact Hen|].
      unfold w2 in Hd. cbn [distance set_millis set_distance] in Hd.
      change (shelfConfig w2) with (shelfConfig w) in Hj.
      rewrite list_lookup_imap, Hj in Hd. cbn in Hd. injection Hd as <-.
      unfold scanned. rewrite Hen. unfold sensor_publication. f_equal.
      change (device_id w2) with (device_id w).
      apply sample_text.
      * apply lookup_lt_Some in Hj. destruct Hwf as [H1 _].
        unfold SHELF_COUNT in H1. lia.
      * apply Hlen. apply list_elem_of_lookup. eauto.
    + intros (j & c & Hj & Hen & ->). exists j, c, (scanned w j c).
      split; [exact Hj|]. split; [exact Hen|]. split.
      * unfold w2. cbn [distance set_millis set_distance].
        rewrite list_lookup_imap. change (shelfConfig w2) with (shelfConfig w) in *.
        rewrite Hj. reflexivity.
      * unfold scanned. rewrite Hen. unfold sensor_publication. f_equal.
        change (device_id w2) with (device_id w). symmetry.
        apply sample_text.
        -- apply lookup_lt_Some in Hj. destruct Hwf as [H1 _].
           unfold SHELF_COUNT in H1. lia.
        -- apply Hlen. apply list_elem_of_lookup. eauto.
Qed.

(** The sketch with its slot A2 enabled and a sensor that answers 0:
    the scan cycle publishes -0.1 for it. *)
Lemma scan_cycle_payloads_witness :
  exists w1 w',
    setShelfEnabled 1 true silent_world = Some (tt, w1) /\ wf w1 /\
    mqtt_connected w1 = true /\
    scan_cycle w1 = Some (tt, w') /\
    payload <$> outbox w'
    = [ sensor_text "ESP32S3_TEST" (slot "A2" 5) 1 "-0.1" ].
Proof.
  pose proof (setShelfEnabled_Some silent_world 1 (slot "A2" 5) true
                ltac:(unfold SHELF_COUNT; lia) eq_refl) as Hset.
  set (w1 := set_preferences _ _) in Hset.
  assert (Hwf1 : wf w1) by (split; reflexivity).
  destruct (scan_cycle_payloads w1 Hwf1 eq_refl) as (w' & sent & Hrun & Hout & _).
  - intros c Hc. apply list_elem_of_In in Hc. cbn in Hc.
    repeat (destruct Hc as [<-|Hc]; [vm_compute; lia|]). destruct Hc.
  - exists w1, w'. split; [exact Hset|]. split; [exact Hwf1|]. split; [reflexivity|].
    split; [exact Hrun|].
    assert (E : (fun s => payload <$> outbox (snd s)) <$> scan_cycle w1
                = Some [ sensor_text "ESP32S3_TEST" (slot "A2" 5) 1 "-0.1" ])
      by (vm_compute; reflexivity).
    rewrite Hrun in E. cbn in E. injection E as E. exact E.
Defined.

End Sensor_text_props.

(* ===================================================================== *)
(** ** The status message                                                *)
(* ===================================================================== *)

Module Status_props.
Import ArduinoString Firmware Shelf_facts Scan_facts Router_facts
       Command_router_spec Scan_notions.

(** The status message of [w], exactly. *)
Lemma publishSystemStatus_exact (w : World) :
  wf w ->
  publishSystemStatus w
  = Some (tt, if mqtt_connected w
              then set_outbox (outbox w ++ [status_publication w]) w
              else w).
Proof.
  intros Hwf. unfold publishSystemStatus. unfold bind at 1, gets at 1.
  destruct (mqtt_connected w) eqn:Hm; cbn [negb]; [|reflexivity].
  unfold bind at 1, gets at 1. unfold bind at 1.
  rewrite getEnabledShelfCount_run by exact Hwf.
  unfold mqttClient_publish, modify. rewrite Hm. reflexivity.
Qed.

Lemma enabled_count_app (l1 l2 : list ShelfConfig) :
  enabled_count (l1 ++ l2) = enabled_count l1 + enabled_count l2.
Proof. unfold enabled_count. rewrite filter_app, length_app. lia. Qed.

Lemma enabled_count_cons (c : ShelfConfig) (l : list ShelfConfig) :
  enabled_count (c :: l) = Z.b2z (enabled c) + enabled_count l.
Proof.
  unfold enabled_count. destruct (enabled c) eqn:E.
  - rewrite filter_cons_True by exact E. cbn [length Z.b2z]. lia.
  - rewrite filter_cons_False by congruence. cbn [Z.b2z]. lia.
Qed.

(** Setting the flag of one slot moves the count by at most one. *)
Lemma enabled_count_insert (table : list ShelfConfig) (i : nat) (c : ShelfConfig)
    (v : bool) :
  table !! i = Some c ->
  enabled_count (<[i := set_enabled v c]> table)
  = enabled_count table + Z.b2z v - Z.b2z (enabled c).
Proof.
  intros Hc. pose proof (lookup_lt_Some _ _ _ Hc) as Hlt.
  rewrite <- (take_drop_middle table i c Hc) at 2.
  rewrite insert_take_drop by exact Hlt.
  rewrite !enabled_count_app, !enabled_count_cons. cbn [enabled set_enabled]. lia.
Qed.

(** X8. The status message tells the truth about the slots. The command
    status, in any case and with blanks around it, is answered with a
    session by one message on shelf/status that reports the identity of
    the device, the state of the Wi-Fi link, the clock, 12 slots and the
    number of slots that are enabled; without a session by nothing. The
    message that follows an enable or a disable of a known slot reports
    the count after the change, which differs from the count before by
    the change of that one flag. *)
Theorem status_reports_enabled_slots (w : World) :
  wf w ->
  (forall cmd : string, c_str (toLowerCase (trim cmd)) = "status" ->
     handleMQTTCommand cmd w
     = Some (tt, if mqtt_connected w
                 then set_outbox (outbox w ++ [status_publication w]) w
                 else w)) /\
  (forall (cmd : string) (v : bool),
     startsWith (toLowerCase (trim cmd)) (if v then "enable " else "disable ") = true ->
     let name :=
       c_str (toUpperCase (trim (substring_from (if v then 7 else 8) (trim cmd)))) in
     let i := position_of name (shelfConfig w) in
     0 <= i ->
     exists c w',
       elem_at (shelfConfig w) i = Some c /\
       handleMQTTCommand cmd w = Some (tt, w') /\
       enabled_count (shelfConfig w')
       = enabled_count (shelfConfig w) + Z.b2z v - Z.b2z (enabled c) /\
       outbox w' = outbox w ++ (if mqtt_connected w then [status_publication w'] else [])) /\
  payload (status_publication w)
  = "{" +:+ member_q "device_id" (device_id w) +:+ "," +:+
    member_q "wifi" (if wifi_connected w then "connected" else "disconnected") +:+
    "," +:+ member_q "mqtt" "connected" +:+
    "," +:+ member "uptime_ms" (of_int (millis w)) +:+
    "," +:+ member "shelf_count" "12" +:+
    "," +:+ member "enabled_shelf_count"
              (of_int (Z.of_nat (length (filter (fun c => enabled c = true)
                                                (shelfConfig w))))) +:+ "}".
Proof.
  intros Hwf. split; [|split; [|reflexivity]].
  - intros cmd Hcmd. unfold handleMQTTCommand. cbv zeta. rewrite Hcmd.
    change (equals "status" "status") with true. cbv iota.
    apply publishSystemStatus_exact. exact Hwf.
  - intros cmd v Hverb name i Hi.
    pose proof (position_of_range name (shelfConfig w)) as Hr.
    destruct (position_of_found name (shelfConfig w) i eq_refl Hi) as (c & Hc & Hid).
    rewrite (handle_switch w cmd v Hwf Hverb). cbv zeta. fold name. fold i.
    destruct (Z.geb_spec i 0); [|lia].
    unfold bind at 1.
    assert (Hlt : i < SHELF_COUNT)
      by (pose proof (elem_at_lt _ _ _ Hc); destruct Hwf; lia).
    rewrite (setShelfEnabled_Some w i c v Hlt Hc).
    set (w1 := set_preferences _ _).
    assert (Hwf1 : wf w1).
    { destruct Hwf as [H1 H2]. split; unfold w1;
        cbn [shelfConfig distance set_preferences set_shelfConfig];
        [rewrite length_insert|]; assumption. }
    rewrite (publishSystemStatus_exact w1 Hwf1).
    change (mqtt_connected w1) with (mqtt_connected w).
    assert (Hcount : enabled_count (shelfConfig w1)
                     = enabled_count (shelfConfig w) + Z.b2z v - Z.b2z (enabled c)).
    { unfold w1. cbn [shelfConfig set_preferences set_shelfConfig].
      apply enabled_count_insert. apply elem_at_Some in Hc as [_ Hc]. exact Hc. }
    destruct (mqtt_connected w).
    + exists c. eexists. split; [exact Hc|]. split; [reflexivity|].
      cbn [shelfConfig outbox set_outbox]. split; [exact Hcount|].
      reflexivity.
    + exists c, w1. split; [exact Hc|]. split; [reflexivity|].
      split; [exact Hcount|]. rewrite app_nil_r. reflexivity.
Qed.

(** The sketch at boot answers the command STATUS with a count of 0,
    and the command enable a1 with a count of 1. *)
Lemma status_reports_enabled_slots_witness :
  wf scenario_world /\
  (exists w', handleMQTTCommand " STATUS " scenario_world = Some (tt, w') /\
              payload <$> outbox w' = [status_json scenario_world 0]) /\
  (exists w', handleMQTTCommand "enable a1" scenario_world = Some (tt, w') /\
              payload <$> outbox w' = [status_json scenario_world 1]).
Proof.
  assert (Hwf : wf scenario_world) by (split; reflexivity).
  destruct (status_reports_enabled_slots scenario_world Hwf) as (Hstatus & Hswitch & _).
  split; [exact Hwf|]. split.
  - eexists. split; [apply Hstatus; reflexivity|]. reflexivity.
  - destruct (Hswitch "enable a1" true eq_refl) as (c & w' & Hc & Hrun & Hcount & Hout).
    + vm_compute. discriminate.
    + exists w'. split; [exact Hrun|]. rewrite Hout.
      change (mqtt_connected scenario_world) with true. cbv iota.
      cbn [fmap list_fmap]. unfold status_publication. cbn [payload].
      rewrite Hcount.
      assert (Hc0 : elem_at (shelfConfig scenario_world)
                      (position_of
                         (c_str (toUpperCase (trim (substring_from 7 (trim "enable a1")))))
                         (shelfConfig scenario_world)) = Some (slot "A1" 4))
        by reflexivity.
      rewrite Hc0 in Hc. injection Hc as <-.
      assert (Hw' : device_id w' = device_id scenario_world /\
                    wifi_connected w' = wifi_connected scenario_world /\
                    millis w' = millis scenario_world).
      { assert (E : (fun s => (device_id (snd s), wifi_connected (snd s), millis (snd s)))
                      <$> handleMQTTCommand "enable a1" scenario_world
                    = Some (device_id scenario_world, wifi_connected scenario_world,
                            millis scenario_world)) by (vm_compute; reflexivity).
        rewrite Hrun in E. cbn in E. injection E as E1 E2 E3. done. }
      destruct Hw' as (E1 & E2 & E3).
      unfold status_json. rewrite E1, E2, E3. reflexivity.
Defined.

End Status_props.

(* ===================================================================== *)
(** ** What every handler keeps                                          *)
(* ===================================================================== *)

Module Frame_props.
Import ArduinoString Firmware String_facts Shelf_facts Calibration_facts
       Slot_store_spec Scan_facts Router_facts Command_router_spec Config_request_spec
       Reachable_states Scan_notions Frame_notions Flash_store_props Scan_props
       Publication_props Status_props.

Lemma same_slots_refl (w : World) : same_slots w w.
Proof. split; reflexivity. Qed.

Lemma same_slots_trans (w1 w2 w3 : World) :
  same_slots w1 w2 -> same_slots w2 w3 -> same_slots w1 w3.
Proof. intros [H1 H2] [H3 H4]. split; congruence. Qed.

(** Writing the flag or the length of a slot keeps names and pins. *)
Lemma same_slots_insert (w w' : World) (i : nat) (c c' : ShelfConfig) :
  shelfConfig w !! i = Some c -> id c' = id c -> pin c' = pin c ->
  shelfConfig w' = <[i := c']> (shelfConfig w) ->
  same_slots w w'.
Proof.
  intros Hc Hid Hpin Hw'. unfold same_slots. rewrite Hw'.
  split; rewrite list_fmap_insert.
  - apply list_insert_id. rewrite list_lookup_fmap, Hc, Hid. reflexivity.
  - apply list_insert_id. rewrite list_lookup_fmap, Hc, Hpin. reflexivity.
Qed.

Lemma handled_nothing (w : World) : handled w w [].
Proof.
  split; [apply same_slots_refl|]. split.
  - split; [rewrite app_nil_r; reflexivity|]. split; [reflexivity | constructor].
  - repeat split; try reflexivity. left. reflexivity.
Qed.

(** One guarded publication. *)
Lemma handled_publish (w : World) (p : Publication) :
  retained p = false ->
  handled w (if mqtt_connected w then set_outbox (outbox w ++ [p]) w else w)
            (if mqtt_connected w then [p] else []).
Proof.
  intros Hp. destruct (mqtt_connected w) eqn:Hm; [|apply handled_nothing].
  split; [split; reflexivity|]. split.
  - split; [reflexivity|]. split; [congruence|]. constructor; [exact Hp | constructor].
  - repeat split; try reflexivity; try exact Hm. left. reflexivity.
Qed.

Lemma handled_trans (w1 w2 w3 : World) (s1 s2 : list Publication) :
  handled w1 w2 s1 -> handled w2 w3 s2 -> handled w1 w3 (s1 ++ s2).
Proof.
  intros (Hs1 & (Ho1 & Hoff1 & Hr1) & Hm1 & Hw1 & Hd1 & Hx1)
         (Hs2 & (Ho2 & Hoff2 & Hr2) & Hm2 & Hw2 & Hd2 & Hx2).
  split; [eapply same_slots_trans; eassumption|]. split.
  - split; [rewrite Ho2, Ho1, app_assoc; reflexivity|]. split.
    + intros Hoff. rewrite Hoff1 by exact Hoff.
      rewrite Hoff2 by congruence. reflexivity.
    + apply Forall_app. split; assumption.
  - repeat split; try congruence.
    destruct Hx2 as [Hx2|Hx2]; [|right; exact Hx2].
    destruct Hx1 as [Hx1|Hx1]; [left; congruence|].
    right. rewrite Hx2. exact Hx1.
Qed.

Lemma scanned_ok (w : World) : Forall sound (imap (scanned w) (shelfConfig w)).
Proof.
  apply Forall_forall. intros d Hd.
  apply elem_of_lookup_imap in Hd as (j & c & -> & _).
  unfold scanned, sound. destruct (enabled c); [|left; reflexivity].
  destruct (valid_sample (measured w j)) eqn:Hv; [|left; reflexivity].
  right. unfold valid_sample in Hv. lia.
Qed.

Lemma sound_ok (l : list Z) : Forall sound l -> Forall sample_ok l.
Proof.
  intros H. apply (Forall_impl _ _ _ H).
  intros d [Hd|Hd]; [right; left; exact Hd | right; right; exact Hd].
Qed.

(** A scan followed by a round of publications. *)
Lemma scan_then_publish (w : World) :
  wf w ->
  exists w' sent,
    (readAllShelfSensors >> publishAllSensorData) w = Some (tt, w') /\
    handled w w' sent /\ Forall sound (distance w') /\
    preferences w' = preferences w /\
    length (shelfConfig w') = length (shelfConfig w) /\
    length (distance w') = length (distance w).
Proof.
  intros Hwf. pose proof (scan_run w Hwf) as Hscan.
  set (w2 := set_millis _ _) in Hscan.
  assert (Hwf2 : wf w2).
  { destruct Hwf as [H1 H2]. split; [exact H1|].
    unfold w2. cbn [distance set_millis set_distance]. rewrite length_imap. exact H1. }
  unfold bind at 1. rewrite Hscan.
  assert (Hlen2 : length (imap (scanned w) (shelfConfig w)) = length (distance w))
    by (rewrite length_imap; destruct Hwf as [H1 H2]; lia).
  destruct (mqtt_connected w) eqn:Hm.
  - rewrite (publishAllSensorData_online w2 Hwf2 Hm).
    eexists _, (sensor_publications w2). split; [reflexivity|].
    split; [|split; [apply scanned_ok|]].
    + split; [split; reflexivity|]. split; [|repeat split].
      * split; [reflexivity|]. split; [congruence|].
        apply Forall_forall. intros p Hp.
        apply sensor_publications_elem in Hp as (j & c & d & _ & _ & _ & ->).
        reflexivity.
      * right. apply scanned_ok.
    + split; [reflexivity|]. split; [reflexivity | exact Hlen2].
  - rewrite (publishAllSensorData_offline w2 Hm).
    exists w2, []. split; [reflexivity|].
    split; [|split; [apply scanned_ok|]].
    + split; [split; reflexivity|]. split; [|repeat split].
      * split; [rewrite app_nil_r; reflexivity|]. split; [reflexivity | constructor].
      * right. apply scanned_ok.
    + split; [reflexivity|]. split; [reflexivity | exact Hlen2].
Qed.

(** Every command is handled within the frame. *)
Lemma handleMQTTCommand_handled (w : World) (msg : string) :
  wf w ->
  exists w' sent, handleMQTTCommand msg w = Some (tt, w') /\ handled w w' sent.
Proof.
  intros Hwf. unfold handleMQTTCommand. cbv zeta.
  destruct (equals (c_str (toLowerCase (trim msg))) "status").
  { rewrite (publishSystemStatus_exact w Hwf). eexists _, _. split; [reflexivity|].
    apply handled_publish. reflexivity. }
  destruct (equals (c_str (toLowerCase (trim msg))) "read").
  { destruct (scan_then_publish w Hwf) as (w' & sent & Hrun & Hh & _).
    exists w', sent. split; [exact Hrun | exact Hh]. }
  assert (Hswitch : forall v name,
    exists w' sent,
      (let* idx := getShelfIndexById name in
       if idx >=? 0 then setShelfEnabled idx v >> publishSystemStatus
       else ret tt) w = Some (tt, w') /\ handled w w' sent).
  { intros v name. unfold bind at 1. rewrite getShelfIndexById_run by exact Hwf.
    pose proof (position_of_range name (shelfConfig w)) as Hr.
    destruct (Z.geb_spec (position_of name (shelfConfig w)) 0) as [Hi|Hi].
    - destruct (position_of_found name (shelfConfig w) _ eq_refl Hi) as (c & Hc & _).
      unfold bind at 1.
      rewrite (setShelfEnabled_Some w _ c v) by (destruct Hwf; lia || exact Hc).
      set (w1 := set_preferences _ _).
      assert (Hwf1 : wf w1).
      { destruct Hwf as [H1 H2]. split; unfold w1;
          cbn [shelfConfig distance set_preferences set_shelfConfig];
          [rewrite length_insert|]; assumption. }
      rewrite (publishSystemStatus_exact w1 Hwf1). eexists _, _.
      split; [reflexivity|].
      change (if mqtt_connected w1
              then [status_publication w1] else [])
        with ([] ++ if mqtt_connected w1 then [status_publication w1] else []).
      apply (handled_trans w w1).
      + split; [|split; [|repeat split; try reflexivity; left; reflexivity]].
        * apply elem_at_Some in Hc as [_ Hc].
          eapply same_slots_insert; [exact Hc | | | reflexivity]; reflexivity.
        * split; [rewrite app_nil_r; reflexivity|]. split; [reflexivity | constructor].
      + apply handled_publish. reflexivity.
    - exists w, []. split; [reflexivity | apply handled_nothing]. }
  destruct (startsWith (toLowerCase (trim msg)) "enable "); [apply Hswitch|].
  destruct (startsWith (toLowerCase (trim msg)) "disable "); [apply Hswitch|].
  destruct (startsWith (toLowerCase (trim msg)) "calibrate ").
  { unfold bind at 1. rewrite getShelfIndexById_run by exact Hwf.
    set (name := c_str (toUpperCase (trim (substring_from 10 (trim msg))))).
    pose proof (position_of_range name (shelfConfig w)) as Hr.
    assert (Hpub : forall w1 len ok,
              handled w w1 [] ->
              exists w' sent, publishCalibrateResult name len ok w1 = Some (tt, w') /\
                              handled w w' sent).
    { intros w1 len ok Hh. rewrite publishCalibrateResult_run.
      eexists _, ([] ++ if mqtt_connected w1 then [_] else []).
      split; [reflexivity|].
      apply (handled_trans w w1); [exact Hh |].
      pose proof (handled_publish w1
                      {| topic := device_calibrate_response_topic w1;
                         payload := calibrate_json (device_id w1) name len ok;
                         retained := false |} eq_refl) as Hp.
      destruct (mqtt_connected w1); [exact Hp|].
      rewrite app_nil_r. rewrite set_outbox_same. exact Hp. }
    destruct (Z.geb_spec (position_of name (shelfConfig w)) 0) as [Hi|Hi].
    - destruct (position_of_found name (shelfConfig w) _ eq_refl Hi) as (c & Hc & _).
      assert (Hlt : position_of name (shelfConfig w) < SHELF_COUNT)
        by (destruct Hwf; lia).
      destruct (calibrateShelf_run w (position_of name (shelfConfig w)) c Hlt Hc)
        as (t & Hrun).
      cbv zeta in Hrun. unfold bind at 1. rewrite Hrun.
      destruct (_ <? 5); apply Hpub.
      + split; [split; reflexivity|]. split.
        * split; [rewrite app_nil_r; reflexivity|]. split; [reflexivity | constructor].
        * repeat split; try reflexivity. left. reflexivity.
      + split; [|split].
        * apply elem_at_Some in Hc as [_ Hc].
          eapply same_slots_insert; [exact Hc | | | reflexivity]; reflexivity.
        * split; [rewrite app_nil_r; reflexivity|]. split; [reflexivity | constructor].
        * repeat split; try reflexivity. left. reflexivity.
    - apply Hpub. apply handled_nothing. }
  exists w, []. split; [reflexivity | apply handled_nothing].
Qed.

(** A configuration request is handled within the frame, and changes
    neither the table nor the flash store. *)
Lemma handleShelfConfigRequest_handled (w : World) (msg : string) :
  wf w ->
  exists w' sent,
    handleShelfConfigRequest msg w = Some (tt, w') /\ handled w w' sent /\
    preferences w' = preferences w /\ shelfConfig w' = shelfConfig w.
Proof.
  intros Hwf. rewrite (handleShelfConfigRequest_run w msg Hwf).
  destruct (_ && _).
  - exists w, []. split; [reflexivity|]. split; [apply handled_nothing|].
    split; reflexivity.
  - eexists _, _. split; [reflexivity|]. split; [apply handled_publish; reflexivity|].
    destruct (mqtt_connected w); split; reflexivity.
Qed.

(** The scan cycle stays within the frame, and leaves sound samples. *)
Lemma scan_cycle_handled (w : World) :
  wf w ->
  exists w' sent,
    scan_cycle w = Some (tt, w') /\ handled w w' sent /\
    preferences w' = preferences w /\ Forall sound (distance w').
Proof.
  intros Hwf.
  destruct (scan_then_publish w Hwf) as (w' & sent & Hrun & Hh & Hok & Hp & _).
  unfold scan_cycle, isMQTTConnected.
  pose proof (scan_run w Hwf) as Hscan. set (w2 := set_millis _ _) in Hscan.
  unfold bind at 1 in Hrun. rewrite Hscan in Hrun.
  unfold bind at 1. rewrite Hscan. unfold bind at 1, gets at 1.
  destruct (mqtt_connected w2) eqn:Hm.
  - exists w', sent. split; [exact Hrun|]. split; [exact Hh|]. split; assumption.
  - assert (w' = w2).
    { rewrite (publishAllSensorData_offline w2 Hm) in Hrun. congruence. }
    subst w'. exists w2, sent. split; [reflexivity|]. split; [exact Hh|].
    split; assumption.
Qed.

(** X9. Whatever the command, the configuration request or the state
    of the links, a handler returns without a fault and stays within its
    frame: the slots keep their names and pins, the identity of the
    device and the state of the two links are not touched, the messages
    of the outbox are kept and new ones are added behind them, none of
    them retained, and none at all while there is no session with the
    broker; the samples are left alone or replaced by sound ones, the
    sentinel -1 or a distance within [20, 4000]. This
    holds for [handleMQTTCommand], for [handleShelfConfigRequest], which
    moreover changes neither the table nor the flash store, and for the
    scan cycle of the main loop, which does not change the flash
    store. *)
Theorem handlers_stay_in_frame (w : World) :
  wf w ->
  (forall msg, exists w' sent,
      handleMQTTCommand msg w = Some (tt, w') /\
      same_slots w w' /\
      outbox w' = outbox w ++ sent /\
      (mqtt_connected w = false -> sent = []) /\
      Forall (fun p => retained p = false) sent /\
      mqtt_connected w' = mqtt_connected w /\
      wifi_connected w' = wifi_connected w /\
      device_id w' = device_id w /\
      (distance w' = distance w \/ Forall sound (distance w'))) /\
  (forall msg, exists w' sent,
      handleShelfConfigRequest msg w = Some (tt, w') /\ handled w w' sent /\
      preferences w' = preferences w /\ shelfConfig w' = shelfConfig w) /\
  (exists w' sent,
      scan_cycle w = Some (tt, w') /\ handled w w' sent /\
      preferences w' = preferences w /\ Forall sound (distance w')).
Proof.
  intros Hwf. split; [|split].
  - intros msg.
    destruct (handleMQTTCommand_handled w msg Hwf)
      as (w' & sent & Hrun & Hs & (Ho & Hoff & Hr) & Hm & Hwifi & Hdev & Hd).
    exists w', sent. repeat split; assumption || apply Hs.
  - intros msg. apply handleShelfConfigRequest_handled. exact Hwf.
  - apply scan_cycle_handled. exact Hwf.
Qed.

(** The three handlers on the sketch at boot. *)
Lemma handlers_stay_in_frame_witness :
  wf scenario_world /\
  (exists w' sent, handleMQTTCommand "enable b2" scenario_world = Some (tt, w') /\
                   handled scenario_world w' sent) /\
  (exists w' sent, scan_cycle scenario_world = Some (tt, w') /\
                   handled scenario_world w' sent).
Proof.
  assert (Hwf : wf scenario_world) by (split; reflexivity).
  destruct (handlers_stay_in_frame scenario_world Hwf) as (Hcmd & _ & Hscan).
  split; [exact Hwf|]. split.
  - destruct (Hcmd "enable b2")
      as (w' & sent & Hrun & Hs & Ho & Hoff & Hr & Hm & Hwifi & Hdev & Hd).
    exists w', sent. split; [exact Hrun|]. repeat split; assumption || apply Hs.
  - destruct Hscan as (w' & sent & Hrun & Hh & _). exists w', sent. split; assumption.
Defined.

End Frame_props.

(* ===================================================================== *)
(** ** Invariants of the running sketch                                  *)
(* ===================================================================== *)

Module Invariant_props.
Import ArduinoString Firmware Shelf_facts Calibration_facts Slot_store_spec
       Scan_facts Router_facts Command_router_spec Config_request_spec
       Reachable_states Scan_notions Frame_notions Flash_store_props
       Frame_props.

(** What a step keeps. *)
Lemma step_keeps (w w' : World) :
  wf w -> step w w' ->
  same_slots w w' /\
  (exists sent, outbox w' = outbox w ++ sent /\
                Forall (fun p => retained p = false) sent) /\
  (distance w' = distance w \/ Forall sound (distance w')).
Proof.
  intros Hwf Hstep.
  destruct Hstep as [msg w w' H | msg w w' H | w w' H | w w' H | m r w].
  - destruct (handleMQTTCommand_handled w msg Hwf)
      as (w1 & sent & Hrun & Hs & (Ho & _ & Hr) & _ & _ & _ & Hd).
    unfold exec in H. rewrite Hrun in H. injection H as <-.
    split; [exact Hs|]. split; [exists sent; split; assumption | exact Hd].
  - destruct (handleShelfConfigRequest_handled w msg Hwf)
      as (w1 & sent & Hrun & (Hs & (Ho & _ & Hr) & _ & _ & _ & Hd) & _).
    unfold exec in H. rewrite Hrun in H. injection H as <-.
    split; [exact Hs|]. split; [exists sent; split; assumption | exact Hd].
  - destruct (scan_cycle_handled w Hwf)
      as (w1 & sent & Hrun & (Hs & (Ho & _ & Hr) & _ & _ & _ & Hd) & _).
    unfold exec in H. rewrite Hrun in H. injection H as <-.
    split; [exact Hs|]. split; [exists sent; split; assumption | exact Hd].
  - unfold exec in H. rewrite (loadShelfConfig_run w Hwf) in H. injection H as <-.
    split; [|split].
    + split; cbn [shelfConfig set_shelfConfig]; rewrite <- list_fmap_compose;
        apply list_fmap_ext; intros _ c _; reflexivity.
    + exists []. split; [rewrite app_nil_r; reflexivity | constructor].
    + left. reflexivity.
  - split; [split; reflexivity|]. split.
    + exists []. split; [rewrite app_nil_r; reflexivity | constructor].
    + left. reflexivity.
Qed.

(** X10. In every state the sketch reaches from boot, by commands,
    configuration requests, scan cycles, reloads of the configuration
    and changes of the links, the table still has the twelve slots A1 to
    C4 on the pins 4 to 15, in this order and under pairwise distinct
    names; every cell of the sample array holds 0 (before the first
    scan), the sentinel -1 or a distance within [20 mm, 4000 mm]; and no
    message that went out was retained. *)
Theorem reachable_invariants (w : World) :
  reachable w ->
  id <$> shelfConfig w
    = ["A1"; "A2"; "A3"; "A4"; "B1"; "B2"; "B3"; "B4"; "C1"; "C2"; "C3"; "C4"] /\
  pin <$> shelfConfig w = [4; 5; 6; 7; 8; 9; 10; 11; 12; 13; 14; 15] /\
  NoDup (id <$> shelfConfig w) /\
  Forall sample_ok (distance w) /\
  Forall (fun p => retained p = false) (outbox w).
Proof.
  intros Hreach.
  assert (H : id <$> shelfConfig w = id <$> shelfConfig_init /\
              pin <$> shelfConfig w = pin <$> shelfConfig_init /\
              Forall sample_ok (distance w) /\
              Forall (fun p => retained p = false) (outbox w)).
  { induction Hreach as [dev sensors dns flash mqtt wifi | w w' Hreach IH Hstep].
    - split; [reflexivity|]. split; [reflexivity|]. split; [|constructor].
      cbn. repeat constructor.
    - destruct IH as (Hid & Hpin & Hd & Ho).
      destruct (step_keeps w w' (reachable_wf w Hreach) Hstep)
        as ([Hid' Hpin'] & (sent & Hout & Hr) & Hdist).
      split; [congruence|]. split; [congruence|]. split.
      + destruct Hdist as [->|Hok]; [assumption | apply sound_ok; exact Hok].
      + rewrite Hout. apply Forall_app. split; assumption. }
  destruct H as (Hid & Hpin & Hd & Ho).
  split; [exact Hid|]. split; [exact Hpin|]. split; [|split; assumption].
  rewrite Hid.
  apply (bool_decide_unpack (NoDup (id <$> shelfConfig_init))). vm_compute. exact I.
Qed.

(** A state reached by a command and a scan cycle. *)
Lemma reachable_invariants_witness :
  exists w1 w2,
    exec (handleMQTTCommand "enable a1") scenario_world = Some w1 /\
    exec scan_cycle w1 = Some w2 /\ reachable w2 /\
    NoDup (id <$> shelfConfig w2) /\ Forall sample_ok (distance w2).
Proof.
  destruct (handleMQTTCommand_wf scenario_world "enable a1") as (w1 & H1 & Hwf1);
    [split; reflexivity|].
  destruct (scan_cycle_wf w1 Hwf1) as (w2 & H2 & _).
  assert (Hreach : reachable w2).
  { apply (reachable_step w1 w2).
    - apply (reachable_step scenario_world w1); [apply reachable_boot|].
      apply (step_command "enable a1"). unfold exec. rewrite H1. reflexivity.
    - apply step_scan. unfold exec. rewrite H2. reflexivity. }
  exists w1, w2. unfold exec. rewrite H1, H2.
  split; [reflexivity|]. split; [reflexivity|]. split; [exact Hreach|].
  destruct (reachable_invariants w2 Hreach) as (_ & _ & Hnd & Hok & _).
  split; assumption.
Defined.

End Invariant_props.

(* ===================================================================== *)
(** ** The identity of the device                                        *)
(* ===================================================================== *)

Module Identity_props.
Import ArduinoString Firmware String_facts Shelf_facts Config_request_spec Broker_session.

(** No digit of [ultoa] is the NUL character. *)
Lemma hex_digit_code (d : Z) :
  0 <= d < 16 -> (code (hex_digit d) =? 0) = false.
Proof.
  intros H.
  assert (E : d = 0 \/ d = 1 \/ d = 2 \/ d = 3 \/ d = 4 \/ d = 5 \/ d = 6 \/ d = 7 \/
              d = 8 \/ d = 9 \/ d = 10 \/ d = 11 \/ d = 12 \/ d = 13 \/ d = 14 \/
              d = 15) by lia.
  repeat (destruct E as [->|E]; [reflexivity|]). subst d. reflexivity.
Qed.

Lemma ultoa_nul_free (fuel : nat) :
  forall (v : Z) (acc : string),
    nul_free acc = true -> nul_free (ultoa_from fuel v acc) = true.
Proof.
  induction fuel as [|fuel IH]; intros v acc Hacc; [exact Hacc|].
  cbn [ultoa_from]. cbv zeta.
  assert (Hd : nul_free (String (hex_digit (v mod 16)) acc) = true).
  { cbn [nul_free all_chars].
    rewrite (hex_digit_code (v mod 16)) by (apply Z.mod_pos_bound; lia).
    exact Hacc. }
  destruct (v / 16 =? 0); [exact Hd|]. apply IH. exact Hd.
Qed.

Lemma toUpperCase_digit (d : Z) (s : string) :
  0 <= d < 16 ->
  toUpperCase (String (hex_digit d) s) = String (toupper (hex_digit d)) (toUpperCase s).
Proof.
  intros H. unfold toUpperCase. cbn [map_chars].
  rewrite (hex_digit_code d H). reflexivity.
Qed.

(** A digit is read back after it was put in upper case. *)
Lemma hex_digit_value (d : Z) :
  0 <= d < 16 -> hex_value (toupper (hex_digit d)) = d.
Proof.
  intros H.
  assert (E : d = 0 \/ d = 1 \/ d = 2 \/ d = 3 \/ d = 4 \/ d = 5 \/ d = 6 \/ d = 7 \/
              d = 8 \/ d = 9 \/ d = 10 \/ d = 11 \/ d = 12 \/ d = 13 \/ d = 14 \/
              d = 15) by lia.
  repeat (destruct E as [->|E]; [reflexivity|]). subst d. reflexivity.
Qed.

(** The digits written for [v], in upper case: there are as many as
    [v] needs, and they are read back as [v]. *)
Lemma ultoa_parse (fuel : nat) :
  forall (v : Z) (acc : string),
    (0 < fuel)%nat -> 0 <= v < 16 ^ Z.of_nat fuel ->
    exists (digits : string) (n : nat),
      toUpperCase (ultoa_from fuel v acc) = digits +:+ toUpperCase acc /\
      String.length digits = n /\ (1 <= n <= fuel)%nat /\
      v < 16 ^ Z.of_nat n /\ (16 ^ (Z.of_nat n - 1) <= v \/ n = 1%nat) /\
      forall (a : Z) (rest : string),
        parse_hex_from a (digits +:+ rest)
        = parse_hex_from (a * 16 ^ Z.of_nat n + v) rest.
Proof.
  induction fuel as [|fuel IH]; intros v acc Hfuel Hv; [lia|].
  cbn [ultoa_from]. cbv zeta.
  assert (Hmod : 0 <= v mod 16 < 16) by (apply Z.mod_pos_bound; lia).
  destruct (Z.eqb_spec (v / 16) 0) as [Hq|Hq].
  - assert (Hsmall : v < 16).
    { destruct (Z.lt_ge_cases v 16) as [|Hge]; [assumption|].
      assert (1 <= v / 16) by (apply Z.div_le_lower_bound; lia). lia. }
    exists (String (toupper (hex_digit (v mod 16))) ""), 1%nat.
    split; [exact (toUpperCase_digit _ acc Hmod)|].
    split; [reflexivity|]. split; [lia|].
    split; [exact Hsmall|]. split; [right; reflexivity|].
    intros a rest.
    change (String (toupper (hex_digit (v mod 16))) "" +:+ rest)
      with (String (toupper (hex_digit (v mod 16))) rest).
    cbn [parse_hex_from]. rewrite hex_digit_value by exact Hmod.
    rewrite Z.mod_small by lia. f_equal.
  - assert (Hge : 16 <= v).
    { destruct (Z.lt_ge_cases v 16) as [Hlt|]; [|assumption].
      rewrite Z.div_small in Hq by lia. lia. }
    assert (Hfuel' : (0 < fuel)%nat).
    { destruct fuel; [|lia]. cbn in Hv. lia. }
    assert (Hv' : 0 <= v / 16 < 16 ^ Z.of_nat fuel).
    { split; [apply Z.div_pos; lia|].
      apply Z.div_lt_upper_bound; [lia|].
      replace (16 ^ Z.of_nat (S fuel)) with (16 * 16 ^ Z.of_nat fuel) in Hv; [lia|].
      rewrite Nat2Z.inj_succ, Z.pow_succ_r by lia. reflexivity. }
    destruct (IH (v / 16) (String (hex_digit (v mod 16)) acc) Hfuel' Hv')
      as (digits & n & Hup & Hlen & Hn & Hlt & Hlow & Hparse).
    exists (digits +:+ String (toupper (hex_digit (v mod 16))) ""), (S n).
    assert (Hpow : 16 ^ Z.of_nat (S n) = 16 * 16 ^ Z.of_nat n).
    { rewrite Nat2Z.inj_succ, Z.pow_succ_r by lia. reflexivity. }
    split; [rewrite Hup, append_assoc, (toUpperCase_digit _ acc Hmod); reflexivity|].
    split; [rewrite append_length, Hlen; cbn; lia|]. split; [lia|].
    pose proof (Z.div_mod v 16 ltac:(lia)) as Hdm.
    split; [rewrite Hpow; lia|]. split.
    + left. replace (Z.of_nat (S n) - 1) with (Z.of_nat n) by lia.
      destruct Hlow as [Hlow| ->].
      * replace (Z.of_nat n) with (Z.succ (Z.of_nat n - 1)) by lia.
        rewrite Z.pow_succ_r by lia. lia.
      * cbn. lia.
    + intros a rest. rewrite append_assoc, Hparse.
      change (String (toupper (hex_digit (v mod 16))) "" +:+ rest)
        with (String (toupper (hex_digit (v mod 16))) rest).
      cbn [parse_hex_from].
      rewrite hex_digit_value by exact Hmod. f_equal. rewrite Hpow. lia.
Qed.

(** The identity built for a chip. *)
Lemma getDeviceId_run (n : Node) :
  let serial := toUpperCase (of_hex (wrap32 (Z.shiftr (efuse_mac n) 32))
                             +:+ of_hex (wrap32 (efuse_mac n))) in
  let dev := "ESP32S3_" +:+ serial in
  getDeviceId n
  = Some (tt, set_world
                (set_device_calibrate_response_topic
                   ("shelf/" +:+ dev +:+ "/calibrate/response")
                   (set_device_id dev (world n)))
                (set_device_command_topic ("shelf/" +:+ dev +:+ "/command")
                   (set_serial_number serial n))).
Proof. destruct n. reflexivity. Qed.

(** X11. [getDeviceId] derives the identity of the device from the
    chip: ESP32S3_ followed by the serial number, which is the upper 32
    bits of the chip identity in base 16 followed by its lower 32 bits
    in base 16, in upper case and without zeros in front; the command
    topic and the calibration topic are built around this identity and
    nothing else changes. When the lower half needs all its 8 digits
    (it is at least 2^28), the serial number read as one numeral in
    base 16 is the chip identity, so that different chips get
    different identities; without this the halves run together, and
    the chips 0x1_00000023 and 0x12_00000003 both get ESP32S3_123. *)
Theorem device_id_of_chip (n : Node) :
  0 <= efuse_mac n < 2 ^ 64 ->
  exists n',
    getDeviceId n = Some (tt, n') /\
    device_id (world n') = "ESP32S3_" +:+ serial_number n' /\
    serial_number n'
    = toUpperCase (of_hex (efuse_mac n / 2 ^ 32)) +:+
      toUpperCase (of_hex (efuse_mac n mod 2 ^ 32)) /\
    device_command_topic n' = "shelf/" +:+ device_id (world n') +:+ "/command" /\
    device_calibrate_response_topic (world n')
    = "shelf/" +:+ device_id (world n') +:+ "/calibrate/response" /\
    n' = set_world
           (set_device_calibrate_response_topic
              (device_calibrate_response_topic (world n'))
              (set_device_id (device_id (world n')) (world n)))
           (set_device_command_topic (device_command_topic n')
              (set_serial_number (serial_number n') n)) /\
    (2 <= String.length (serial_number n') <= 16)%nat /\
    (2 ^ 28 <= efuse_mac n mod 2 ^ 32 -> parse_hex (serial_number n') = efuse_mac n) /\
    (exists a b,
       efuse_mac a = 2 ^ 32 + 35 /\ efuse_mac b = 18 * 2 ^ 32 + 3 /\
       (exists a', getDeviceId a = Some (tt, a') /\
                   device_id (world a') = "ESP32S3_123") /\
       (exists b', getDeviceId b = Some (tt, b') /\
                   device_id (world b') = "ESP32S3_123")).
Proof.
  intros Hmac. pose proof (getDeviceId_run n) as Hrun. cbv zeta in Hrun.
  set (hi := efuse_mac n / 2 ^ 32).
  set (lo := efuse_mac n mod 2 ^ 32).
  assert (Hhi : wrap32 (Z.shiftr (efuse_mac n) 32) = hi).
  { unfold wrap32, hi. rewrite Z.shiftr_div_pow2 by lia.
    apply Z.mod_small. split; [apply Z.div_pos; lia|].
    apply Z.div_lt_upper_bound; lia. }
  assert (Hlo : wrap32 (efuse_mac n) = lo) by reflexivity.
  rewrite Hhi, Hlo in Hrun.
  assert (Hhi_r : 0 <= hi < 16 ^ Z.of_nat 8).
  { unfold hi. split; [apply Z.div_pos; lia|]. apply Z.div_lt_upper_bound; lia. }
  assert (Hlo_r : 0 <= lo < 16 ^ Z.of_nat 8) by (apply Z.mod_pos_bound; lia).
  destruct (ultoa_parse 8 hi "" ltac:(lia) Hhi_r)
    as (dh & nh & Hdh & Hlh & Hnh & _ & _ & Hph).
  destruct (ultoa_parse 8 lo "" ltac:(lia) Hlo_r)
    as (dl & nl & Hdl & Hll & Hnl & Hlt & _ & Hpl).
  change (toUpperCase "") with "" in Hdh, Hdl. rewrite append_empty_r in Hdh, Hdl.
  fold (of_hex hi) in Hdh. fold (of_hex lo) in Hdl.
  eexists. split; [exact Hrun|].
  cbn [world device_id serial_number device_command_topic
       device_calibrate_response_topic set_world set_device_id
       set_device_calibrate_response_topic set_device_command_topic
       set_serial_number].
  assert (Eapp : toUpperCase (of_hex hi +:+ of_hex lo)
                 = toUpperCase (of_hex hi) +:+ toUpperCase (of_hex lo))
    by exact (map_chars_app toupper _ _ (ultoa_nul_free 8 hi "" eq_refl)).
  rewrite Eapp.
  split; [reflexivity|]. split; [reflexivity|]. split; [reflexivity|].
  split; [reflexivity|]. split; [reflexivity|].
  rewrite Hdh, Hdl. split; [rewrite append_length; lia|]. split.
  - intros Hbig. unfold parse_hex. rewrite Hph.
    rewrite <- (append_empty_r dl), Hpl. cbn [parse_hex_from].
    assert (Hnl8 : nl = 8%nat).
    { destruct (Nat.eq_dec nl 8%nat) as [|Hne]; [assumption|].
      assert (Hle : (nl <= 7)%nat) by lia.
      assert (16 ^ Z.of_nat nl <= 16 ^ 7)
        by (apply Z.pow_le_mono_r; lia).
      lia. }
    rewrite Hnl8. unfold hi, lo. rewrite Z.mul_0_l, Z.add_0_l.
    change (16 ^ Z.of_nat 8) with (2 ^ 32).
    pose proof (Z.div_mod (efuse_mac n) (2 ^ 32) ltac:(lia)). lia.
  - exists (chip (2 ^ 32 + 35)), (chip (18 * 2 ^ 32 + 3)).
    split; [reflexivity|]. split; [reflexivity|].
    split; eexists; (split; [apply getDeviceId_run | reflexivity]).
Qed.

(** A chip whose lower half has 8 digits. *)
Lemma device_id_of_chip_witness :
  0 <= efuse_mac (chip 0x24A160FFEE98) < 2 ^ 64 /\
  2 ^ 28 <= efuse_mac (chip 0x24A160FFEE98) mod 2 ^ 32 /\
  exists n', getDeviceId (chip 0x24A160FFEE98) = Some (tt, n') /\
             device_id (world n') = "ESP32S3_24A160FFEE98" /\
             parse_hex (serial_number n') = 0x24A160FFEE98.
Proof.
  assert (H1 : 0 <= efuse_mac (chip 0x24A160FFEE98) < 2 ^ 64) by (cbn; lia).
  assert (H2 : 2 ^ 28 <= efuse_mac (chip 0x24A160FFEE98) mod 2 ^ 32)
    by (vm_compute; discriminate).
  split; [exact H1|]. split; [exact H2|].
  destruct (device_id_of_chip (chip 0x24A160FFEE98) H1)
    as (n' & Hrun & Hdev & Hser & _ & _ & _ & _ & Hparse & _).
  exists n'. split; [exact Hrun|]. split; [|exact (Hparse H2)].
  rewrite Hdev, Hser. reflexivity.
Defined.

End Identity_props.

(* ===================================================================== *)
(** ** Discovery, heartbeat and the callback of the client               *)
(* ===================================================================== *)

Module Callback_props.
Import ArduinoString Firmware String_facts Shelf_facts Router_facts Command_router_spec
       Config_request_spec Scan_notions Frame_notions Frame_props Broker_session.

Lemma in_world_run {A} (c : M World A) (n : Node) (a : A) (w' : World) :
  c (world n) = Some (a, w') -> in_world c n = Some (a, set_world w' n).
Proof. intros H. unfold in_world. rewrite H. reflexivity. Qed.

Lemma set_world_same (n : Node) : set_world (world n) n = n.
Proof. destruct n; reflexivity. Qed.

Lemma join_commas_snoc (l : list string) (x : string) :
  join_commas (l ++ [x])
  = match l with [] => x | _ => join_commas l +:+ "," +:+ x end.
Proof.
  induction l as [|a l IH]; [reflexivity|].
  cbn [app join_commas]. rewrite IH.
  destruct l as [|b l]; [reflexivity|].
  cbn [app]. rewrite !append_assoc. reflexivity.
Qed.

Lemma enabled_names_snoc (l : list ShelfConfig) (c : ShelfConfig) :
  enabled_names (l ++ [c])
  = enabled_names l ++ (if enabled c then [id c] else []).
Proof.
  unfold enabled_names. rewrite filter_app, fmap_app. f_equal.
  destruct (enabled c) eqn:E.
  - rewrite filter_cons_True by exact E. reflexivity.
  - rewrite filter_cons_False by congruence. reflexivity.
Qed.

Lemma enabled_names_length (table : list ShelfConfig) :
  Z.of_nat (length (enabled_names table)) = enabled_count table.
Proof. unfold enabled_names, enabled_count. rewrite length_fmap. reflexivity. Qed.

(** The loop of [handleDiscoveryRequest] writes the names of the
    enabled slots, separated by commas. *)
Lemma discovery_entries (w : World) (head : string) :
  wf w ->
  for_acc (Z.to_nat SHELF_COUNT) 0 discovery_entry (head, true) w
  = Some ((head +:+ join_commas (q <$> enabled_names (shelfConfig w)),
           bool_decide (enabled_names (shelfConfig w) = [])), w).
Proof.
  intros [Hc Hd]. unfold SHELF_COUNT in Hc.
  pose (Inv := fun (k : nat) (local : string * bool) (s : World) =>
    s = w /\
    local = (head +:+ join_commas (q <$> enabled_names (take k (shelfConfig w))),
             bool_decide (enabled_names (take k (shelfConfig w)) = []))).
  destruct (for_acc_invariant Inv (Z.to_nat SHELF_COUNT) 0 discovery_entry
              (head, true) w) as (local & w' & Hrun & -> & ->).
  - split; [reflexivity|]. cbn. rewrite append_empty_r. reflexivity.
  - intros k local s Hk [-> ->]. rewrite Z.add_0_l.
    change (Z.to_nat SHELF_COUNT) with 12%nat in Hk.
    destruct (lookup_lt_is_Some_2 (shelfConfig w) k) as [c Hck]; [lia|].
    unfold discovery_entry. unfold bind at 1.
    rewrite (shelfConfig_at_Some w _ c) by (rewrite elem_at_of_nat; exact Hck).
    unfold Inv. rewrite (take_S_r _ _ _ Hck), enabled_names_snoc.
    destruct (enabled c).
    + eexists _, w. split; [reflexivity|]. split; [reflexivity|].
      rewrite fmap_app. change (q <$> [id c]) with [q (id c)].
      rewrite join_commas_snoc.
      destruct (enabled_names (take k (shelfConfig w))) as [|x l] eqn:E.
      * cbn. rewrite append_empty_r. reflexivity.
      * rewrite bool_decide_eq_false_2 by discriminate.
        rewrite bool_decide_eq_false_2 by discriminate.
        cbn [negb]. rewrite !append_assoc. reflexivity.
    + eexists _, w. split; [reflexivity|]. split; [reflexivity|].
      rewrite app_nil_r. reflexivity.
  - rewrite Hrun. change (Z.to_nat SHELF_COUNT) with 12%nat.
    rewrite take_ge by lia. reflexivity.
Qed.

(** The answer to a discovery request. *)
Lemma handleDiscoveryRequest_run (n : Node) (message : string) :
  wf (world n) ->
  handleDiscoveryRequest message n
  = Some (tt, set_world
                (published (world n) mqtt_topic_discovery_response (discovery_json n))
                n).
Proof.
  intros Hwf. unfold handleDiscoveryRequest.
  unfold bind at 1. rewrite (in_world_run (gets device_id) n (device_id (world n)) (world n))
    by reflexivity.
  rewrite set_world_same.
  unfold bind at 1.
  rewrite (in_world_run _ n _ _ (discovery_entries (world n) _ Hwf)).
  rewrite set_world_same. cbn [fst].
  unfold bind at 1.
  rewrite (in_world_run _ n _ _ (getEnabledShelfCount_run (world n) Hwf)).
  rewrite set_world_same.
  unfold bind at 1, gets at 1.
  unfold bind at 1.
  rewrite (in_world_run (gets millis) n (millis (world n)) (world n)) by reflexivity.
  rewrite set_world_same.
  unfold bind at 1.
  rewrite (in_world_run (gets mqtt_connected) n (mqtt_connected (world n)) (world n))
    by reflexivity.
  rewrite set_world_same.
  change (of_int SHELF_COUNT) with "12".
  unfold published, discovery_json. rewrite enabled_names_length.
  destruct (mqtt_connected (world n)) eqn:Hm.
  - unfold mqttClient_publish. unfold in_world, modify. rewrite Hm.
    rewrite !append_assoc. reflexivity.
  - rewrite set_world_same. reflexivity.
Qed.

(** X12. Every discovery request is answered, whatever it says: with
    a session by one message on shelf/discovery/response, not retained,
    without a session by nothing, and nothing else changes. The message
    gives the identity and the name of the device, the names of the
    enabled slots in the order of the table, each between quotes and
    separated by commas, 12 as the number of slots, the number of
    enabled slots, which is the number of names listed, the strength of
    the Wi-Fi signal and the clock. *)
Theorem discovery_lists_enabled_slots (n : Node) (message : string) :
  wf (world n) ->
  exists n',
    handleDiscoveryRequest message n = Some (tt, n') /\
    n' = set_world (world n') n /\
    world n'
    = (if mqtt_connected (world n)
       then set_outbox
              (outbox (world n) ++
               [ {| topic := "shelf/discovery/response";
                    payload :=
                      "{" +:+ member_q "device_id" (device_id (world n)) +:+ "," +:+
                      member_q "device_name" "ESP32S3 設備" +:+ "," +:+
                      q "shelves" +:+ ":[" +:+
                      join_commas (q <$> enabled_names (shelfConfig (world n))) +:+
                      "]," +:+
                      member "total_shelves" "12" +:+ "," +:+
                      member "enabled_shelves"
                        (of_int (Z.of_nat
                                   (length (enabled_names (shelfConfig (world n))))))
                      +:+ "," +:+
                      member "wifi_signal" (of_int (rssi n)) +:+ "," +:+
                      member "uptime_ms" (of_int (millis (world n))) +:+ "}";
                    retained := false |} ])
              (world n)
       else world n) /\
    (forall name, name ∈ enabled_names (shelfConfig (world n)) <->
       exists c, c ∈ shelfConfig (world n) /\ enabled c = true /\ id c = name) /\
    (forall a b rest, join_commas (a :: b :: rest) = a +:+ "," +:+ join_commas (b :: rest)) /\
    (forall a, join_commas [a] = a) /\ join_commas [] = "".
Proof.
  intros Hwf. rewrite (handleDiscoveryRequest_run n message Hwf).
  eexists. split; [reflexivity|]. cbn [world set_world].
  split; [reflexivity|]. split; [reflexivity|].
  split; [|repeat split].
  intros name. unfold enabled_names. rewrite list_elem_of_fmap. split.
  - intros (c & -> & Hc). apply list_elem_of_filter in Hc as [Hen Hc].
    exists c. done.
  - intros (c & Hc & Hen & <-). exists c. split; [reflexivity|].
    apply list_elem_of_filter. done.
Qed.

(** The sketch with the slots A1 and B2 enabled. *)
Lemma discovery_lists_enabled_slots_witness :
  exists w1 w2 n',
    setShelfEnabled 0 true scenario_world = Some (tt, w1) /\
    setShelfEnabled 5 true w1 = Some (tt, w2) /\ wf w2 /\
    handleDiscoveryRequest "" (power_on w2 0 (fun _ => true) (fun _ => 0) [] (-61))
    = Some (tt, n') /\
    payload <$> outbox (world n')
    = [ "{" +:+ member_q "device_id" "ESP32S3_TEST" +:+ "," +:+
        member_q "device_name" "ESP32S3 設備" +:+ "," +:+
        q "shelves" +:+ ":[" +:+ q "A1" +:+ "," +:+ q "B2" +:+ "]," +:+
        member "total_shelves" "12" +:+ "," +:+
        member "enabled_shelves" "2" +:+ "," +:+
        member "wifi_signal" "-61" +:+ "," +:+
        member "uptime_ms" "0" +:+ "}" ].
Proof.
  pose proof (setShelfEnabled_Some scenario_world 0 (slot "A1" 4) true
                ltac:(unfold SHELF_COUNT; lia) eq_refl) as H1.
  set (w1 := set_preferences _ _) in H1.
  pose proof (setShelfEnabled_Some w1 5 (slot "B2" 9) true
                ltac:(unfold SHELF_COUNT; lia) eq_refl) as H2.
  set (w2 := set_preferences _ _) in H2.
  assert (Hwf : wf w2) by (split; reflexivity).
  destruct (discovery_lists_enabled_slots
              (power_on w2 0 (fun _ => true) (fun _ => 0) [] (-61)) "" Hwf)
    as (n' & Hrun & _ & Hw & _).
  exists w1, w2, n'. split; [exact H1|]. split; [exact H2|]. split; [exact Hwf|].
  split; [exact Hrun|]. rewrite Hw. vm_compute. reflexivity.
Defined.

Lemma message_of_payload (payload : string) : message_of payload = payload.
Proof.
  unfold message_of.
  assert (H : forall acc, fold_left (fun message c => message +:+ String c "")
                            (list_ascii_of_string payload) acc = acc +:+ payload).
  { induction payload as [|c p IH]; intros acc; cbn [list_ascii_of_string fold_left].
    - rewrite append_empty_r. reflexivity.
    - rewrite IH, append_assoc. reflexivity. }
  apply (H "").
Qed.

Lemma handleHeartbeatRequest_run (w : World) (message : string) :
  handleHeartbeatRequest message w
  = Some (tt, published w mqtt_topic_heartbeat_response (heartbeat_json w)).
Proof.
  unfold handleHeartbeatRequest, published, mqttClient_publish. run.
  destruct (mqtt_connected w) eqn:Hm; [rewrite Hm|]; reflexivity.
Qed.

Lemma published_wf (w : World) (t p : string) : wf w -> wf (published w t p).
Proof.
  intros Hwf. unfold published. destruct (mqtt_connected w); [|exact Hwf].
  destruct Hwf as [H1 H2]. split; assumption.
Qed.

(** The callback returns, keeps the arrays in shape and touches the
    globals of the command protocol only. *)
Lemma published_links (w : World) (t p : string) :
  mqtt_connected (published w t p) = mqtt_connected w.
Proof. unfold published. destruct (mqtt_connected w) eqn:E; [|exact E]. exact E. Qed.

(** The callback returns, keeps the arrays in shape and the session as
    it is, and touches the globals of the command protocol only. *)
Lemma mqttCallback_total (n : Node) (t payload : string) :
  wf (world n) ->
  exists n', mqttCallback t payload n = Some (tt, n') /\
             n' = set_world (world n') n /\ wf (world n') /\
             mqtt_connected (world n') = mqtt_connected (world n).
Proof.
  intros Hwf. unfold mqttCallback. cbv zeta.
  unfold bind at 1, gets at 1. unfold bind at 1, gets at 1.
  assert (Hcmd : exists n',
             in_world (handleMQTTCommand (message_of payload)) n = Some (tt, n') /\
             n' = set_world (world n') n /\ wf (world n') /\
             mqtt_connected (world n') = mqtt_connected (world n)).
  { destruct (Reachable_states.handleMQTTCommand_wf (world n) (message_of payload) Hwf)
      as (w' & Hrun & Hwf').
    destruct (handleMQTTCommand_handled (world n) (message_of payload) Hwf)
      as (w2 & sent & Hrun2 & _ & _ & Hm & _).
    assert (w2 = w') by congruence. subst w2.
    exists (set_world w' n). split; [apply in_world_run; exact Hrun|].
    split; [reflexivity|]. split; [exact Hwf' | exact Hm]. }
  destruct (equals t (device_command_topic n)); [exact Hcmd|].
  destruct (equals t mqtt_topic_command); [exact Hcmd|].
  destruct (equals t mqtt_topic_discovery).
  { rewrite (handleDiscoveryRequest_run n _ Hwf). eexists. split; [reflexivity|].
    split; [reflexivity|]. cbn [world set_world].
    split; [apply published_wf; exact Hwf | apply published_links]. }
  destruct (equals t mqtt_topic_heartbeat).
  { rewrite (in_world_run _ n _ _ (handleHeartbeatRequest_run (world n) _)).
    eexists. split; [reflexivity|]. split; [reflexivity|]. cbn [world set_world].
    split; [apply published_wf; exact Hwf | apply published_links]. }
  destruct (equals t (device_config_request_topic n)).
  { rewrite (in_world_run _ n _ _
               (handleShelfConfigRequest_run (world n) (message_of payload) Hwf)).
    eexists. split; [reflexivity|]. split; [reflexivity|]. cbn [world set_world].
    destruct (_ && _); [split; [exact Hwf | reflexivity]|].
    split; [apply (published_wf (world n) _ _ Hwf)|].
    apply (published_links (world n)). }
  exists n. split; [reflexivity|]. split; [symmetry; apply set_world_same|].
  split; [exact Hwf | reflexivity].
Qed.

(** X13. The callback of the client returns for every topic and every
    payload, changes nothing outside the globals of the command
    protocol, and stays within the frame of the handlers. It hands the
    payload as it is to the command router when the topic is the command
    topic of the device or, failing that, the shared topic
    shelf/command; to the discovery handler on shelf/discovery; to the
    heartbeat handler on shelf/heartbeat, which answers every request on
    shelf/heartbeat/response with the identity of the device, the status
    online and the clock; and to the configuration handler on the
    request topic of the device. A message on any other topic changes
    nothing. *)
Theorem callback_dispatch (n : Node) (t payload : string) :
  wf (world n) ->
  exists n' sent,
    mqttCallback t payload n = Some (tt, n') /\
    n' = set_world (world n') n /\
    handled (world n) (world n') sent /\
    (t = device_command_topic n \/ t = "shelf/command" ->
     handleMQTTCommand payload (world n) = Some (tt, world n')) /\
    (t <> device_command_topic n -> t <> "shelf/command" ->
     (t = "shelf/discovery" ->
      handleDiscoveryRequest payload n = Some (tt, n')) /\
     (t = "shelf/heartbeat" ->
      world n'
      = (if mqtt_connected (world n)
         then set_outbox
                (outbox (world n) ++
                 [ {| topic := "shelf/heartbeat/response";
                      payload :=
                        "{" +:+ member_q "device_id" (device_id (world n)) +:+ "," +:+
                        member_q "status" "online" +:+ "," +:+
                        member "timestamp" (of_int (millis (world n))) +:+ "}";
                      retained := false |} ])
                (world n)
         else world n)) /\
     (t <> "shelf/discovery" -> t <> "shelf/heartbeat" ->
      (t = device_config_request_topic n ->
       handleShelfConfigRequest payload (world n) = Some (tt, world n')) /\
      (t <> device_config_request_topic n -> n' = n))).
Proof.
  intros Hwf. unfold mqttCallback. rewrite message_of_payload. cbv zeta.
  unfold bind at 1, gets at 1. unfold bind at 1, gets at 1.
  unfold equals, mqtt_topic_command, mqtt_topic_discovery, mqtt_topic_heartbeat.
  assert (Hcmd : exists n' sent,
             in_world (handleMQTTCommand payload) n = Some (tt, n') /\
             n' = set_world (world n') n /\
             handled (world n) (world n') sent /\
             handleMQTTCommand payload (world n) = Some (tt, world n')).
  { destruct (handleMQTTCommand_handled (world n) payload Hwf)
      as (w' & sent & Hrun & Hh).
    exists (set_world w' n), sent. split; [apply in_world_run; exact Hrun|].
    split; [reflexivity|]. split; [exact Hh | exact Hrun]. }
  destruct (decide (t = device_command_topic n)) as [Ht1|Ht1].
  { rewrite bool_decide_eq_true_2 by exact Ht1.
    destruct Hcmd as (n' & sent & Hrun & Hn & Hh & Hw).
    exists n', sent. split; [exact Hrun|]. split; [exact Hn|]. split; [exact Hh|].
    split; [intros _; exact Hw|]. intros H1 H2. congruence. }
  rewrite bool_decide_eq_false_2 by exact Ht1.
  destruct (decide (t = "shelf/command")) as [Ht2|Ht2].
  { rewrite bool_decide_eq_true_2 by exact Ht2.
    destruct Hcmd as (n' & sent & Hrun & Hn & Hh & Hw).
    exists n', sent. split; [exact Hrun|]. split; [exact Hn|]. split; [exact Hh|].
    split; [intros _; exact Hw|]. intros H1 H2. congruence. }
  rewrite bool_decide_eq_false_2 by exact Ht2.
  destruct (decide (t = "shelf/discovery")) as [Ht3|Ht3].
  { rewrite bool_decide_eq_true_2 by exact Ht3.
    rewrite (handleDiscoveryRequest_run n payload Hwf).
    eexists _, _. split; [reflexivity|]. cbn [world set_world].
    split; [reflexivity|]. split; [apply handled_publish; reflexivity|].
    split; [intros [|]; congruence|]. intros _ _. split; [reflexivity|].
    split; [subst t; discriminate|]. intros; congruence. }
  rewrite bool_decide_eq_false_2 by exact Ht3.
  destruct (decide (t = "shelf/heartbeat")) as [Ht4|Ht4].
  { rewrite bool_decide_eq_true_2 by exact Ht4.
    rewrite (in_world_run _ n _ _ (handleHeartbeatRequest_run (world n) payload)).
    eexists _, _. split; [reflexivity|]. cbn [world set_world].
    split; [reflexivity|]. split; [apply handled_publish; reflexivity|].
    split; [intros [|]; congruence|]. intros _ _. split; [congruence|].
    split; [reflexivity|]. intros; congruence. }
  rewrite bool_decide_eq_false_2 by exact Ht4.
  destruct (decide (t = device_config_request_topic n)) as [Ht5|Ht5].
  { rewrite bool_decide_eq_true_2 by exact Ht5.
    destruct (handleShelfConfigRequest_handled (world n) payload Hwf)
      as (w' & sent & Hrun & Hh & _).
    rewrite (in_world_run _ n _ _ Hrun).
    exists (set_world w' n), sent. split; [reflexivity|]. cbn [world set_world].
    split; [reflexivity|]. split; [exact Hh|].
    split; [intros [|]; congruence|]. intros _ _. split; [congruence|].
    split; [congruence|]. intros _ _. split; [intros _; exact Hrun | congruence]. }
  rewrite bool_decide_eq_false_2 by exact Ht5.
  exists n, []. split; [reflexivity|]. split; [symmetry; apply set_world_same|].
  split; [apply handled_nothing|].
  split; [intros [|]; congruence|]. intros _ _. split; [congruence|].
  split; [congruence|]. intros _ _. split; [congruence | reflexivity].
Qed.

(** A heartbeat request delivered to the sketch. *)
Lemma callback_dispatch_witness :
  wf scenario_world /\
  exists n',
    mqttCallback "shelf/heartbeat" "ping"
      (power_on scenario_world 0 (fun _ => true) (fun _ => 0) [] 0) = Some (tt, n') /\
    payload <$> outbox (world n')
    = [ "{" +:+ member_q "device_id" "ESP32S3_TEST" +:+ "," +:+
        member_q "status" "online" +:+ "," +:+ member "timestamp" "0" +:+ "}" ].
Proof.
  assert (Hwf : wf scenario_world) by (split; reflexivity).
  split; [exact Hwf|].
  destruct (callback_dispatch (power_on scenario_world 0 (fun _ => true) (fun _ => 0) [] 0)
              "shelf/heartbeat" "ping" Hwf)
    as (n' & sent & Hrun & _ & _ & _ & Hrest).
  destruct Hrest as (_ & Hbeat & _); [discriminate | discriminate |].
  exists n'. split; [exact Hrun|]. rewrite (Hbeat eq_refl). reflexivity.
Defined.

End Callback_props.

(* ===================================================================== *)
(** ** The session with the broker                                       *)
(* ===================================================================== *)

Module Session_props.
Import ArduinoString Firmware Shelf_facts Router_facts Command_router_spec
       Config_request_spec Broker_link_spec Scan_notions Frame_notions Frame_props
       Status_props Broker_session Callback_props.

(** [resolveMQTTServer] always answers, and writes the address and the
    flag only. *)
Lemma resolveMQTTServer_total (w : World) :
  exists ok ip,
    resolveMQTTServer w
    = Some (ok, set_mqtt_ip_resolved ok (set_mqtt_server_resolved_ip ip w)).
Proof.
  unfold resolveMQTTServer. run.
  destruct (hostByName w (mqtt_hostname w)) as [found ip].
  destruct (found && _).
  - exists true, ip. reflexivity.
  - destruct (fromString (mqtt_server_ip w) ip) as [parsed ip'].
    exists parsed, ip'. destruct parsed; destruct w; reflexivity.
Qed.

(** One round of [reconnectMQTT] with the Wi-Fi link up and the session
    down: the server that is dialled, the attempt, and what follows
    from its outcome. *)
Lemma reconnectMQTT_attempt (n : Node) :
  wifi_connected (world n) = true ->
  mqtt_connected (world n) = false ->
  exists ok ip n',
    resolveMQTTServer (world n)
    = Some (ok, set_mqtt_ip_resolved ok (set_mqtt_server_resolved_ip ip (world n))) /\
    reconnectMQTT n = Some (tt, n') /\
    server n'
    = (if mqtt_ip_resolved (world n) then server n
       else Some (if ok then ServerIP ip else ServerName (mqtt_server_ip (world n)))) /\
    connect_log n'
    = connect_log n ++
      [(server n', "ESP32_Shelf_" +:+ of_hex (random n (random_calls n)))] /\
    random_calls n' = S (random_calls n) /\
    mqtt_connected (world n') = broker n (length (connect_log n)) /\
    mqtt_server_resolved_ip (world n')
    = (if mqtt_ip_resolved (world n) then mqtt_server_resolved_ip (world n) else ip) /\
    (broker n (length (connect_log n)) = true ->
     subscribe_log n'
     = subscribe_log n ++
       [ device_command_topic n; "shelf/discovery"; "shelf/heartbeat";
         "shelf/" +:+ device_id (world n) +:+ "/config/request" ] /\
     device_config_request_topic n'
     = "shelf/" +:+ device_id (world n) +:+ "/config/request" /\
     device_config_response_topic (world n')
     = "shelf/" +:+ device_id (world n) +:+ "/config/response" /\
     device_calibrate_response_topic (world n')
     = "shelf/" +:+ device_id (world n) +:+ "/calibrate/response" /\
     outbox (world n')
     = outbox (world n) ++
       [ {| topic := "shelf/status"; payload := "online"; retained := false |} ] /\
     mqtt_ip_resolved (world n') = (mqtt_ip_resolved (world n) || ok)) /\
    (broker n (length (connect_log n)) = false ->
     subscribe_log n' = subscribe_log n /\
     device_config_request_topic n' = device_config_request_topic n /\
     device_config_response_topic (world n') = device_config_response_topic (world n) /\
     device_calibrate_response_topic (world n')
     = device_calibrate_response_topic (world n) /\
     outbox (world n') = outbox (world n) /\
     mqtt_ip_resolved (world n') = false) /\
    shelfConfig (world n') = shelfConfig (world n) /\
    distance (world n') = distance (world n) /\
    preferences (world n') = preferences (world n) /\
    wifi_connected (world n') = true /\
    device_id (world n') = device_id (world n) /\
    millis (world n') = millis (world n) /\
    hostByName (world n') = hostByName (world n) /\
    mqtt_hostname (world n') = mqtt_hostname (world n) /\
    mqtt_server_ip (world n') = mqtt_server_ip (world n) /\
    device_command_topic n' = device_command_topic n /\
    inbox n' = inbox n /\
    lastMQTTReconnect n' = lastMQTTReconnect n /\
    lastStatusPublish n' = lastStatusPublish n /\
    broker n' = broker n /\ random n' = random n /\
    buffer_size n' = buffer_size n /\ keep_alive n' = keep_alive n /\
    serial_number n' = serial_number n.
Proof.
  intros Hwifi Hmqtt.
  destruct (resolveMQTTServer_total (world n)) as (ok & ip & Hres).
  exists ok, ip.
  destruct n as [w mac ser cmd req lastR lastS srv buf ka subs log br rnd calls box sig].
  destruct w as [table dist us rlog prefs mqtt wifi out dev cfg cal host static dns
                   rip resolved ms].
  cbn [world wifi_connected mqtt_connected] in Hwifi, Hmqtt, Hres. subst wifi mqtt.
  unfold reconnectMQTT. session.
  destruct resolved.
  - session. destruct (br (length log)) eqn:Hbr; session.
    + eexists. split; [exact Hres|]. split; [reflexivity|]. session.
      repeat split; try reflexivity; try discriminate;
        try (rewrite <- !app_assoc; reflexivity).
    + eexists. split; [exact Hres|]. split; [reflexivity|]. session.
      repeat split; try reflexivity; try discriminate;
        try (rewrite <- !app_assoc; reflexivity).
  - rewrite Hres. session.
    destruct ok; session; destruct (br (length log)) eqn:Hbr; session;
      (eexists; split; [reflexivity|]; split; [reflexivity|]; session;
       repeat split; try reflexivity; try discriminate;
       try (rewrite <- !app_assoc; reflexivity)).
Qed.

(** With a static address that parses, the resolution succeeds. *)
Lemma resolveMQTTServer_static (w : World) (static : IPAddress) :
  parses_to (mqtt_server_ip w) static ->
  resolveMQTTServer w
  = Some (true, set_mqtt_ip_resolved true
                  (set_mqtt_server_resolved_ip (chosen_address w static) w)).
Proof.
  intros Hstatic. unfold resolveMQTTServer, chosen_address. run.
  destruct (hostByName w (mqtt_hostname w)) as [found ip].
  assert (E : negb (ip0 ip =? 0) || negb (ip1 ip =? 0) || negb (ip2 ip =? 0)
              || negb (ip3 ip =? 0)
              = negb ((ip0 ip =? 0) && (ip1 ip =? 0) && (ip2 ip =? 0) && (ip3 ip =? 0))).
  { destruct (ip0 ip =? 0), (ip1 ip =? 0), (ip2 ip =? 0), (ip3 ip =? 0); reflexivity. }
  rewrite E. destruct (found && _).
  - reflexivity.
  - rewrite (Hstatic ip). destruct w; reflexivity.
Qed.

(** X14. [reconnectMQTT] does nothing without the Wi-Fi link. With the
    link up and the session down it makes exactly one connection
    attempt, under the client identity ESP32_Shelf_ followed by a random
    number in base 16, at the server set before if the address counts
    as resolved, and else at the server it sets from a new resolution: the
    address found, or the static address as a string when the
    resolution fails. When the broker accepts, the client subscribes,
    in this order, to the command topic of the device, shelf/discovery,
    shelf/heartbeat and the configuration request topic of the device,
    sets the three topics derived from the identity of the device and
    publishes online on shelf/status. When the broker refuses, nothing
    is subscribed or published and the address counts as unresolved, so
    that the next round resolves it again before it dials. The slots,
    the samples, the flash store and the clock are never touched. *)
Theorem reconnectMQTT_session (n : Node) :
  (wifi_connected (world n) = false -> reconnectMQTT n = Some (tt, n)) /\
  (wifi_connected (world n) = true -> mqtt_connected (world n) = false ->
   exists n',
     reconnectMQTT n = Some (tt, n') /\
     connect_log n' = connect_log n ++ [(server n', next_client_id n)] /\
     (mqtt_ip_resolved (world n) = true -> server n' = server n) /\
     (mqtt_ip_resolved (world n) = false ->
      exists ok w1,
        resolveMQTTServer (world n) = Some (ok, w1) /\
        server n' = Some (if ok then ServerIP (mqtt_server_resolved_ip w1)
                          else ServerName (mqtt_server_ip (world n)))) /\
     mqtt_connected (world n') = broker n (length (connect_log n)) /\
     (broker n (length (connect_log n)) = true ->
      subscribe_log n' = subscribe_log n ++ session_topics n /\
      device_config_request_topic n'
      = "shelf/" +:+ device_id (world n) +:+ "/config/request" /\
      device_config_response_topic (world n')
      = "shelf/" +:+ device_id (world n) +:+ "/config/response" /\
      device_calibrate_response_topic (world n')
      = "shelf/" +:+ device_id (world n) +:+ "/calibrate/response" /\
      outbox (world n')
      = outbox (world n) ++
        [ {| topic := "shelf/status"; payload := "online"; retained := false |} ]) /\
     (broker n (length (connect_log n)) = false ->
      subscribe_log n' = subscribe_log n /\
      outbox (world n') = outbox (world n) /\
      mqtt_ip_resolved (world n') = false /\
      exists n'' ok w1,
        reconnectMQTT n' = Some (tt, n'') /\
        resolveMQTTServer (world n') = Some (ok, w1) /\
        server n'' = Some (if ok then ServerIP (mqtt_server_resolved_ip w1)
                           else ServerName (mqtt_server_ip (world n))) /\
        connect_log n'' = connect_log n' ++ [(server n'', next_client_id n')]) /\
     shelfConfig (world n') = shelfConfig (world n) /\
     distance (world n') = distance (world n) /\
     preferences (world n') = preferences (world n) /\
     millis (world n') = millis (world n) /\
     device_id (world n') = device_id (world n)).
Proof.
  split.
  - intros Hwifi. unfold reconnectMQTT. unfold bind at 1.
    rewrite (in_world_run (gets wifi_connected) n false (world n))
      by (unfold gets; rewrite Hwifi; reflexivity).
    rewrite set_world_same. reflexivity.
  - intros Hwifi Hmqtt.
    destruct (reconnectMQTT_attempt n Hwifi Hmqtt)
      as (ok & ip & n' & Hres & Hrun & Hsrv & Hlog & Hcalls & Hconn & Hrip & Hyes & Hno
          & Htable & Hdist & Hprefs & Hwifi' & Hdev & Hms & Hdns & Hhost & Hstatic
          & Hcmd & _).
    exists n'. split; [exact Hrun|]. split; [exact Hlog|].
    split; [intros Hr; rewrite Hsrv, Hr; reflexivity|].
    split.
    { intros Hr. eexists ok, _. split; [exact Hres|]. rewrite Hsrv, Hr. reflexivity. }
    split; [exact Hconn|]. split.
    { intros Hacc. destruct (Hyes Hacc) as (H1 & H2 & H3 & H4 & H5 & _).
      repeat split; assumption. }
    split.
    { intros Hacc. destruct (Hno Hacc) as (H1 & _ & _ & _ & H5 & H6).
      split; [exact H1|]. split; [exact H5|]. split; [exact H6|].
      destruct (reconnectMQTT_attempt n' Hwifi' ltac:(congruence))
        as (ok2 & ip2 & n'' & Hres2 & Hrun2 & Hsrv2 & Hlog2 & _).
      exists n'', ok2. eexists. split; [exact Hrun2|]. split; [exact Hres2|].
      split; [|exact Hlog2].
      rewrite Hsrv2, H6, Hstatic. reflexivity. }
    repeat split; assumption.
Qed.

(** The sketch without a session and with a broker that refuses the
    first attempt: one attempt, then a second one after a new
    resolution, both at the static address. *)
Lemma reconnectMQTT_session_witness :
  exists n' n'',
    reconnectMQTT (power_on offline_world 0 (fun k => bool_decide (k = 1%nat))
                     (fun _ => 0x1a2b) [] 0) = Some (tt, n') /\
    reconnectMQTT n' = Some (tt, n'') /\
    connect_log n''
    = [ (Some (ServerIP {| ip0 := 192; ip1 := 168; ip2 := 0; ip3 := 109 |}),
         "ESP32_Shelf_1a2b");
        (Some (ServerIP {| ip0 := 192; ip1 := 168; ip2 := 0; ip3 := 109 |}),
         "ESP32_Shelf_1a2b") ] /\
    mqtt_connected (world n'') = true /\
    subscribe_log n''
    = [""; "shelf/discovery"; "shelf/heartbeat"; "shelf/ESP32S3_TEST/config/request"].
Proof.
  set (n := power_on offline_world 0 (fun k => bool_decide (k = 1%nat))
              (fun _ => 0x1a2b) [] 0).
  destruct (reconnectMQTT_session n) as [_ H].
  destruct (H eq_refl eq_refl) as (n' & Hrun & _).
  assert (E : reconnectMQTT n = Some (tt, n')) by exact Hrun.
  exists n'.
  assert (Hn' : snd <$> reconnectMQTT n
                = Some (set_world
                          (set_mqtt_ip_resolved false
                             (set_mqtt_server_resolved_ip
                                {| ip0 := 192; ip1 := 168; ip2 := 0; ip3 := 109 |}
                                offline_world))
                          (set_connect_log
                             [(Some (ServerIP {| ip0 := 192; ip1 := 168; ip2 := 0;
                                                 ip3 := 109 |}), "ESP32_Shelf_1a2b")]
                             (set_random_calls 1
                                (set_server
                                   (Some (ServerIP {| ip0 := 192; ip1 := 168;
                                                      ip2 := 0; ip3 := 109 |}))
                                   n))))) by (vm_compute; reflexivity).
  rewrite E in Hn'. cbn in Hn'. injection Hn' as ->.
  match goal with
  | |- exists n'', _ /\ reconnectMQTT ?m = _ /\ _ =>
      let r := eval vm_compute in (reconnectMQTT m) in
      match r with Some (_, ?x) => exists x end
  end.
  split; [exact E|]. split; [vm_compute; reflexivity|].
  repeat split; vm_compute; reflexivity.
Defined.

End Session_props.

(* ===================================================================== *)
(** ** Setting the client up, and keeping the session                    *)
(* ===================================================================== *)

Module Connection_props.
Import ArduinoString Firmware Shelf_facts Router_facts Command_router_spec
       Config_request_spec Broker_link_spec Scan_notions Frame_notions Frame_props
       Status_props Broker_session Callback_props Session_props.

(** [setupMQTT] up to its connection attempt. *)
Lemma setupMQTT_run (n : Node) (static : IPAddress) :
  parses_to (mqtt_server_ip (world n)) static ->
  let a := chosen_address (world n) static in
  let n3 := set_server (Some (ServerIP a))
              (set_world (set_mqtt_ip_resolved true
                            (set_mqtt_server_resolved_ip a (world n)))
                 (set_keep_alive 60 (set_buffer_size 2048 n))) in
  setupMQTT n = if wifi_connected (world n) then reconnectMQTT n3 else Some (tt, n3).
Proof.
  intros Hstatic a n3. subst a n3.
  destruct n as [w mac ser cmd req lastR lastS srv buf ka subs log br rnd calls box sig].
  cbn [world] in *.
  unfold setupMQTT. session.
  rewrite (resolveMQTTServer_static w static Hstatic). session.
  destruct w as [table dist us rlog prefs mqtt wifi out dev cfg cal host stat dns
                   rip resolved ms].
  session. destruct wifi; reflexivity.
Qed.

(** [mqttClient.loop()] returns: the message at the head of the queue
    is gone, the session stands, and the node is touched in its world
    only. *)
Lemma mqttClient_loop_total (n : Node) :
  wf (world n) ->
  exists n1, mqttClient_loop n = Some (tt, n1) /\
             n1 = set_world (world n1) (set_inbox (tail (inbox n)) n) /\
             wf (world n1) /\
             mqtt_connected (world n1) = mqtt_connected (world n).
Proof.
  intros Hwf. unfold mqttClient_loop. unfold bind at 1, gets at 1.
  destruct (inbox n) as [|[t p] rest] eqn:Hbox.
  - exists n. split; [reflexivity|]. cbn [tail]. rewrite <- Hbox.
    split; [destruct n; reflexivity|]. split; [exact Hwf | reflexivity].
  - unfold bind at 1, modify at 1.
    destruct (mqttCallback_total (set_inbox rest n) t p Hwf)
      as (n1 & Hrun & Hshape & Hwf1 & Hm1).
    exists n1. split; [exact Hrun|]. split; [exact Hshape|].
    split; [exact Hwf1 | exact Hm1].
Qed.

Lemma snoc_neq {A} (l : list A) (x : A) : l ++ [x] <> l.
Proof.
  intros H. apply (f_equal (@length A)) in H. rewrite length_app in H.
  cbn [length] in H. lia.
Qed.

(** X15. [setupMQTT] with a static address that parses: the client
    gets a buffer of 2048 bytes and a keep-alive of 60 seconds, and the
    server is set by address, the one found for the host name when the
    lookup gives an address other than 0.0.0.0 and the static one
    otherwise, never by name. Without the Wi-Fi link no connection
    is attempted, nothing is subscribed or published and the address
    counts as resolved. With the link there is exactly one attempt, at
    that server; when the broker accepts, the four topics are
    subscribed and online is published, and when it refuses the
    address counts as unresolved again. *)
Theorem setupMQTT_configures (n : Node) (static : IPAddress) :
  parses_to (mqtt_server_ip (world n)) static ->
  mqtt_connected (world n) = false ->
  exists n',
    setupMQTT n = Some (tt, n') /\
    buffer_size n' = 2048 /\ keep_alive n' = 60 /\
    server n' = Some (ServerIP (chosen_address (world n) static)) /\
    mqtt_server_resolved_ip (world n') = chosen_address (world n) static /\
    (wifi_connected (world n) = false ->
     connect_log n' = connect_log n /\ subscribe_log n' = subscribe_log n /\
     outbox (world n') = outbox (world n) /\
     mqtt_connected (world n') = false /\ mqtt_ip_resolved (world n') = true) /\
    (wifi_connected (world n) = true ->
     connect_log n' = connect_log n ++ [(server n', next_client_id n)] /\
     mqtt_connected (world n') = broker n (length (connect_log n)) /\
     mqtt_ip_resolved (world n') = broker n (length (connect_log n)) /\
     (broker n (length (connect_log n)) = true ->
      subscribe_log n' = subscribe_log n ++ session_topics n /\
      outbox (world n')
      = outbox (world n) ++
        [ {| topic := "shelf/status"; payload := "online"; retained := false |} ]) /\
     (broker n (length (connect_log n)) = false ->
      subscribe_log n' = subscribe_log n /\ outbox (world n') = outbox (world n))).
Proof.
  intros Hstatic Hmqtt. rewrite (setupMQTT_run n static Hstatic). cbv zeta.
  set (a := chosen_address (world n) static). clearbody a.
  destruct n as [w mac ser cmd req lastR lastS srv buf ka subs log br rnd calls box sig].
  destruct w as [table dist us rlog prefs mqtt wifi out dev cfg cal host stat dns
                   rip resolved ms].
  cbn [world mqtt_connected] in Hmqtt. subst mqtt.
  destruct wifi.
  - match goal with
    | |- exists n', (if _ then reconnectMQTT ?m else _) = _ /\ _ =>
        destruct (reconnectMQTT_attempt m eq_refl eq_refl)
          as (ok & ip & n' & _ & Hrun & Hsrv & Hlog & _ & Hconn & Hrip & Hyes & Hno
              & _ & _ & _ & _ & _ & _ & _ & _ & _ & _ & _ & _ & _ & _ & _ & Hbuf & Hka & _)
    end.
    revert Hrun Hsrv Hlog Hconn Hrip Hyes Hno Hbuf Hka. session.
    intros Hrun Hsrv Hlog Hconn Hrip Hyes Hno Hbuf Hka.
    exists n'. split; [exact Hrun|].
    split; [exact Hbuf|]. split; [exact Hka|]. split; [exact Hsrv|].
    split; [exact Hrip|]. split; [discriminate|]. intros _.
    split; [exact Hlog|]. split; [exact Hconn|].
    split.
    { destruct (br (length log)).
      - destruct (Hyes eq_refl) as (_ & _ & _ & _ & _ & H). exact H.
      - destruct (Hno eq_refl) as (_ & _ & _ & _ & _ & H). exact H. }
    split.
    + intros Hacc. destruct (Hyes Hacc) as (H1 & _ & _ & _ & H5 & _).
      split; [exact H1 | exact H5].
    + intros Hacc. destruct (Hno Hacc) as (H1 & _ & _ & _ & H5 & _).
      split; [exact H1 | exact H5].
  - eexists. split; [reflexivity|]. session.
    repeat split; try reflexivity; discriminate.
Qed.

(** The sketch at power-on, where the lookup of the host name fails:
    the static address 192.168.0.109 is dialled once. *)
Lemma setupMQTT_configures_witness :
  exists n',
    setupMQTT (power_on (set_links false true offline_world) 0 (fun _ => true)
                 (fun _ => 0x1a2b) [] 0) = Some (tt, n') /\
    buffer_size n' = 2048 /\ keep_alive n' = 60 /\
    connect_log n'
    = [ (Some (ServerIP {| ip0 := 192; ip1 := 168; ip2 := 0; ip3 := 109 |}),
         "ESP32_Shelf_1a2b") ] /\
    mqtt_connected (world n') = true.
Proof.
  set (n := power_on (set_links false true offline_world) 0 (fun _ => true)
              (fun _ => 0x1a2b) [] 0).
  assert (Hstatic : parses_to (mqtt_server_ip (world n))
                      {| ip0 := 192; ip1 := 168; ip2 := 0; ip3 := 109 |}).
  { intros a. vm_compute. reflexivity. }
  destruct (setupMQTT_configures n _ Hstatic eq_refl)
    as (n' & Hrun & Hbuf & Hka & Hsrv & _ & _ & Hup).
  destruct (Hup eq_refl) as (Hlog & Hconn & _).
  exists n'. split; [exact Hrun|]. split; [exact Hbuf|]. split; [exact Hka|].
  split; [|exact Hconn]. rewrite Hlog, Hsrv. vm_compute. reflexivity.
Defined.

(** X16. [handleMQTTConnection], called from [loop], returns without
    fault. Without a session it dials the broker exactly when the Wi-Fi
    link is up and at least 5000 ms have passed on the 32-bit clock
    since the last attempt, the difference being taken modulo 2^32; it
    then makes one attempt, stamped with the time of the call, and else
    it changes nothing at all. With a session it never dials: it lets
    the client process its input, and then publishes one status message
    exactly when at least 30000 ms have passed since the last one,
    stamped with the time after the input was processed; otherwise
    nothing is added to what the client did. *)
Theorem handleMQTTConnection_rates (n : Node) :
  wf (world n) ->
  exists n',
    handleMQTTConnection n = Some (tt, n') /\
    (connect_log n' <> connect_log n <->
     mqtt_connected (world n) = false /\ wifi_connected (world n) = true /\
     MQTT_RECONNECT_INTERVAL <= wrap32 (millis (world n) - lastMQTTReconnect n)) /\
    (connect_log n' <> connect_log n ->
     connect_log n' = connect_log n ++ [(server n', next_client_id n)] /\
     lastMQTTReconnect n' = millis (world n) /\
     mqtt_connected (world n') = broker n (length (connect_log n)) /\
     lastStatusPublish n' = lastStatusPublish n /\ inbox n' = inbox n) /\
    (mqtt_connected (world n) = false -> connect_log n' = connect_log n -> n' = n) /\
    (mqtt_connected (world n) = true ->
     exists n1,
       mqttClient_loop n = Some (tt, n1) /\
       inbox n' = tail (inbox n) /\
       lastMQTTReconnect n' = lastMQTTReconnect n /\
       mqtt_connected (world n') = true /\
       (wrap32 (millis (world n1) - lastStatusPublish n) < STATUS_PUBLISH_INTERVAL ->
        n' = n1) /\
       (STATUS_PUBLISH_INTERVAL <= wrap32 (millis (world n1) - lastStatusPublish n) ->
        lastStatusPublish n' = millis (world n1) /\
        world n' = set_outbox (outbox (world n1) ++ [status_publication (world n1)])
                     (world n1))).
Proof.
  intros Hwf. unfold handleMQTTConnection. unfold bind at 1.
  rewrite (in_world_run (gets mqtt_connected) n (mqtt_connected (world n)) (world n)
             eq_refl), set_world_same.
  destruct (mqtt_connected (world n)) eqn:Hm.
  - destruct (mqttClient_loop_total n Hwf) as (n1 & Hloop & Hshape & Hwf1 & Hm1).
    rewrite Hm in Hm1.
    unfold bind at 1. rewrite Hloop.
    unfold bind at 1.
    rewrite (in_world_run (gets millis) n1 (millis (world n1)) (world n1) eq_refl),
      set_world_same.
    unfold bind at 1, gets at 1.
    assert (Hlast : lastStatusPublish n1 = lastStatusPublish n)
      by (rewrite Hshape; destruct n; reflexivity).
    assert (Hlog : connect_log n1 = connect_log n)
      by (rewrite Hshape; destruct n; reflexivity).
    assert (Hbox : inbox n1 = tail (inbox n))
      by (rewrite Hshape; destruct n; reflexivity).
    assert (HlastR : lastMQTTReconnect n1 = lastMQTTReconnect n)
      by (rewrite Hshape; destruct n; reflexivity).
    rewrite Hlast.
    destruct (Z.geb_spec (wrap32 (millis (world n1) - lastStatusPublish n))
                STATUS_PUBLISH_INTERVAL) as [Hdue|Hdue].
    + unfold bind at 1, modify at 1.
      rewrite (in_world_run publishSystemStatus
                 (set_lastStatusPublish (millis (world n1)) n1) _ _
                 (publishSystemStatus_exact _ Hwf1)).
      cbn [world set_lastStatusPublish]. rewrite Hm1.
      eexists. split; [reflexivity|].
      cbn [connect_log set_world set_lastStatusPublish lastMQTTReconnect
             lastStatusPublish inbox world mqtt_connected set_outbox].
      split; [split; [intros H; contradiction | intros [H _]; discriminate]|].
      split; [intros H; contradiction|].
      split; [discriminate|]. intros _. exists n1.
      split; [reflexivity|]. split; [exact Hbox|]. split; [exact HlastR|].
      split; [exact Hm1|]. split; [intros H; lia|]. intros _.
      split; reflexivity.
    + exists n1. split; [reflexivity|].
      split; [split; [intros H; contradiction | intros [H _]; discriminate]|].
      split; [intros H; contradiction|].
      split; [discriminate|]. intros _. exists n1.
      split; [reflexivity|]. split; [exact Hbox|]. split; [exact HlastR|].
      split; [exact Hm1|]. split; [reflexivity|]. intros H. lia.
  - unfold bind at 1.
    rewrite (in_world_run (gets wifi_connected) n (wifi_connected (world n)) (world n)
               eq_refl), set_world_same.
    destruct (wifi_connected (world n)) eqn:Hwifi.
    + unfold bind at 1.
      rewrite (in_world_run (gets millis) n (millis (world n)) (world n) eq_refl),
        set_world_same.
      unfold bind at 1, gets at 1.
      destruct (Z.geb_spec (wrap32 (millis (world n) - lastMQTTReconnect n))
                  MQTT_RECONNECT_INTERVAL) as [Hdue|Hdue].
      * unfold bind at 1, modify at 1.
        destruct (reconnectMQTT_attempt (set_lastMQTTReconnect (millis (world n)) n))
          as (ok & ip & n' & _ & Hrun & _ & Hlog & _ & Hconn & _ & _ & _
              & _ & _ & _ & _ & _ & _ & _ & _ & _ & _ & Hbox & HlastR & HlastS & _);
          [destruct n; exact Hwifi | destruct n; exact Hm |].
        assert (E : connect_log n' = connect_log n ++ [(server n', next_client_id n)])
          by (rewrite Hlog; destruct n; reflexivity).
        exists n'. split; [exact Hrun|].
        split.
        { split; [intros _; split; [reflexivity|]; split; [reflexivity | lia]|].
          intros _. rewrite E. apply snoc_neq. }
        split.
        { intros _. split; [exact E|].
          split; [rewrite HlastR; destruct n; reflexivity|].
          split; [rewrite Hconn; destruct n; reflexivity|].
          split; [rewrite HlastS; destruct n; reflexivity|].
          rewrite Hbox; destruct n; reflexivity. }
        split; [|discriminate].
        intros _ H. rewrite E in H. destruct (snoc_neq _ _ H).
      * exists n. split; [reflexivity|].
        split; [split; [intros H; contradiction | intros (_ & _ & H); lia]|].
        split; [intros H; contradiction|].
        split; [reflexivity | discriminate].
    + exists n. split; [reflexivity|].
      split; [split; [intros H; contradiction | intros (_ & H & _); discriminate]|].
      split; [intros H; contradiction|].
      split; [reflexivity | discriminate].
Qed.

(** A node whose clock has wrapped since the last attempt: 1000 ms
    before the wrap and 4500 ms after it make 5500 ms, so the broker
    is dialled, and the attempt is stamped 4500. *)
Lemma handleMQTTConnection_rates_witness :
  exists n',
    handleMQTTConnection
      (set_lastMQTTReconnect (2 ^ 32 - 1000)
         (power_on (set_millis 4500 (set_links false true offline_world)) 0
            (fun _ => true) (fun _ => 0x1a2b) [] 0)) = Some (tt, n') /\
    connect_log n'
    = [ (Some (ServerIP {| ip0 := 192; ip1 := 168; ip2 := 0; ip3 := 109 |}),
         "ESP32_Shelf_1a2b") ] /\
    lastMQTTReconnect n' = 4500.
Proof.
  set (n := set_lastMQTTReconnect (2 ^ 32 - 1000)
              (power_on (set_millis 4500 (set_links false true offline_world)) 0
                 (fun _ => true) (fun _ => 0x1a2b) [] 0)).
  assert (Hwf : wf (world n)) by (split; reflexivity).
  destruct (handleMQTTConnection_rates n Hwf) as (n' & Hrun & Hiff & Hatt & _).
  assert (Hdue : connect_log n' <> connect_log n).
  { apply Hiff. split; [reflexivity|]. split; [reflexivity|].
    vm_compute. discriminate. }
  destruct (Hatt Hdue) as (Hlog & Hstamp & _).
  exists n'. split; [exact Hrun|]. split; [|exact Hstamp].
  assert (Hsrv : snd <$> handleMQTTConnection n
                 = snd <$> handleMQTTConnection n) by reflexivity.
  rewrite Hrun in Hsrv at 1. cbn [fmap option_fmap option_map snd] in Hsrv.
  assert (E : server <$> (snd <$> handleMQTTConnection n)
              = Some (Some (ServerIP {| ip0 := 192; ip1 := 168; ip2 := 0;
                                        ip3 := 109 |})))
    by (vm_compute; reflexivity).
  rewrite <- Hsrv in E. cbn [fmap option_fmap option_map] in E.
  injection E as E. rewrite Hlog, E. vm_compute. reflexivity.
Defined.

End Connection_props.

(* ===================================================================== *)
(** ** The time a connection attempt takes                                *)
(* ===================================================================== *)

Module WiFi_timing_props.
Import WiFi_manager WiFi_rotation WiFi_host.

Lemma wrap32_wrap32 (z : Z) : wrap32 (wrap32 z) = wrap32 z.
Proof. unfold wrap32. apply Z.mod_mod. lia. Qed.

Lemma wrap32_add_l (a b : Z) : wrap32 (wrap32 a + b) = wrap32 (a + b).
Proof. unfold wrap32. apply Zplus_mod_idemp_l. Qed.

Lemma set_millis_same (s : Sketch) : set_millis (millis s) s = s.
Proof. destruct s; reflexivity. Qed.

Lemma set_millis_twice (t t' : Z) (s : Sketch) :
  set_millis t (set_millis t' s) = set_millis t s.
Proof. reflexivity. Qed.

Lemma polls_bound (timeout : Z) :
  0 <= timeout ->
  100 * Z.of_nat (polls timeout) < timeout + 100 /\
  timeout <= 100 * Z.of_nat (polls timeout).
Proof.
  intros H. unfold polls. rewrite Z2Nat.id by (apply Z.div_pos; lia).
  pose proof (Z.div_mod (timeout + 99) 100 ltac:(lia)).
  pose proof (Z.mod_pos_bound (timeout + 99) 100 ltac:(lia)). lia.
Qed.

(** The polling loop from its [k]-th round on. *)
Lemma TryConnectWiFi_wait_run (id pw : string) (start timeout : Z) (m : nat) :
  forall (k fuel : nat) (s : Sketch),
    0 <= timeout <= 2 ^ 32 - 100 ->
    (k + m = polls timeout)%nat ->
    (m < fuel)%nat ->
    station s = Some (id, pw) ->
    millis s = wrap32 (start + 100 * Z.of_nat k) ->
    TryConnectWiFi_wait fuel (wrap32 start) timeout s
    = Some (match find (radio s id pw)
                    (map (fun j => wrap32 (start + 100 * Z.of_nat j)) (seq k m)) with
            | Some t => (true, set_millis t s)
            | None => (false, set_millis (wrap32 (start + 100 * Z.of_nat (k + m))) s)
            end).
Proof.
  induction m as [|m IH]; intros k fuel s Ht Hk Hfuel Hst Hms;
    (destruct fuel as [|fuel]; [lia|]);
    destruct (polls_bound timeout ltac:(lia)) as [Hlo Hhi];
    cbn [TryConnectWiFi_wait]; unfold bind at 1, gets at 1;
    assert (He : wrap32 (millis s - wrap32 start) = 100 * Z.of_nat k)
      by (rewrite Hms; unfold wrap32; rewrite <- Zminus_mod;
          replace (start + 100 * Z.of_nat k - start) with (100 * Z.of_nat k) by lia;
          apply Z.mod_small; lia);
    rewrite He.
  - destruct (Z.ltb_spec (100 * Z.of_nat k) timeout) as [H|H]; [lia|].
    cbn [seq map find]. rewrite Nat.add_0_r, <- Hms, set_millis_same. reflexivity.
  - destruct (Z.ltb_spec (100 * Z.of_nat k) timeout) as [H|H]; [|lia].
    unfold bind at 1, gets at 1. unfold WiFi_connected. rewrite Hst.
    cbn [seq map find]. rewrite <- Hms.
    destruct (radio s id pw (millis s)) eqn:Hup.
    + rewrite set_millis_same. reflexivity.
    + unfold bind at 1, delay, modify.
      rewrite (IH (Datatypes.S k) fuel (set_millis (wrap32 (millis s + 100)) s));
        [| lia | lia | lia | exact Hst |].
      * cbn [radio set_millis].
        destruct (find _ _); [reflexivity|].
        rewrite set_millis_twice. do 4 f_equal. lia.
      * cbn [millis set_millis]. rewrite Hms, wrap32_add_l. f_equal. lia.
Qed.

(** [TryConnectWiFi], exactly: the station is started with the given
    credentials, and the clock stops at the first poll that finds it
    connected, or after the last one. *)
Lemma TryConnectWiFi_run (id pw : string) (timeout : Z) (s : Sketch) :
  0 <= timeout <= 2 ^ 32 - 100 ->
  TryConnectWiFi id pw timeout s
  = Some (match find (radio s id pw) (poll_times timeout (millis s)) with
          | Some t => (true, set_millis t (set_station (Some (id, pw)) s))
          | None =>
              (false,
               set_millis (wrap32 (millis s + 100 + 100 * Z.of_nat (polls timeout)))
                 (set_station (Some (id, pw)) s))
          end).
Proof.
  intros Ht. unfold TryConnectWiFi.
  cbv beta iota delta [bind modify delay gets].
  cbn [millis set_station set_millis].
  rewrite (TryConnectWiFi_wait_run id pw (millis s + 100) timeout (polls timeout) 0);
    [| exact Ht | reflexivity | | reflexivity |].
  - cbn [radio set_station set_millis Nat.add]. unfold poll_times.
    destruct (find _ _); destruct s; reflexivity.
  - unfold polls.
    assert (H : (timeout + 99) / 100 <= timeout / 100 + 1).
    { pose proof (Z.div_mod (timeout + 99) 100 ltac:(lia)).
      pose proof (Z.mod_pos_bound (timeout + 99) 100 ltac:(lia)).
      pose proof (Z.div_mod timeout 100 ltac:(lia)).
      pose proof (Z.mod_pos_bound timeout 100 ltac:(lia)). lia. }
    assert (0 <= timeout / 100) by (apply Z.div_pos; lia).
    assert (0 <= (timeout + 99) / 100) by (apply Z.div_pos; lia). lia.
  - cbn [millis set_station set_millis]. f_equal. lia.
Qed.




End WiFi_timing_props.

(* ===================================================================== *)
(** ** The time a rotation takes, and the manager called from loop       *)
(* ===================================================================== *)

Module WiFi_schedule_props.
Import WiFi_manager WiFi_rotation WiFi_host WiFi_timing_props.

Lemma find_app {A} (f : A -> bool) (l1 l2 : list A) :
  find f (l1 ++ l2) = match find f l1 with Some x => Some x | None => find f l2 end.
Proof.
  induction l1 as [|x l1 IH]; [reflexivity|].
  cbn [app find]. destruct (f x); [reflexivity | exact IH].
Qed.

Lemma find_attempt (s0 : Sketch) (k : Z) (c : WiFiCredential) (l : list Z) :
  wifiList s0 !! Z.to_nat k = Some c ->
  find (up_at s0) (map (pair k) l)
  = option_map (pair k) (find (radio s0 (ssid c) (password c)) l).
Proof.
  intros Hc. induction l as [|t l IH]; [reflexivity|].
  cbn [map find]. unfold up_at at 1. cbn [fst snd]. rewrite Hc.
  destruct (radio s0 (ssid c) (password c) t); [reflexivity | exact IH].
Qed.

Lemma poll_times_wrap (timeout t : Z) :
  poll_times timeout (wrap32 t) = poll_times timeout t.
Proof.
  unfold poll_times. apply map_ext. intros k.
  rewrite <- !Z.add_assoc. apply wrap32_add_l.
Qed.

Lemma polls_sketch : polls SINGLE_WIFI_TIMEOUT = 100%nat.
Proof. reflexivity. Qed.

(** The loop of [ConnectWiFi] from its [i]-th iteration, against the
    schedule of the rotation. *)
Lemma ConnectWiFi_from_schedule (s0 : Sketch) (n : nat) :
  forall (i : nat) (s : Sketch),
    (i + n = length (wifiList s0))%nat ->
    0 <= lastSuccessfulWiFiIndex s0 ->
    wifiList s = wifiList s0 ->
    lastSuccessfulWiFiIndex s = lastSuccessfulWiFiIndex s0 ->
    radio s = radio s0 ->
    millis s = wrap32 (millis s0 + 10100 * Z.of_nat i) ->
    exists s',
      ConnectWiFi_from n (Z.of_nat i) s = Some (tt, s') /\
      wifiList s' = wifiList s0 /\ radio s' = radio s0 /\
      match find (up_at s0) (flat_map (attempt_polls s0) (seq i n)) with
      | Some (k, t) =>
          wifiConnected s' = true /\ lastSuccessfulWiFiIndex s' = k /\
          currentTryIndex s' = k /\ millis s' = t /\
          station s' = (fun c => (ssid c, password c)) <$> wifiList s0 !! Z.to_nat k
      | None =>
          wifiConnected s' = false /\
          lastSuccessfulWiFiIndex s' = lastSuccessfulWiFiIndex s0 /\
          currentTryIndex s' = currentTryIndex s /\
          millis s' = wrap32 (millis s0 + 10100 * Z.of_nat (i + n))
      end.
Proof.
  induction n as [|n IH]; intros i s Hlen Hlast Hl Hc Hr Hms.
  - exists (set_wifiConnected false s). split; [reflexivity|].
    cbn [seq flat_map find wifiList radio set_wifiConnected wifiConnected
           lastSuccessfulWiFiIndex currentTryIndex millis].
    rewrite Nat.add_0_r. repeat split; assumption.
  - cbn [ConnectWiFi_from]. cbv beta iota delta [bind gets].
    set (N := length (wifiList s0)) in *.
    assert (Hrem : Z.rem (lastSuccessfulWiFiIndex s + Z.of_nat i) (WIFI_COUNT s)
                   = (lastSuccessfulWiFiIndex s0 + Z.of_nat i) mod Z.of_nat N).
    { unfold WIFI_COUNT. rewrite Hl, Hc. apply Z.rem_mod_nonneg; lia. }
    rewrite Hrem.
    set (k := (lastSuccessfulWiFiIndex s0 + Z.of_nat i) mod Z.of_nat N).
    assert (Hk : 0 <= k < Z.of_nat N) by (apply Z.mod_pos_bound; lia).
    destruct (lookup_lt_is_Some_2 (wifiList s0) (Z.to_nat k)) as [cred Hcred].
    { fold N. lia. }
    unfold lift, elem_at. destruct (Z.leb_spec 0 k); [|lia].
    rewrite Hl, Hcred.
    rewrite (TryConnectWiFi_run (ssid cred) (password cred) SINGLE_WIFI_TIMEOUT s)
      by (unfold SINGLE_WIFI_TIMEOUT; lia).
    cbn [seq flat_map]. rewrite find_app.
    unfold attempt_polls at 1. fold N. fold k.
    rewrite (find_attempt s0 k cred _ Hcred).
    rewrite Hms, poll_times_wrap, Hr.
    destruct (find (radio s0 (ssid cred) (password cred))
                (poll_times SINGLE_WIFI_TIMEOUT (millis s0 + 10100 * Z.of_nat i)))
      as [t|] eqn:Hfind; cbn [option_map]; cbv beta iota delta [modify].
    + eexists. split; [reflexivity|].
      cbn [wifiList radio wifiConnected lastSuccessfulWiFiIndex currentTryIndex millis
             station set_attempts set_wifiConnected set_millis set_station
             set_lastSuccessfulWiFiIndex set_currentTryIndex].
      rewrite Hcred. repeat split; assumption.
    + match goal with
      | |- context [ConnectWiFi_from n (Z.of_nat i + 1) ?s1] =>
          destruct (IH (Datatypes.S i) s1) as (s' & Hrun & Hw & Hrad & Hout)
      end.
      * lia.
      * exact Hlast.
      * exact Hl.
      * exact Hc.
      * exact Hr.
      * cbn [millis set_attempts set_millis set_station].
        rewrite polls_sketch, <- Z.add_assoc, wrap32_add_l. f_equal. lia.
      * replace (Z.of_nat i + 1) with (Z.of_nat (Datatypes.S i)) by lia.
        exists s'. split; [exact Hrun|]. split; [exact Hw|]. split; [exact Hrad|].
        destruct (find (up_at s0) (flat_map (attempt_polls s0) (seq (Datatypes.S i) n)))
          as [[k' t']|]; [exact Hout|].
        replace (i + Datatypes.S n)%nat with (Datatypes.S i + n)%nat by lia.
        exact Hout.
Qed.

Lemma schedule_length (s : Sketch) :
  length (schedule s) = (100 * length (wifiList s))%nat.
Proof.
  unfold schedule.
  assert (H : forall l : list nat,
             length (flat_map (attempt_polls s) l) = (100 * length l)%nat).
  { induction l as [|j l IH]; [reflexivity|].
    cbn [flat_map]. rewrite length_app, IH. unfold attempt_polls, poll_times.
    rewrite !length_map, length_seq, polls_sketch. cbn [length]. lia. }
  rewrite H, length_seq. reflexivity.
Qed.

(** The loop of [setupWiFi] is the loop of [ConnectWiFi]. *)
Lemma setupWiFi_from_run (n : nat) :
  forall (i : Z) (s : Sketch), setupWiFi_from n i s = ConnectWiFi_from n i s.
Proof.
  induction n as [|n IH]; intros i s; [reflexivity|].
  cbn [setupWiFi_from ConnectWiFi_from]. cbv beta iota delta [bind gets].
  destruct (lift _ s) as [[cred s1]|]; [|reflexivity].
  destruct (TryConnectWiFi _ _ _ s1) as [[[|] s2]|]; [reflexivity | | reflexivity].
  cbv beta iota delta [modify]. apply IH.
Qed.

(** One call of [ConnectWiFi] against the schedule of its rotation. *)
Lemma ConnectWiFi_schedule (s : Sketch) :
  cursor_ok s ->
  0 <= millis s < 2 ^ 32 ->
  exists s',
    ConnectWiFi s = Some (tt, s') /\
    wifiList s' = wifiList s /\
    match find (up_at s) (schedule s) with
    | Some (k, t) =>
        wifiConnected s' = true /\ lastSuccessfulWiFiIndex s' = k /\
        currentTryIndex s' = k /\ millis s' = t /\
        station s' = (fun c => (ssid c, password c)) <$> wifiList s !! Z.to_nat k
    | None =>
        wifiConnected s' = false /\
        lastSuccessfulWiFiIndex s' = lastSuccessfulWiFiIndex s /\
        currentTryIndex s' = currentTryIndex s /\
        millis s' = wrap32 (millis s + 10100 * Z.of_nat (length (wifiList s)))
    end.
Proof.
  intros Hc Hms.
  assert (H0 : 0 <= lastSuccessfulWiFiIndex s) by (destruct Hc as [?|[_ ?]]; lia).
  destruct (ConnectWiFi_from_schedule s (length (wifiList s)) 0%nat s)
    as (s' & Hrun & Hw & _ & Hout); try reflexivity; try assumption.
  { rewrite Z.mul_0_r, Z.add_0_r. unfold wrap32. symmetry. apply Z.mod_small. exact Hms. }
  exists s'. split.
  { cbv beta iota delta [ConnectWiFi bind gets]. unfold WIFI_COUNT.
    rewrite Nat2Z.id. exact Hrun. }
  split; [exact Hw|]. exact Hout.
Qed.

Lemma flag_set (s : Sketch) (b : bool) :
  wifiConnected s = b -> set_wifiConnected b s = s.
Proof. intros <-. destruct s; reflexivity. Qed.

(** [HostWiFiManager] in two steps: the check, if one is due, and the
    rotation, if the flag is down after it. *)
Lemma HostWiFiManager_run (h : Host) :
  HostWiFiManager h
  = (let h1 := set_lastCheckTime
                 (if check_due h then millis (sketch h) else lastCheckTime h)
                 (set_sketch (set_wifiConnected (flag_after_check h) (sketch h)) h) in
     if flag_after_check h then Some (tt, h1) else in_sketch ConnectWiFi h1).
Proof.
  destruct h as [s last down]. unfold flag_after_check, check_due.
  cbn [sketch lastCheckTime disconnected].
  cbv beta iota zeta delta [HostWiFiManager CheckWiFiConnection bind gets modify ret
                              in_sketch set_sketch set_lastCheckTime sketch
                              lastCheckTime disconnected].
  destruct (wrap32 (millis s - last) >=? CHECK_INTERVAL).
  - destruct (WiFi_connected s).
    + cbn [wifiConnected set_wifiConnected]. reflexivity.
    + destruct (down (millis s)); [cbn [wifiConnected set_wifiConnected]; reflexivity|].
      destruct (wifiConnected s) eqn:Hflag; rewrite (flag_set s _ Hflag); reflexivity.
  - destruct (wifiConnected s) eqn:Hflag; rewrite (flag_set s _ Hflag); reflexivity.
Qed.

(** X18. A rotation of [ConnectWiFi], and of [setupWiFi] which runs
    the same loop, from a state whose cursor lies in the list: the
    networks are tried in the order of the rotation, each for 100
    polls that are 100 ms apart, the first poll 100 ms after the
    attempt starts, and an attempt that fails takes 10100 ms. The
    rotation stops at the first poll of this schedule at which the
    network tried can be joined: the flag is set, the cursor moves to
    that network and the clock shows the time of that poll. When no
    poll of the schedule succeeds the flag is cleared, the cursor
    stays, and the call has blocked for 10100 ms times the number of
    networks. *)
Theorem rotation_schedule (s : Sketch) :
  cursor_ok s ->
  0 <= millis s < 2 ^ 32 ->
  setupWiFi s = ConnectWiFi s /\
  length (schedule s) = (100 * length (wifiList s))%nat /\
  exists s',
    ConnectWiFi s = Some (tt, s') /\
    wifiList s' = wifiList s /\
    match find (up_at s) (schedule s) with
    | Some (k, t) =>
        wifiConnected s' = true /\ lastSuccessfulWiFiIndex s' = k /\
        currentTryIndex s' = k /\ millis s' = t /\
        station s' = (fun c => (ssid c, password c)) <$> wifiList s !! Z.to_nat k
    | None =>
        wifiConnected s' = false /\
        lastSuccessfulWiFiIndex s' = lastSuccessfulWiFiIndex s /\
        currentTryIndex s' = currentTryIndex s /\
        millis s' = wrap32 (millis s + 10100 * Z.of_nat (length (wifiList s)))
    end.
Proof.
  intros Hc Hms.
  split.
  { unfold setupWiFi, ConnectWiFi. cbv beta iota delta [bind gets].
    apply setupWiFi_from_run. }
  split.
  { apply schedule_length. }
  apply ConnectWiFi_schedule; assumption.
Qed.

(** The sketch at power-on where only its second network is in reach:
    the first network takes 10100 ms, the first poll of the second
    succeeds 100 ms later. *)
Lemma rotation_schedule_witness :
  exists s',
    setupWiFi (boot (only_network "iWave")) = Some (tt, s') /\
    wifiConnected s' = true /\ lastSuccessfulWiFiIndex s' = 1 /\ millis s' = 10200.
Proof.
  assert (Hc : cursor_ok (boot (only_network "iWave"))) by (left; vm_compute; split; [discriminate | reflexivity]).
  assert (Hms : 0 <= millis (boot (only_network "iWave")) < 2 ^ 32)
    by (cbn [millis boot]; lia).
  destruct (rotation_schedule _ Hc Hms) as (Hsame & _ & s' & Hrun & _ & Hout).
  assert (E : find (up_at (boot (only_network "iWave")))
                (schedule (boot (only_network "iWave"))) = Some (1, 10200))
    by (vm_compute; reflexivity).
  rewrite E in Hout. destruct Hout as (Hflag & Hlast & _ & Ht & _).
  exists s'. split; [rewrite Hsame; exact Hrun|].
  split; [exact Hflag|]. split; [exact Hlast | exact Ht].
Defined.

(** X19. [HostWiFiManager], called on every pass of [loop]. It asks
    for the status of the station only when 60000 ms have passed, on
    the 32-bit clock, since it last did; the flag then follows the
    status when that is WL_CONNECTED or WL_DISCONNECTED and keeps its
    value for any other answer. If the flag is up after this step the
    call ends there: no connection is attempted and the clock does not
    move, so a link that was lost is not noticed before the next check,
    and not even then while the status is neither of the two. If the
    flag is down the call runs one complete rotation of [ConnectWiFi]
    at once, without waiting for any interval: it blocks until the
    first poll of the schedule that succeeds, or for 10100 ms per
    network when none does. *)
Theorem HostWiFiManager_policy (h : Host) :
  cursor_ok (sketch h) ->
  0 <= millis (sketch h) < 2 ^ 32 ->
  exists h',
    HostWiFiManager h = Some (tt, h') /\
    disconnected h' = disconnected h /\
    lastCheckTime h' = (if check_due h then millis (sketch h) else lastCheckTime h) /\
    (flag_after_check h = true -> sketch h' = set_wifiConnected true (sketch h)) /\
    (wifiConnected (sketch h) = true ->
     check_due h = false \/
     (WiFi_connected (sketch h) = false /\
      disconnected h (millis (sketch h)) = false) ->
     sketch h' = sketch h) /\
    (flag_after_check h = false ->
     ConnectWiFi (set_wifiConnected false (sketch h)) = Some (tt, sketch h') /\
     wifiList (sketch h') = wifiList (sketch h) /\
     match find (up_at (sketch h)) (schedule (sketch h)) with
     | Some (k, t) =>
         wifiConnected (sketch h') = true /\
         lastSuccessfulWiFiIndex (sketch h') = k /\ millis (sketch h') = t
     | None =>
         wifiConnected (sketch h') = false /\
         lastSuccessfulWiFiIndex (sketch h') = lastSuccessfulWiFiIndex (sketch h) /\
         millis (sketch h')
         = wrap32 (millis (sketch h) + 10100 * Z.of_nat (length (wifiList (sketch h))))
     end).
Proof.
  intros Hc Hms. rewrite HostWiFiManager_run. cbv zeta.
  destruct (flag_after_check h) eqn:Hflag.
  - eexists. split; [reflexivity|]. cbn [sketch lastCheckTime disconnected set_sketch
                                           set_lastCheckTime].
    split; [reflexivity|]. split; [reflexivity|]. split; [reflexivity|].
    split; [|discriminate].
    intros Hup _. apply flag_set. exact Hup.
  - destruct (ConnectWiFi_schedule (set_wifiConnected false (sketch h)))
      as (s' & Hrun & Hw & Hout); [exact Hc | exact Hms |].
    unfold in_sketch. cbn [sketch set_sketch set_lastCheckTime]. rewrite Hrun.
    eexists. split; [reflexivity|].
    cbn [sketch lastCheckTime disconnected set_sketch set_lastCheckTime].
    split; [reflexivity|]. split; [reflexivity|]. split; [discriminate|].
    split.
    { intros Hup Hcase. exfalso. unfold flag_after_check in Hflag.
      destruct Hcase as [Hdue | [Hdown Hother]].
      - rewrite Hdue, Hup in Hflag. discriminate.
      - rewrite Hdown, Hother, Hup in Hflag. destruct (check_due h); discriminate. }
    intros _. split; [reflexivity|]. split; [exact Hw|].
    change (schedule (set_wifiConnected false (sketch h))) with (schedule (sketch h))
      in Hout.
    change (up_at (set_wifiConnected false (sketch h))) with (up_at (sketch h)) in Hout.
    destruct (find (up_at (sketch h)) (schedule (sketch h))) as [[k t]|].
    + destruct Hout as (H1 & H2 & _ & H4 & _). repeat split; assumption.
    + destruct Hout as (H1 & H2 & _ & H4). repeat split; assumption.
Qed.

(** The sketch where no network is in reach: every call blocks for the
    two attempts of a rotation, 20200 ms, and leaves the flag down, so
    the next call does the same. *)
Lemma HostWiFiManager_policy_witness :
  exists h' h'',
    HostWiFiManager (host_boot (fun _ _ _ => false) (fun _ => true)) = Some (tt, h') /\
    HostWiFiManager h' = Some (tt, h'') /\
    millis (sketch h') = 20200 /\ millis (sketch h'') = 40400 /\
    wifiConnected (sketch h'') = false.
Proof.
  set (h := host_boot (fun _ _ _ => false) (fun _ => true)).
  assert (Hc : cursor_ok (sketch h))
    by (left; vm_compute; split; [discriminate | reflexivity]).
  assert (Hms : 0 <= millis (sketch h) < 2 ^ 32) by (cbn; lia).
  destruct (HostWiFiManager_policy h Hc Hms) as (h' & Hrun & _ & _ & _ & _ & Hrot).
  destruct (Hrot eq_refl) as (_ & Hw & Hout).
  assert (E : find (up_at (sketch h)) (schedule (sketch h)) = None)
    by (vm_compute; reflexivity).
  rewrite E in Hout. destruct Hout as (Hflag & Hlast & Ht).
  assert (Hc' : cursor_ok (sketch h')).
  { left. unfold WIFI_COUNT. rewrite Hlast, Hw. vm_compute.
    split; [discriminate | reflexivity]. }
  assert (Hms' : 0 <= millis (sketch h') < 2 ^ 32) by (rewrite Ht; vm_compute; split; [discriminate | reflexivity]).
  destruct (HostWiFiManager_policy h' Hc' Hms') as (h'' & Hrun' & _).
  exists h', h''. split; [exact Hrun|]. split; [exact Hrun'|].
  split; [rewrite Ht; reflexivity|].
  assert (R : HostWiFiManager h = Some (tt, h')) by exact Hrun.
  assert (R1 : snd <$> HostWiFiManager h
               = Some (set_sketch
                         (set_attempts [(0, false); (1, false)]
                            (set_millis 20200
                               (set_station (Some ("iWave", "")) (sketch h)))) h))
    by (vm_compute; reflexivity).
  rewrite R in R1. cbn in R1. injection R1 as ->.
  match type of Hrun' with
  | HostWiFiManager ?m = _ =>
      assert (R2 : (fun x => (millis (sketch x), wifiConnected (sketch x)))
                     <$> (snd <$> HostWiFiManager m)
                   = Some (40400, false)) by (vm_compute; reflexivity)
  end.
  rewrite Hrun' in R2. cbn in R2. injection R2 as -> ->. split; reflexivity.
Defined.

End WiFi_schedule_props.

(* ===================================================================== *)
(** ** From the identity of the chip to the topics of the session        *)
(* ===================================================================== *)

Module Startup_props.
Import ArduinoString Firmware Shelf_facts Router_facts Command_router_spec
       Config_request_spec Broker_link_spec Scan_notions Frame_notions Frame_props
       Status_props Broker_session Identity_props Callback_props Session_props
       Connection_props.

(** The topics of a device are told apart from the shared ones by the
    character after shelf/, and from each other by what follows the
    identity. *)
Lemma device_topics_distinct (serial : string) :
  let dev := "ESP32S3_" +:+ serial in
  NoDup [ "shelf/command"; "shelf/" +:+ dev +:+ "/command"; "shelf/discovery";
          "shelf/heartbeat"; "shelf/" +:+ dev +:+ "/config/request" ].
Proof.
  cbv zeta.
  assert (Hsix : forall rest : string,
             String.get 6 ("shelf/" +:+ ("ESP32S3_" +:+ serial) +:+ rest) = Some "E"%char)
    by (intros rest; reflexivity).
  assert (Hdiff : "shelf/" +:+ ("ESP32S3_" +:+ serial) +:+ "/command"
                  <> "shelf/" +:+ ("ESP32S3_" +:+ serial) +:+ "/config/request").
  { intros H. apply String.app_inj in H. apply String.app_inj in H. discriminate. }
  assert (Hlit : forall (lit rest : string),
             String.get 6 lit <> Some "E"%char ->
             lit <> "shelf/" +:+ ("ESP32S3_" +:+ serial) +:+ rest).
  { intros lit rest Hl E. apply Hl. rewrite E. apply Hsix. }
  repeat (apply NoDup_cons; split;
          [rewrite ?not_elem_of_cons; repeat split; try apply not_elem_of_nil|]).
  all: try apply NoDup_nil; try exact I.
  all: try (apply Hlit; cbn; discriminate).
  all: try (intros E; symmetry in E; revert E; apply Hlit; cbn; discriminate).
  all: try discriminate.
  all: try exact Hdiff.
Qed.

(** X20. The start-up in the order of [setup]: [getDeviceId], then
    [setupMQTT] on a node with the Wi-Fi link up and a broker that
    accepts. The session then carries the identity of the chip
    throughout: the client is subscribed to the command topic and to
    the configuration request topic built around ESP32S3_ and the
    serial number, besides shelf/discovery and shelf/heartbeat, and
    answers on the two response topics built around the same identity.
    The five topics the callback knows are pairwise distinct, so no
    branch of the callback hides another: a message on the command
    topic of the device reaches the command router and a message on its
    request topic reaches the configuration handler. *)
Theorem setup_identity_then_session (n : Node) (static : IPAddress) :
  parses_to (mqtt_server_ip (world n)) static ->
  mqtt_connected (world n) = false ->
  wifi_connected (world n) = true ->
  broker n (length (connect_log n)) = true ->
  exists n1 n2,
    getDeviceId n = Some (tt, n1) /\
    setupMQTT n1 = Some (tt, n2) /\
    let dev := "ESP32S3_" +:+ serial_number n2 in
    let command := "shelf/" +:+ dev +:+ "/command" in
    let request := "shelf/" +:+ dev +:+ "/config/request" in
    device_id (world n2) = dev /\
    mqtt_connected (world n2) = true /\
    subscribe_log n2
    = subscribe_log n ++ [command; "shelf/discovery"; "shelf/heartbeat"; request] /\
    device_command_topic n2 = command /\
    device_config_request_topic n2 = request /\
    device_config_response_topic (world n2) = "shelf/" +:+ dev +:+ "/config/response" /\
    device_calibrate_response_topic (world n2)
    = "shelf/" +:+ dev +:+ "/calibrate/response" /\
    NoDup ["shelf/command"; command; "shelf/discovery"; "shelf/heartbeat"; request] /\
    (forall payload : string,
       mqttCallback command payload n2
       = in_world (handleMQTTCommand (message_of payload)) n2) /\
    (forall payload : string,
       mqttCallback request payload n2
       = in_world (handleShelfConfigRequest (message_of payload)) n2).
Proof.
  intros Hstatic Hmqtt Hwifi Hacc.
  pose proof (getDeviceId_run n) as Hid. cbv zeta in Hid.
  set (serial := toUpperCase (of_hex (wrap32 (Z.shiftr (efuse_mac n) 32))
                              +:+ of_hex (wrap32 (efuse_mac n)))) in Hid.
  match type of Hid with _ = Some (tt, ?m) => set (n1 := m) in * end.
  assert (Hstatic1 : parses_to (mqtt_server_ip (world n1)) static)
    by (destruct n as [[] ]; exact Hstatic).
  pose proof (setupMQTT_run n1 static Hstatic1) as Hset. cbv zeta in Hset.
  assert (Hwifi1 : wifi_connected (world n1) = true)
    by (destruct n as [[] ]; exact Hwifi).
  rewrite Hwifi1 in Hset.
  match type of Hset with _ = reconnectMQTT ?m => set (n3 := m) in * end.
  destruct (reconnectMQTT_attempt n3) as
    (ok & ip & n2 & _ & Hrun & _ & _ & _ & Hconn & _ & Hyes & _ & _ & _ & _ & _
     & Hdev & _ & _ & _ & _ & Hcmd & _ & _ & _ & _ & _ & _ & _ & Hser).
  { destruct n as [[] ]; exact Hwifi. }
  { destruct n as [[] ]; exact Hmqtt. }
  assert (Hacc3 : broker n3 (length (connect_log n3)) = true)
    by (destruct n as [[] ]; exact Hacc).
  destruct (Hyes Hacc3) as (Hsubs & Hreq & Hresp & Hcal & _).
  assert (Hser3 : serial_number n3 = serial) by (destruct n as [[] ]; reflexivity).
  assert (Hdev3 : device_id (world n3) = "ESP32S3_" +:+ serial)
    by (destruct n as [[] ]; reflexivity).
  assert (Hcmd3 : device_command_topic n3 = "shelf/" +:+ ("ESP32S3_" +:+ serial) +:+ "/command")
    by (destruct n as [[] ]; reflexivity).
  assert (Hsubs3 : subscribe_log n3 = subscribe_log n)
    by (destruct n as [[] ]; reflexivity).
  rewrite Hser3 in Hser. rewrite Hdev3 in Hdev, Hsubs, Hreq, Hresp, Hcal.
  rewrite Hcmd3 in Hcmd, Hsubs. rewrite Hsubs3 in Hsubs. rewrite Hacc3 in Hconn.
  exists n1, n2. split; [exact Hid|]. split; [rewrite Hset; exact Hrun|].
  cbv zeta. rewrite Hser.
  split; [exact Hdev|]. split; [exact Hconn|]. split; [exact Hsubs|].
  split; [exact Hcmd|]. split; [exact Hreq|]. split; [exact Hresp|].
  split; [exact Hcal|]. split; [apply device_topics_distinct|].
  pose proof (device_topics_distinct serial) as Hnd. cbv zeta in Hnd.
  split; intros payload; unfold mqttCallback; cbv zeta;
    unfold bind at 1, gets at 1; unfold bind at 1, gets at 1;
    rewrite Hcmd, Hreq; unfold equals.
  - rewrite bool_decide_eq_true_2 by reflexivity. reflexivity.
  - apply NoDup_cons in Hnd as [Hshared Hnd].
    apply NoDup_cons in Hnd as [Hcommand Hnd].
    apply NoDup_cons in Hnd as [Hdisc Hnd].
    apply NoDup_cons in Hnd as [Hbeat _].
    apply not_elem_of_cons in Hshared as [_ Hshared].
    apply not_elem_of_cons in Hshared as [_ Hshared].
    apply not_elem_of_cons in Hshared as [_ Hshared].
    apply not_elem_of_cons in Hshared as [Hshared _].
    apply not_elem_of_cons in Hcommand as [_ Hcommand].
    apply not_elem_of_cons in Hcommand as [_ Hcommand].
    apply not_elem_of_cons in Hcommand as [Hcommand _].
    apply not_elem_of_cons in Hdisc as [_ Hdisc].
    apply not_elem_of_cons in Hdisc as [Hdisc _].
    apply not_elem_of_cons in Hbeat as [Hbeat _].
    rewrite (bool_decide_eq_false_2 (_ = "shelf/" +:+ _ +:+ "/command"))
      by (intros E; apply Hcommand; symmetry; exact E).
    rewrite (bool_decide_eq_false_2 (_ = mqtt_topic_command))
      by (intros E; apply Hshared; symmetry; exact E).
    rewrite (bool_decide_eq_false_2 (_ = mqtt_topic_discovery))
      by (intros E; apply Hdisc; symmetry; exact E).
    rewrite (bool_decide_eq_false_2 (_ = mqtt_topic_heartbeat))
      by (intros E; apply Hbeat; symmetry; exact E).
    rewrite bool_decide_eq_true_2 by reflexivity. reflexivity.
Qed.

(** The chip 24A160FFEE98 on a network whose broker accepts. *)
Lemma setup_identity_then_session_witness :
  exists n1 n2,
    getDeviceId (power_on (set_links false true offline_world) 0x24A160FFEE98
                   (fun _ => true) (fun _ => 0x1a2b) [] 0) = Some (tt, n1) /\
    setupMQTT n1 = Some (tt, n2) /\
    subscribe_log n2
    = [ "shelf/ESP32S3_24A160FFEE98/command"; "shelf/discovery"; "shelf/heartbeat";
        "shelf/ESP32S3_24A160FFEE98/config/request" ].
Proof.
  set (n := power_on (set_links false true offline_world) 0x24A160FFEE98
              (fun _ => true) (fun _ => 0x1a2b) [] 0).
  assert (Hstatic : parses_to (mqtt_server_ip (world n))
                      {| ip0 := 192; ip1 := 168; ip2 := 0; ip3 := 109 |}).
  { intros a. vm_compute. reflexivity. }
  destruct (setup_identity_then_session n _ Hstatic eq_refl eq_refl eq_refl)
    as (n1 & n2 & Hid & Hset & _ & _ & Hsubs & _).
  exists n1, n2. split; [exact Hid|]. split; [exact Hset|].
  match type of Hid with
  | ?lhs = _ =>
      let r := eval vm_compute in lhs in
      assert (E : lhs = r) by (vm_compute; reflexivity)
  end.
  rewrite E in Hid. injection Hid as <-.
  match type of Hset with
  | ?lhs = _ =>
      let r := eval vm_compute in lhs in
      assert (E2 : lhs = r) by (vm_compute; reflexivity)
  end.
  rewrite E2 in Hset. injection Hset as <-.
  rewrite Hsubs. vm_compute. reflexivity.
Defined.

End Startup_props.
